(** * GBA centrality: adjacency powers and guilt-by-association scores

    A shallow embedding of [scripts/GBA_centrality.py] and
    [dev/contributions_at_distances.py]:

    - [get_adjacency_matrices] builds the boolean powers of the
      interactome's adjacency matrix, clearing the diagonal after every
      product;
    - [calculate_scores] accumulates, for every distance, the decayed
      number of causal genes and the decayed number of genes reached, and
      divides the two;
    - [calculate_contributions] runs the same loop and saves the
      per-distance terms.

    Sparse arrays are represented by their dense value (a list of rows),
    numpy's uint8 arithmetic by [Z] with the reduction modulo 256 written
    out, Python exceptions by the [res] monad, and binary64 arithmetic by
    the interface [PyFloat], instantiated with the Standard Library's
    [spec_float] at precision 53. *)

From Stdlib Require Import ZArith Bool Lia.
From Stdlib Require Import Floats.SpecFloat Floats.FloatOps.
From stdpp Require Import base list gmap strings pretty.

Set Default Proof Using "Type".
Local Open Scope Z_scope.

(** ** Python exceptions *)

Inductive exn : Set :=
  | ZeroDivisionError
  | OverflowError
  | ValueError
  | AttributeError
  | IndexError
  | NetworkXError.

Inductive res (A : Type) : Type :=
  | Ok (a : A)
  | Raise (e : exn).
Arguments Ok {A} a.
Arguments Raise {A} e.

Definition bind {A B : Type} (m : res A) (f : A → res B) : res B :=
  match m with
  | Ok a => f a
  | Raise e => Raise e
  end.

Notation "x <- c ;; k" := (bind c (λ x, k))
  (at level 100, c at next level, k at level 200, right associativity, only parsing).

Definition is_ok {A} (m : res A) : bool :=
  match m with Ok _ => true | Raise _ => false end.

(** ** Graphs and sparse boolean arrays *)

(** [networkx.Graph]: the nodes in insertion order (the keys of the node
    dictionary) and the undirected edges.  The edges carry no weight, so
    each one is [True] in the boolean adjacency matrix. *)
Record Graph : Type := {
  nodes : list string;
  edges : list (string * string);
}.

Definition has_edge (G : Graph) (u v : string) : bool :=
  bool_decide ((u, v) ∈ edges G ∨ (v, u) ∈ edges G).

(** A [csr_array] with [dtype=bool], by value: the list of its rows. *)
Abbreviation matrix := (list (list bool)).

Definition entry (M : matrix) (i j : nat) : bool :=
  default false (M !! i ≫= (.!! j)).

Definition ncols (M : matrix) : nat := length (default [] (head M)).

Definition shape (M : matrix) (m n : nat) : Prop :=
  length M = m ∧ Forall (λ row, length row = n) M.

(** [networkx.to_scipy_sparse_array(G, dtype=bool)]: rows and columns in
    the order of [G.nodes()]; a graph without nodes is refused. *)
Definition to_scipy_sparse_array (G : Graph) : res matrix :=
  match nodes G with
  | [] => Raise NetworkXError
  | _ => Ok ((λ u, has_edge G u <$> nodes G) <$> nodes G)
  end.

(** [M.diagonal()] of a square array. *)
Definition diagonal (M : matrix) : list bool :=
  imap (λ i row, default false (row !! i)) M.

(** [v.nonzero()]: the positions holding a nonzero value. *)
Definition nonzero (v : list bool) : list nat :=
  filter (λ i, v !! i = Some true) (seq 0 (length v)).

(** [M[i, j] = b] *)
Definition set_entry (M : matrix) (i j : nat) (b : bool) : matrix :=
  alter (<[j := b]>) i M.

(** [nonzero, = res.diagonal().nonzero(); res[nonzero, nonzero] = 0] *)
Definition zero_nonzero_diagonal (M : matrix) : matrix :=
  let nz := nonzero (diagonal M) in
  foldl (λ M i, set_entry M i i false) M nz.

(** [M.setdiag(0)], the full clear the source's comment compares with. *)
Definition setdiag0 (M : matrix) : matrix :=
  imap (λ i row, <[i := false]> row) M.

Definition column (A : matrix) (j : nat) : list bool :=
  (λ row, default false (row !! j)) <$> A.

(** Row times column over the booleans: sum is [||], product is [&&]. *)
Definition bool_dot (u v : list bool) : bool :=
  foldl (λ acc ab, acc || (ab.1 && ab.2)) false (zip u v).

(** [X @ A] for two boolean arrays. *)
Definition matmul (X A : matrix) : matrix :=
  (λ row, (λ j, bool_dot row (column A j)) <$> seq 0 (ncols A)) <$> X.

(** ** The adjacency power builder *)

(** An element of the list [adjacency_matrices]: the integer placeholder
    at index 0, or a sparse boolean array. *)
Inductive pyobj : Type :=
  | PyInt (z : Z)
  | CsrBool (M : matrix).

(** [range(a, b)] *)
Definition range (a b : Z) : list Z :=
  (λ k : nat, a + Z.of_nat k) <$> seq 0 (Z.to_nat (b - a)).

(** One turn of the loop [for power in range(2, d_max + 1)]. *)
Definition power_step (A : matrix) (st : matrix * list pyobj) (power : Z)
  : matrix * list pyobj :=
  let res := matmul st.1 A in
  let res := zero_nonzero_diagonal res in
  (res, st.2 ++ [CsrBool res]).

(** The builder, written with the same text in both scripts.  Its debug
    message has no part in the result. *)
Definition get_adjacency_matrices (G : Graph) (d_max : Z) : res (list pyobj) :=
  let adjacency_matrices := [PyInt 0] in
  A <- to_scipy_sparse_array G ;;
  (* [res = A] binds a second name to the same array: the clearing below
     is done in place and is seen through [A] as well. *)
  let A := zero_nonzero_diagonal A in
  let res := A in
  let adjacency_matrices := adjacency_matrices ++ [CsrBool res] in
  let st := foldl (power_step A) (res, adjacency_matrices) (range 2 (d_max + 1)) in
  Ok st.2.

(** ** Numbers

    Python's [float] and numpy's [float64] are IEEE binary64.  The scorer
    is written once over the operations it uses.  The two scalar
    operations of Python that can raise are kept apart from numpy's
    element-wise ones, which never do. *)

Class PyFloat (F : Type) : Type := {
  f_zero : F;                      (* 0.0, as in [numpy.zeros] *)
  f_one : F;                       (* 1.0, as in [numpy.ones] *)
  f_add : F → F → F;               (* numpy [+] on float64 *)
  f_mul : F → F → F;               (* numpy [*] on float64 *)
  f_div : F → F → F;               (* numpy [/] on float64 *)
  f_of_int : Z → F;                (* an integer ([uint8]) cast to float64 *)
  py_truediv : F → F → res F;      (* [x / y] on two Python floats *)
  py_pow : F → nat → res F;        (* [x ** d], [d] a Python int *)
  py_int : F → res Z;              (* [int(x)] *)
}.

(** A [uint8] sum.  scipy gives the product of a [bool] array with a
    [uint8] vector the common type of the two, [uint8], and sums each row
    in that type. *)
Definition add_u8 (a b : Z) : Z := (a + b) mod 256.

(** One row of [A.dot(v)] for a boolean [A] and a [uint8] vector: the
    stored entries are [True], that is 1 once cast. *)
Definition row_dot_u8 (row : list bool) (v : list Z) : Z :=
  foldl (λ acc ax, if ax.1 : bool then add_u8 acc ax.2 else acc) 0 (zip row v).

(** The two kinds of file of the diagnostic mode. *)
Inductive npz_kind : Set := ScoresFile | NormFactorsFile.

Global Instance npz_kind_eq_dec : EqDecision npz_kind.
Proof. solve_decision. Defined.

Section scorer.
Context {F : Type} `{PyFloat F}.

(** One row of [A.dot(v)] for a boolean [A] and a [float64] vector.  An
    entry cleared on the diagonal may stay stored as an explicit
    [False]; it adds [0.0 * x], which leaves a sum of ones as it is. *)
Definition row_dot_f64 (row : list bool) (v : list F) : F :=
  foldl (λ acc ax, if ax.1 : bool then f_add acc (f_mul f_one ax.2) else acc)
        f_zero (zip row v).

(** [A.dot(v)]: the placeholder has no such method, and the number of
    columns must be the length of [v]. *)
Definition dot {T} (row_dot : list bool → list T → T) (A : pyobj) (v : list T)
  : res (list T) :=
  match A with
  | PyInt _ => Raise AttributeError
  | CsrBool M =>
      if forallb (λ row, bool_decide (length row = length v)) M
      then Ok ((λ row, row_dot row v) <$> M)
      else Raise ValueError
  end.

(** [acc += x] on float64 arrays: [x] of length 1 is broadcast. *)
Definition np_iadd (acc x : list F) : res (list F) :=
  if bool_decide (length x = length acc) then Ok (zip_with f_add acc x)
  else if bool_decide (length x = 1%nat)
       then Ok ((λ a, f_add a (default f_zero (head x))) <$> acc)
       else Raise ValueError.

(** The loop that fills [causal_genes_vec]. *)
Definition indicator_step (causal_genes : gmap string Z)
    (st : list Z * nat) (n : string) : list Z * nat :=
  let '(causal_genes_vec, ni) := st in
  let causal_genes_vec :=
    if bool_decide (is_Some (causal_genes !! n))
    then <[ni := 1]> causal_genes_vec
    else causal_genes_vec in
  (causal_genes_vec, S ni).

Definition causal_indicator (interactome : Graph) (causal_genes : gmap string Z)
  : list Z :=
  let causal_genes_vec := replicate (length (nodes interactome)) 0 in
  (foldl (indicator_step causal_genes) (causal_genes_vec, 0%nat)
         (nodes interactome)).1.

(** [alpha ** d * A.dot(causal_genes_vec)] *)
Definition score_term (alpha : F) (d : nat) (A : pyobj) (causal_genes_vec : list Z)
  : res (list F) :=
  a <- py_pow alpha d ;;
  v <- dot row_dot_u8 A causal_genes_vec ;;
  Ok ((λ x, f_mul a (f_of_int x)) <$> v).

(** [(alpha / alpha_norm) ** d * A.dot(ones_vec)] *)
Definition norm_term (alpha alpha_norm : F) (d : nat) (A : pyobj) (ones_vec : list F)
  : res (list F) :=
  r <- py_truediv alpha alpha_norm ;;
  b <- py_pow r d ;;
  w <- dot row_dot_f64 A ones_vec ;;
  Ok (f_mul b <$> w).

(** [adjacency_matrices[d]] *)
Definition getitem (adjacency_matrices : list pyobj) (d : nat) : res pyobj :=
  from_option Ok (Raise IndexError) (adjacency_matrices !! d).

(** The body of [for d in range(1, len(adjacency_matrices))] in
    [calculate_scores]. *)
Definition scores_step (adjacency_matrices : list pyobj)
    (causal_genes_vec : list Z) (ones_vec : list F) (alpha alpha_norm : F)
    (st : res (list F * list F)) (d : nat) : res (list F * list F) :=
  acc <- st ;;
  let '(scores_vec, norm_factors_vec) := acc in
  A <- getitem adjacency_matrices d ;;
  t <- score_term alpha d A causal_genes_vec ;;
  scores_vec <- np_iadd scores_vec t ;;
  u <- norm_term alpha alpha_norm d A ones_vec ;;
  norm_factors_vec <- np_iadd norm_factors_vec u ;;
  Ok (scores_vec, norm_factors_vec).

(** [calculate_scores] up to the end of its loop: the two accumulators
    [(scores_vec, norm_factors_vec)]. *)
Definition accumulate (interactome : Graph) (adjacency_matrices : list pyobj)
    (causal_genes : gmap string Z) (alpha alpha_norm : F)
  : res (list F * list F) :=
  let causal_genes_vec := causal_indicator interactome causal_genes in
  let scores_vec := replicate (length causal_genes_vec) f_zero in
  let norm_factors_vec := replicate (length causal_genes_vec) f_zero in
  let ones_vec := replicate (length causal_genes_vec) f_one in
  foldl (scores_step adjacency_matrices causal_genes_vec ones_vec alpha alpha_norm)
        (Ok (scores_vec, norm_factors_vec))
        (seq 1 (length adjacency_matrices - 1)).

(** [d[k] = v] on a Python dictionary, kept in insertion order. *)
Fixpoint dict_set (d : list (string * F)) (k : string) (v : F) : list (string * F) :=
  match d with
  | [] => [(k, v)]
  | (k', v') :: d' =>
      if decide (k = k') then (k, v) :: d' else (k', v') :: dict_set d' k v
  end.

(** [dict(pairs)] *)
Definition dict (pairs : list (string * F)) : list (string * F) :=
  foldl (λ d kv, dict_set d kv.1 kv.2) [] pairs.

Definition calculate_scores (interactome : Graph) (adjacency_matrices : list pyobj)
    (causal_genes : gmap string Z) (alpha alpha_norm : F)
  : res (list (string * F)) :=
  acc <- accumulate interactome adjacency_matrices causal_genes alpha alpha_norm ;;
  let '(scores_vec, norm_factors_vec) := acc in
  let scores_vec_normalized := zip_with f_div scores_vec norm_factors_vec in
  let scores := dict (zip (nodes interactome) scores_vec_normalized) in
  Ok scores.

(** *** Diagnostic mode *)

(** A file written by [numpy.savez]: the fields of its name and the
    array saved.  [npz_alpha] is the value of which the name holds
    [str(alpha).replace('.', '')]. *)
Record npz : Type := {
  npz_kind_of : npz_kind;
  npz_patho : string;
  npz_d : nat;
  npz_alpha : F;
  npz_dmax : Z;
  npz_alphanorm : Z;
  npz_array : list F;
}.

(** The fallible part of one turn of the loop of
    [calculate_contributions]; both files are written after it. *)
Definition contributions_turn (adjacency_matrices : list pyobj)
    (causal_genes_vec : list Z) (ones_vec : list F) (alpha alpha_norm : F)
    (scores_vec norm_factors_vec : list F) (d : nat)
  : res (list F * list F * Z * (list F * list F)) :=
  A <- getitem adjacency_matrices d ;;
  scores_vec_tmp <- score_term alpha d A causal_genes_vec ;;
  scores_vec <- np_iadd scores_vec scores_vec_tmp ;;
  norm_factors_vec_tmp <- norm_term alpha alpha_norm d A ones_vec ;;
  norm_factors_vec <- np_iadd norm_factors_vec norm_factors_vec_tmp ;;
  ALPHA_NORM <- py_int alpha_norm ;;
  Ok (scores_vec_tmp, norm_factors_vec_tmp, ALPHA_NORM,
        (scores_vec, norm_factors_vec)).

(** The state is the list of files written so far and the accumulators,
    or the exception that stopped the loop. *)
Definition contributions_step (adjacency_matrices : list pyobj)
    (causal_genes_vec : list Z) (ones_vec : list F) (alpha : F) (d_max : Z)
    (alpha_norm : F) (patho : string)
    (st : list npz * res (list F * list F)) (d : nat)
  : list npz * res (list F * list F) :=
  match st.2 with
  | Raise e => st
  | Ok (scores_vec, norm_factors_vec) =>
      match contributions_turn adjacency_matrices causal_genes_vec ones_vec
              alpha alpha_norm scores_vec norm_factors_vec d with
      | Raise e => (st.1, Raise e)
      | Ok (scores_vec_tmp, norm_factors_vec_tmp, ALPHA_NORM, acc) =>
          let file kind arr :=
            {| npz_kind_of := kind; npz_patho := patho; npz_d := d;
               npz_alpha := alpha; npz_dmax := d_max;
               npz_alphanorm := ALPHA_NORM; npz_array := arr |} in
          (st.1 ++ [file ScoresFile scores_vec_tmp;
                    file NormFactorsFile norm_factors_vec_tmp],
           Ok acc)
      end
  end.

(** The function returns nothing: its result is the files written, and
    the accumulators it held when it stopped (or the exception).  Every
    write is taken to succeed. *)
Definition calculate_contributions (interactome : Graph)
    (adjacency_matrices : list pyobj) (causal_genes : gmap string Z)
    (alpha : F) (d_max : Z) (alpha_norm : F) (patho : string)
  : list npz * res (list F * list F) :=
  let causal_genes_vec := causal_indicator interactome causal_genes in
  let scores_vec := replicate (length causal_genes_vec) f_zero in
  let norm_factors_vec := replicate (length causal_genes_vec) f_zero in
  let ones_vec := replicate (length causal_genes_vec) f_one in
  foldl (contributions_step adjacency_matrices causal_genes_vec ones_vec
           alpha d_max alpha_norm patho)
        ([], Ok (scores_vec, norm_factors_vec))
        (seq 1 (length adjacency_matrices - 1)).

(** The arrays of one kind among the files written, in writing order. *)
Definition saved_arrays (kind : npz_kind) (files : list npz) : list (list F) :=
  npz_array <$> filter (λ f, npz_kind_of f = kind) files.

End scorer.

(** ** Binary64

    The operations on [spec_float] at precision 53 and maximal exponent
    1024 are the IEEE ones.  [x ** d] is the C library's [pow]; it is
    taken here as [d] rounded products, which is what [pow] returns when
    the products are exact, with Python's [OverflowError] when a finite
    base gives an infinite result. *)

Module B64.

Definition zero : spec_float := S754_zero false.
Definition one : spec_float := S754_finite false 4503599627370496 (-52).
Definition half : spec_float := S754_finite false 4503599627370496 (-53).
Definition tiny : spec_float := S754_finite false 1 (-1074).
Definition add : spec_float → spec_float → spec_float := SFadd prec emax.
Definition mul : spec_float → spec_float → spec_float := SFmul prec emax.
Definition div : spec_float → spec_float → spec_float := SFdiv prec emax.
Definition of_int (z : Z) : spec_float := binary_normalize prec emax z 0 false.

Definition is_zero (x : spec_float) : bool :=
  match x with S754_zero _ => true | _ => false end.
Definition is_nan (x : spec_float) : bool :=
  match x with S754_nan => true | _ => false end.
Definition is_inf (x : spec_float) : bool :=
  match x with S754_infinity _ => true | _ => false end.
Definition is_finite (x : spec_float) : bool :=
  match x with S754_zero _ | S754_finite _ _ _ => true | _ => false end.

Definition truediv (x y : spec_float) : res spec_float :=
  if is_zero y then Raise ZeroDivisionError else Ok (div x y).

Fixpoint pow_iter (x : spec_float) (d : nat) : spec_float :=
  match d with
  | O => one
  | S d' => mul x (pow_iter x d')
  end.

Definition pow (x : spec_float) (d : nat) : res spec_float :=
  let y := pow_iter x d in
  if is_finite x && is_inf y then Raise OverflowError else Ok y.

(** [int(x)]: truncation towards zero. *)
Definition to_int (x : spec_float) : res Z :=
  match x with
  | S754_zero _ => Ok 0
  | S754_finite s m e =>
      let a := Z.shiftl (Z.pos m) e in
      Ok (if s then - a else a)
  | S754_infinity _ => Raise OverflowError
  | S754_nan => Raise ValueError
  end.

End B64.

Global Instance binary64 : PyFloat spec_float := {|
  f_zero := B64.zero;
  f_one := B64.one;
  f_add := B64.add;
  f_mul := B64.mul;
  f_div := B64.div;
  f_of_int := B64.of_int;
  py_truediv := B64.truediv;
  py_pow := B64.pow;
  py_int := B64.to_int;
|}.

(** ** Sample interactomes *)

Module Samples.

(** The path A - B - C. *)
Definition path3 : Graph :=
  {| nodes := ["A"; "B"; "C"]; edges := [("A", "B"); ("B", "C")] |}.

(** The single edge A - B. *)
Definition single_edge : Graph :=
  {| nodes := ["A"; "B"]; edges := [("A", "B")] |}.

(** The edge A - B and the isolated node C. *)
Definition edge_and_isolated : Graph :=
  {| nodes := ["A"; "B"; "C"]; edges := [("A", "B")] |}.

(** A single node carrying a self-loop. *)
Definition loop1 : Graph :=
  {| nodes := ["A"]; edges := [("A", "A")] |}.

(** The edge A - B with a self-loop on A. *)
Definition loop_and_edge : Graph :=
  {| nodes := ["A"; "B"]; edges := [("A", "A"); ("A", "B")] |}.

Definition no_nodes : Graph := {| nodes := []; edges := [] |}.

(** The cycle A - B - C - D - A: two walks of length 2 join A and C. *)
Definition cycle4 : Graph :=
  {| nodes := ["A"; "B"; "C"; "D"];
     edges := [("A", "B"); ("B", "C"); ("C", "D"); ("D", "A")] |}.

(** A hub with 256 neighbours g0 ... g255. *)
Definition leaf (k : nat) : string := "g" +:+ pretty k.
Definition leaves : list string := leaf <$> seq 0 256.
Definition star256 : Graph :=
  {| nodes := "hub" :: leaves; edges := (λ l, ("hub", l)) <$> leaves |}.

(** Its power sequence for [d_max = 1], written out. *)
Definition star256_matrix : matrix :=
  (false :: replicate 256 true) :: replicate 256 (true :: replicate 256 false).
Definition star256_powers : list pyobj := [PyInt 0; CsrBool star256_matrix].

(** The list the builder returns. *)
Definition powers_of (G : Graph) (d_max : Z) : list pyobj :=
  match get_adjacency_matrices G d_max with
  | Ok adjacency_matrices => adjacency_matrices
  | Raise _ => []
  end.

(** Dictionaries of causal genes: key = gene, value = 1. *)
Definition causal_of (genes : list string) : gmap string Z :=
  list_to_map ((λ g, (g, 1)) <$> genes).

End Samples.

(** ** Closed forms used in the statements *)

(** The matrix the builder stores at index [d >= 1], given the cleared
    adjacency matrix [A]. *)
Fixpoint adj_power (A : matrix) (d : nat) : matrix :=
  match d with
  | O => A
  | S d' =>
      match d' with
      | O => A
      | S _ => zero_nonzero_diagonal (matmul (adj_power A d') A)
      end
  end.

(** The matrices appended by [k] turns of the builder's loop. *)
Fixpoint powers_from (A res : matrix) (k : nat) : list matrix :=
  match k with
  | O => []
  | S k' =>
      let res' := zero_nonzero_diagonal (matmul res A) in
      res' :: powers_from A res' k'
  end.

(** The literal number of ways to go from [i] to [j] through one
    intermediate index: the product of the two arrays over the integers. *)
Definition int_dot (u v : list bool) : Z :=
  foldl (λ acc ab, acc + Z.b2z ab.1 * Z.b2z ab.2) 0 (zip u v).

Definition count_matmul (X A : matrix) (i j : nat) : Z :=
  int_dot (default [] (X !! i)) (column A j).


(** A walk of [d >= 1] edges from [s] that uses no self-loop and never
    comes back to [s]. *)
Inductive open_walk (G : Graph) (s : string) : nat → string → Prop :=
  | open_walk_edge (v : string) :
      s ∈ nodes G → v ∈ nodes G → v ≠ s → has_edge G s v = true →
      open_walk G s 1 v
  | open_walk_step (d : nat) (w v : string) :
      open_walk G s d w → v ∈ nodes G → v ≠ s → v ≠ w → has_edge G w v = true →
      open_walk G s (S d) v.

(** A power sequence as the scorer expects it: from index 1 on, arrays of
    [n] rows and [n] columns (index 0 is never read). *)
Definition powers_ok (n : nat) (adjacency_matrices : list pyobj) : Prop :=
  ∀ d, (1 ≤ d < length adjacency_matrices)%nat →
    ∃ M, adjacency_matrices !! d = Some (CsrBool M) ∧ shape M n n.

Section closed_forms.
Context {F : Type} `{PyFloat F}.

(** The 0/1 indicator of the causal genes, by position in [G.nodes()]. *)
Definition indicator (interactome : Graph) (causal_genes : gmap string Z) : list Z :=
  (λ n, if bool_decide (is_Some (causal_genes !! n)) then 1 else 0)
    <$> nodes interactome.

Definition matrix_at (adjacency_matrices : list pyobj) (d : nat) : matrix :=
  match adjacency_matrices !! d with
  | Some (CsrBool M) => M
  | _ => []
  end.

Definition row_at (adjacency_matrices : list pyobj) (d i : nat) : list bool :=
  default [] (matrix_at adjacency_matrices d !! i).

(** The values of [alpha ** d] and of [alpha / alpha_norm] when they are
    defined. *)
Definition pow_of (x : F) (d : nat) : F :=
  match py_pow x d with Ok a => a | Raise _ => f_zero end.

Definition ratio_of (alpha alpha_norm : F) : F :=
  match py_truediv alpha alpha_norm with Ok r => r | Raise _ => f_zero end.

(** The scalar operations of one turn of the loop. *)
Definition weights (alpha alpha_norm : F) (d : nat) : res (F * F) :=
  a <- py_pow alpha d ;;
  r <- py_truediv alpha alpha_norm ;;
  b <- py_pow r d ;;
  Ok (a, b).

(** No scalar operation raises for the distances in [ds]. *)
Definition weights_ok (alpha alpha_norm : F) (ds : list nat) : bool :=
  forallb (λ d, is_ok (weights alpha alpha_norm d)) ds.

(** What distance [d] adds to the two accumulators, as vectors. *)
Definition score_vec (adjacency_matrices : list pyobj) (c : list Z) (alpha : F)
    (d : nat) : list F :=
  (λ row, f_mul (pow_of alpha d) (f_of_int (row_dot_u8 row c)))
    <$> matrix_at adjacency_matrices d.

Definition norm_vec (adjacency_matrices : list pyobj) (n : nat)
    (alpha alpha_norm : F) (d : nat) : list F :=
  (λ row, f_mul (pow_of (ratio_of alpha alpha_norm) d)
                (row_dot_f64 row (replicate n f_one)))
    <$> matrix_at adjacency_matrices d.

(** What distance [d] adds at node [i]. *)
Definition score_at (adjacency_matrices : list pyobj) (c : list Z) (alpha : F)
    (d i : nat) : F :=
  f_mul (pow_of alpha d) (f_of_int (row_dot_u8 (row_at adjacency_matrices d i) c)).

Definition norm_at (adjacency_matrices : list pyobj) (n : nat)
    (alpha alpha_norm : F) (d i : nat) : F :=
  f_mul (pow_of (ratio_of alpha alpha_norm) d)
        (row_dot_f64 (row_at adjacency_matrices d i) (replicate n f_one)).

(** The two sums of node [i] over the distances 1 .. len - 1, and their
    quotient: one formula, the same for every node. *)
Definition node_score (interactome : Graph) (adjacency_matrices : list pyobj)
    (causal_genes : gmap string Z) (alpha : F) (i : nat) : F :=
  foldl (λ acc d, f_add acc
           (score_at adjacency_matrices (indicator interactome causal_genes) alpha d i))
        f_zero (seq 1 (length adjacency_matrices - 1)).

Definition node_norm (interactome : Graph) (adjacency_matrices : list pyobj)
    (alpha alpha_norm : F) (i : nat) : F :=
  foldl (λ acc d, f_add acc
           (norm_at adjacency_matrices (length (nodes interactome)) alpha alpha_norm d i))
        f_zero (seq 1 (length adjacency_matrices - 1)).

Definition node_final (interactome : Graph) (adjacency_matrices : list pyobj)
    (causal_genes : gmap string Z) (alpha alpha_norm : F) (i : nat) : F :=
  f_div (node_score interactome adjacency_matrices causal_genes alpha i)
        (node_norm interactome adjacency_matrices alpha alpha_norm i).

(** Sum of per-distance vectors, in the order of the distances. *)
Definition vsum (n : nat) (vs : list (list F)) : list F :=
  foldl (zip_with f_add) (replicate n f_zero) vs.

End closed_forms.

Section diagnostic_closed_forms.
Context {F : Type} `{PyFloat F}.

(** The two files written for distance [d]. *)
Definition files_at (adjacency_matrices : list pyobj) (c : list Z) (n : nat)
    (alpha : F) (d_max : Z) (alpha_norm : F) (patho : string) (ALPHA_NORM : Z)
    (d : nat) : list npz :=
  let file kind arr :=
    {| npz_kind_of := kind; npz_patho := patho; npz_d := d;
       npz_alpha := alpha; npz_dmax := d_max;
       npz_alphanorm := ALPHA_NORM; npz_array := arr |} in
  [file ScoresFile (score_vec adjacency_matrices c alpha d);
   file NormFactorsFile (norm_vec adjacency_matrices n alpha alpha_norm d)].

(** The files written for the distances [ds], in order. *)
Definition contribution_files (adjacency_matrices : list pyobj) (c : list Z)
    (n : nat) (alpha : F) (d_max : Z) (alpha_norm : F) (patho : string)
    (ALPHA_NORM : Z) (ds : list nat) : list npz :=
  concat (files_at adjacency_matrices c n alpha d_max alpha_norm patho ALPHA_NORM
            <$> ds).

(** The distances in the names of the files of one kind, in writing
    order. *)
Definition saved_distances (kind : npz_kind) (files : list (npz (F := F)))
  : list nat :=
  npz_d <$> filter (λ f, npz_kind_of f = kind) files.

End diagnostic_closed_forms.

(** ** The scoring formula as the specification words it

    [A^d . c] is the number of causal genes among the nodes that the
    matrix at distance [d] joins to node [i], as an integer. *)

Definition exact_dot (row : list bool) (v : list Z) : Z :=
  foldl (λ acc ax, if ax.1 : bool then acc + ax.2 else acc) 0 (zip row v).

Section specification.
Context {F : Type} `{PyFloat F}.

Definition spec_score (interactome : Graph) (adjacency_matrices : list pyobj)
    (causal_genes : gmap string Z) (alpha : F) (i : nat) : F :=
  foldl (λ acc d,
           f_add acc
             (f_mul (pow_of alpha d)
                (f_of_int (exact_dot (row_at adjacency_matrices d i)
                             (indicator interactome causal_genes)))))
        f_zero (seq 1 (length adjacency_matrices - 1)).

Definition spec_final (interactome : Graph) (adjacency_matrices : list pyobj)
    (causal_genes : gmap string Z) (alpha alpha_norm : F) (i : nat) : F :=
  f_div (spec_score interactome adjacency_matrices causal_genes alpha i)
        (node_norm interactome adjacency_matrices alpha alpha_norm i).

Definition spec_scores (interactome : Graph) (adjacency_matrices : list pyobj)
    (causal_genes : gmap string Z) (alpha alpha_norm : F) : list (string * F) :=
  zip (nodes interactome)
      (spec_final interactome adjacency_matrices causal_genes alpha alpha_norm
         <$> seq 0 (length (nodes interactome))).

End specification.

(** The number of causal genes among the nodes. *)
Definition causal_count (interactome : Graph) (causal_genes : gmap string Z) : Z :=
  foldr Z.add 0 (indicator interactome causal_genes).

(** ** Closed forms used in the further properties *)

(** The graph without its self-loops. *)
Definition remove_self_loops (G : Graph) : Graph :=
  {| nodes := nodes G; edges := filter (λ e, e.1 ≠ e.2) (edges G) |}.

(** No row of a matrix read by the scorer holds 256 causal genes or
    more. *)
Definition counts_fit (interactome : Graph) (adjacency_matrices : list pyobj)
    (causal_genes : gmap string Z) : bool :=
  forallb (λ d,
      forallb (λ row,
          bool_decide (exact_dot row (indicator interactome causal_genes) ≤ 255))
        (matrix_at adjacency_matrices d))
    (seq 1 (length adjacency_matrices - 1)).

(** Two outcomes of the loop that agree on everything but the score
    accumulator, of which only the length is compared. *)
Definition same_but_scores {F : Type} (st1 st2 : res (list F * list F)) : Prop :=
  match st1, st2 with
  | Ok (s1, nv1), Ok (s2, nv2) => length s1 = length s2 ∧ nv1 = nv2
  | Raise e1, Raise e2 => e1 = e2
  | _, _ => False
  end.

Section pipeline_closed_forms.
Context {F : Type} `{PyFloat F}.

(** The scalar operations of the distances [ds], in the order of the
    loop: the first exception raised, if any. *)
Definition check_weights (alpha alpha_norm : F) (ds : list nat) : res unit :=
  foldl (λ st d, _ <- st ;; _ <- weights alpha alpha_norm d ;; Ok ()) (Ok ()) ds.

End pipeline_closed_forms.

(** A node without any neighbour but itself. *)
Definition isolated (G : Graph) (u : string) : Prop :=
  Forall (λ v, v = u ∨ has_edge G u v = false) (nodes G).

(** A binary64 zero or NaN. *)
Definition zero_or_nan (x : spec_float) : bool := B64.is_zero x || B64.is_nan x.

Section diagnostic_names.
Context {F : Type} `{PyFloat F}.

(** What the name of a file is made of: the kind, [patho], [d], [alpha],
    [d_max] and [int(alpha_norm)]. *)
Definition npz_name (f : npz (F := F)) : npz_kind * string * nat * F * Z * Z :=
  (npz_kind_of f, npz_patho f, npz_d f, npz_alpha f, npz_dmax f, npz_alphanorm f).

End diagnostic_names.

(** * Properties *)

(** ** The exception monad *)

Lemma res_bind_ok {A B} (f : A → res B) (m : res A) (b : B) :
  bind m f = Ok b ↔ ∃ a, m = Ok a ∧ f a = Ok b.
Proof.
  destruct m as [a|e]; simpl.
  - split; [intros H; by exists a | by intros (a' & [= ->] & H)].
  - split; [done | by intros (a' & [=] & _)].
Qed.

Lemma foldl_raise {A B} (f : res A → B → res A) (e : exn) (l : list B) :
  (∀ b, f (Raise e) b = Raise e) → foldl f (Raise e) l = Raise e.
Proof. intros Hf. induction l as [|b l IH]; simpl; [done|]. by rewrite Hf. Qed.

Lemma foldl_ext_all {A B} (f g : A → B → A) (a : A) (l : list B) :
  (∀ a b, f a b = g a b) → foldl f a l = foldl g a l.
Proof.
  intros Hfg. revert a. induction l as [|b l IH]; intros a; simpl; [done|].
  by rewrite Hfg, IH.
Qed.

(** ** Clearing the diagonal *)

Lemma foldl_set_entry_lookup (idx : list nat) (M : matrix) (i : nat) :
  foldl (λ M i, set_entry M i i false) M idx !! i
  = (λ row, if decide (i ∈ idx) then <[i := false]> row else row) <$> M !! i.
Proof.
  revert M. induction idx as [|a idx IH]; intros M; simpl.
  - by destruct (M !! i).
  - rewrite IH. unfold set_entry. destruct (decide (i = a)) as [->|Hne].
    + rewrite list_lookup_alter_eq. destruct (M !! a) as [row|]; simpl; [|done].
      rewrite (decide_True (P := a ∈ a :: idx)) by apply list_elem_of_here.
      case_decide; [by rewrite list_insert_insert_eq | done].
    + rewrite list_lookup_alter_ne by done.
      destruct (M !! i) as [row|]; simpl; [|done].
      destruct (decide (i ∈ idx)).
      * by rewrite (decide_True (P := i ∈ a :: idx)) by by apply list_elem_of_further.
      * rewrite (decide_False (P := i ∈ a :: idx)); [done|].
        rewrite elem_of_cons. by intros [?|?].
Qed.

Lemma elem_of_nonzero_diagonal (M : matrix) (i : nat) :
  i ∈ nonzero (diagonal M) ↔ ∃ row, M !! i = Some row ∧ row !! i = Some true.
Proof.
  unfold nonzero, diagonal. rewrite list_elem_of_filter, elem_of_seq.
  rewrite list_lookup_imap, length_imap. split.
  - intros [Hd _]. destruct (M !! i) as [row|] eqn:Hi; simpl in Hd; [|done].
    exists row. split; [done|]. injection Hd as Hd.
    destruct (row !! i) as [[]|]; simpl in *; done.
  - intros (row & Hi & Hrow). rewrite Hi. simpl. rewrite Hrow. simpl.
    split; [done|]. apply lookup_lt_Some in Hi. lia.
Qed.

(** Clearing the stored nonzero entries is the full clear. *)
Lemma zero_nonzero_diagonal_setdiag0 (M : matrix) :
  zero_nonzero_diagonal M = setdiag0 M.
Proof.
  apply list_eq. intros i. unfold zero_nonzero_diagonal, setdiag0.
  rewrite foldl_set_entry_lookup, list_lookup_imap.
  destruct (M !! i) as [row|] eqn:Hi; simpl; [|done]. f_equal.
  case_decide as Hnz; [done|].
  destruct (row !! i) as [[]|] eqn:Hrow.
  - exfalso. apply Hnz, elem_of_nonzero_diagonal. eauto.
  - symmetry. by apply list_insert_id.
  - symmetry. apply list_insert_ge. by apply lookup_ge_None.
Qed.

Lemma entry_setdiag0 (M : matrix) (i j : nat) :
  entry (setdiag0 M) i j = if decide (i = j) then false else entry M i j.
Proof.
  unfold entry, setdiag0. rewrite list_lookup_imap.
  destruct (M !! i) as [row|]; simpl; [|by case_decide].
  case_decide as Hij.
  - subst j. destruct (decide (i < length row)%nat).
    + by rewrite list_lookup_insert_eq.
    + rewrite list_insert_ge by lia. by rewrite lookup_ge_None_2 by lia.
  - by rewrite list_lookup_insert_ne.
Qed.

Lemma shape_setdiag0 (M : matrix) (m n : nat) :
  shape M m n → shape (setdiag0 M) m n.
Proof.
  intros [Hlen Hrows]. split; unfold setdiag0.
  - by rewrite length_imap.
  - apply Forall_forall. intros row Hrow.
    apply list_elem_of_lookup in Hrow as [i Hi].
    rewrite list_lookup_imap in Hi.
    destruct (M !! i) as [row'|] eqn:Hi'; simpl in Hi; [|done].
    injection Hi as <-. rewrite length_insert.
    eapply (proj1 (Forall_forall _ _) Hrows), list_elem_of_lookup_2, Hi'.
Qed.

(** ** Boolean products *)

Lemma ncols_shape (A : matrix) (m n : nat) :
  shape A m n → (0 < m)%nat → ncols A = n.
Proof.
  intros [Hlen Hrows] Hm. unfold ncols.
  destruct A as [|row A]; simpl in *; [lia|]. by inversion Hrows.
Qed.

Lemma shape_matmul (X A : matrix) (m : nat) :
  length X = m → shape (matmul X A) m (ncols A).
Proof.
  intros Hlen. split; unfold matmul.
  - by rewrite length_fmap.
  - apply Forall_fmap, Forall_forall. intros row _. simpl.
    by rewrite length_fmap, length_seq.
Qed.

Lemma entry_matmul (X A : matrix) (i j : nat) (row : list bool) :
  X !! i = Some row → (j < ncols A)%nat →
  entry (matmul X A) i j = bool_dot row (column A j).
Proof.
  intros Hi Hj. unfold entry, matmul.
  rewrite list_lookup_fmap, Hi. simpl.
  rewrite list_lookup_fmap, lookup_seq_lt by done. done.
Qed.

Lemma int_dot_fold_nonneg (l : list (bool * bool)) (acc : Z) :
  0 ≤ acc → acc ≤ foldl (λ acc ab, acc + Z.b2z ab.1 * Z.b2z ab.2) acc l.
Proof.
  revert acc. induction l as [|[a b] l IH]; intros acc Hacc; simpl; [lia|].
  etrans; [|apply IH]; destruct a, b; simpl; lia.
Qed.



(** ** The adjacency matrix *)

Lemma to_scipy_sparse_array_ok (G : Graph) :
  nodes G ≠ [] →
  to_scipy_sparse_array G = Ok ((λ u, has_edge G u <$> nodes G) <$> nodes G).
Proof. unfold to_scipy_sparse_array. by destruct (nodes G). Qed.

Lemma to_scipy_sparse_array_inv (G : Graph) (A : matrix) :
  to_scipy_sparse_array G = Ok A →
  nodes G ≠ [] ∧ A = (λ u, has_edge G u <$> nodes G) <$> nodes G.
Proof.
  unfold to_scipy_sparse_array. destruct (nodes G) eqn:E; [done|].
  intros [= <-]. done.
Qed.

Lemma shape_adjacency (G : Graph) :
  shape ((λ u, has_edge G u <$> nodes G) <$> nodes G)
        (length (nodes G)) (length (nodes G)).
Proof.
  split; [by rewrite length_fmap|].
  apply Forall_fmap, Forall_forall. intros u _. simpl. by rewrite length_fmap.
Qed.

Lemma entry_adjacency (G : Graph) (i j : nat) (u v : string) :
  nodes G !! i = Some u → nodes G !! j = Some v →
  entry ((λ u, has_edge G u <$> nodes G) <$> nodes G) i j = has_edge G u v.
Proof.
  intros Hi Hj. unfold entry.
  rewrite list_lookup_fmap, Hi. simpl. by rewrite list_lookup_fmap, Hj.
Qed.

(** ** The builder's loop *)

Lemma foldl_power_step (A : matrix) (l : list Z) (st : matrix * list pyobj) :
  (foldl (power_step A) st l).2
  = st.2 ++ (CsrBool <$> powers_from A st.1 (length l)).
Proof.
  revert st. induction l as [|p l IH]; intros st; cbn [foldl length powers_from].
  - by rewrite app_nil_r.
  - rewrite IH. unfold power_step. cbn [fst snd fmap list_fmap].
    by rewrite <- app_assoc.
Qed.

Lemma length_range (a b : Z) : length (range a b) = Z.to_nat (b - a).
Proof. unfold range. by rewrite length_fmap, length_seq. Qed.

Lemma length_powers_from (A res : matrix) (k : nat) :
  length (powers_from A res k) = k.
Proof. revert res. induction k as [|k IH]; intros res; simpl; [done|]. by rewrite IH. Qed.

Lemma powers_from_lookup (A : matrix) (K k d : nat) :
  (k < K)%nat →
  powers_from A (adj_power A (S d)) K !! k = Some (adj_power A (S d + S k)).
Proof.
  revert k d. induction K as [|K IH]; intros k d Hk; [lia|].
  destruct k as [|k].
  - simpl powers_from. simpl lookup. by replace (S d + 1)%nat with (S (S d)) by lia.
  - change (powers_from A (adj_power A (S d)) (S K) !! S k)
      with (powers_from A (adj_power A (S (S d))) K !! k).
    rewrite IH by lia. f_equal. f_equal. lia.
Qed.

(** The list the builder returns, in closed form. *)
Lemma get_adjacency_matrices_eq (G : Graph) (d_max : Z) :
  get_adjacency_matrices G d_max
  = bind (to_scipy_sparse_array G) (λ A0,
      let A := zero_nonzero_diagonal A0 in
      Ok (PyInt 0 :: CsrBool A
            :: (CsrBool <$> powers_from A A (Z.to_nat (d_max - 1))))).
Proof.
  unfold get_adjacency_matrices.
  destruct (to_scipy_sparse_array G) as [A0|e]; simpl; [|done].
  rewrite foldl_power_step, length_range.
  by replace (d_max + 1 - 2) with (d_max - 1) by lia.
Qed.

Lemma get_adjacency_matrices_inv (G : Graph) (d_max : Z) (mats : list pyobj) :
  get_adjacency_matrices G d_max = Ok mats →
  ∃ A0, to_scipy_sparse_array G = Ok A0 ∧
    length mats = S (S (Z.to_nat (d_max - 1))) ∧
    ∀ d, (1 ≤ d < length mats)%nat →
      mats !! d = Some (CsrBool (adj_power (zero_nonzero_diagonal A0) d)).
Proof.
  rewrite get_adjacency_matrices_eq.
  destruct (to_scipy_sparse_array G) as [A0|e]; simpl; [|done].
  intros [= <-]. exists A0. split; [done|]. split.
  - simpl. by rewrite length_fmap, length_powers_from.
  - intros d. simpl. rewrite length_fmap, length_powers_from. intros Hd.
    destruct d as [|[|d]]; [lia|done|].
    simpl lookup. rewrite list_lookup_fmap.
    pose proof (powers_from_lookup (zero_nonzero_diagonal A0)
                  (Z.to_nat (d_max - 1)) d 0) as Hp.
    change (adj_power (zero_nonzero_diagonal A0) 1)
      with (zero_nonzero_diagonal A0) in Hp.
    rewrite Hp by lia. done.
Qed.

Lemma shape_adj_power (A : matrix) (n d : nat) :
  (0 < n)%nat → shape A n n → shape (adj_power A d) n n.
Proof.
  intros Hn HA. induction d as [|[|d] IH]; [done|done|].
  change (adj_power A (S (S d)))
    with (zero_nonzero_diagonal (matmul (adj_power A (S d)) A)).
  rewrite zero_nonzero_diagonal_setdiag0. apply shape_setdiag0.
  rewrite <- (ncols_shape A n n HA Hn) at 2. apply shape_matmul, IH.
Qed.

Lemma adj_power_diagonal (A0 : matrix) (d i : nat) :
  entry (adj_power (zero_nonzero_diagonal A0) d) i i = false.
Proof.
  destruct d as [|[|d]]; simpl adj_power;
    rewrite zero_nonzero_diagonal_setdiag0, entry_setdiag0; by rewrite decide_True.
Qed.

Lemma get_adjacency_matrices_powers_ok (G : Graph) (d_max : Z) (mats : list pyobj) :
  get_adjacency_matrices G d_max = Ok mats → powers_ok (length (nodes G)) mats.
Proof.
  intros Hm. destruct (get_adjacency_matrices_inv _ _ _ Hm) as (A0 & HA0 & Hlen & Hd).
  apply to_scipy_sparse_array_inv in HA0 as [Hne ->].
  intros d Hrange. eexists. split; [by apply Hd|].
  apply shape_adj_power.
  - destruct (nodes G); [done|simpl; lia].
  - rewrite zero_nonzero_diagonal_setdiag0. apply shape_setdiag0, shape_adjacency.
Qed.

Lemma get_adjacency_matrices_ok (G : Graph) (d_max : Z) :
  nodes G ≠ [] →
  ∃ mats, get_adjacency_matrices G d_max = Ok mats.
Proof.
  intros Hne. rewrite get_adjacency_matrices_eq, to_scipy_sparse_array_ok by done.
  simpl. eauto.
Qed.

(** C2. For every graph with at least one node and every [d_max >= 1], the
    builder returns [d_max] matrices after the placeholder; each of them,
    at every distance 1..d_max, has a diagonal that is exactly zero; the
    matrix at distance [d + 1] is the product of the one at distance [d]
    with the base matrix, cleared again; and clearing only the nonzero
    diagonal entries gives the same array as a full clear. *)
Theorem C2_zero_diagonal_at_every_distance (G : Graph) (d_max : Z) :
  nodes G ≠ [] → 1 ≤ d_max →
  ∃ mats A0,
    get_adjacency_matrices G d_max = Ok mats ∧
    to_scipy_sparse_array G = Ok A0 ∧
    length mats = S (Z.to_nat d_max) ∧
    mats !! 1%nat = Some (CsrBool (setdiag0 A0)) ∧
    (∀ d, (1 ≤ d ≤ Z.to_nat d_max)%nat →
       ∃ M, mats !! d = Some (CsrBool M) ∧ ∀ i, entry M i i = false) ∧
    (∀ d, (1 ≤ d < Z.to_nat d_max)%nat →
       ∃ M, mats !! d = Some (CsrBool M) ∧
            mats !! S d = Some (CsrBool (setdiag0 (matmul M (setdiag0 A0))))) ∧
    (∀ M : matrix, zero_nonzero_diagonal M = setdiag0 M).
Proof.
  intros Hne Hd.
  destruct (get_adjacency_matrices_ok G d_max Hne) as [mats Hm].
  destruct (get_adjacency_matrices_inv _ _ _ Hm) as (A0 & HA0 & Hlen & Hat).
  replace (S (S (Z.to_nat (d_max - 1)))) with (S (Z.to_nat d_max)) in Hlen by lia.
  exists mats, A0. repeat split; try done.
  - rewrite Hat by lia. simpl. by rewrite zero_nonzero_diagonal_setdiag0.
  - intros d Hrange. eexists. split; [apply Hat; lia|].
    intros i. apply adj_power_diagonal.
  - intros d Hrange. eexists. split; [apply Hat; lia|].
    rewrite Hat by lia. destruct d as [|d]; [lia|].
    change (adj_power (zero_nonzero_diagonal A0) (S (S d)))
      with (zero_nonzero_diagonal
              (matmul (adj_power (zero_nonzero_diagonal A0) (S d))
                      (zero_nonzero_diagonal A0))).
    by rewrite !zero_nonzero_diagonal_setdiag0.
  - apply zero_nonzero_diagonal_setdiag0.
Qed.

Lemma C2_witness :
  nodes Samples.path3 ≠ [] ∧ 1 ≤ 3 ∧
  ∃ mats A0,
    get_adjacency_matrices Samples.path3 3 = Ok mats ∧
    to_scipy_sparse_array Samples.path3 = Ok A0 ∧
    length mats = S (Z.to_nat 3) ∧
    mats !! 1%nat = Some (CsrBool (setdiag0 A0)) ∧
    (∀ d, (1 ≤ d ≤ Z.to_nat 3)%nat →
       ∃ M, mats !! d = Some (CsrBool M) ∧ ∀ i, entry M i i = false) ∧
    (∀ d, (1 ≤ d < Z.to_nat 3)%nat →
       ∃ M, mats !! d = Some (CsrBool M) ∧
            mats !! S d = Some (CsrBool (setdiag0 (matmul M (setdiag0 A0))))) ∧
    (∀ M : matrix, zero_nonzero_diagonal M = setdiag0 M).
Proof.
  split; [discriminate|]. split; [lia|].
  apply (C2_zero_diagonal_at_every_distance Samples.path3 3); [discriminate|lia].
Defined.

(** A self-loop of the graph is cleared as well, and through the shared
    array also in the factor of every later product. *)
Example self_loop_cleared :
  to_scipy_sparse_array Samples.loop1 = Ok [[true]] ∧
  get_adjacency_matrices Samples.loop1 2
  = Ok [PyInt 0; CsrBool [[false]]; CsrBool [[false]]].
Proof. split; reflexivity. Qed.

(** The factor of the products is the cleared array: with the self-loop
    of A kept in the factor, the walk B - A - A would set the entry (B, A)
    of the distance-2 matrix. *)
Example cleared_array_is_the_factor :
  to_scipy_sparse_array Samples.loop_and_edge = Ok [[true; true]; [true; false]] ∧
  get_adjacency_matrices Samples.loop_and_edge 2
  = Ok [PyInt 0; CsrBool [[false; true]; [true; false]];
        CsrBool [[false; false]; [false; false]]] ∧
  zero_nonzero_diagonal
    (matmul [[false; true]; [true; false]] [[true; true]; [true; false]])
  = [[false; false]; [true; false]].
Proof. split; [|split]; reflexivity. Qed.

(** C6, as stated, fails: with [d_max = 0] the builder returns. *)
Lemma C6_counterexample :
  0 < 1 ∧
  get_adjacency_matrices Samples.path3 0
  = Ok [PyInt 0;
        CsrBool [[false; true; false]; [true; false; true]; [false; true; false]]].
Proof. split; [lia | reflexivity]. Qed.

(** C6, amended. The builder fails exactly when the graph has no node,
    with the error of the adjacency-matrix conversion, its first matrix
    operation; [d_max] is never checked: with [d_max < 1] and a graph that
    has nodes it returns the placeholder and the distance-1 matrix. *)
Theorem C6_builder_fails_only_without_nodes (G : Graph) (d_max : Z) :
  (nodes G = [] → get_adjacency_matrices G d_max = Raise NetworkXError) ∧
  (is_ok (get_adjacency_matrices G d_max) = false → nodes G = []) ∧
  (nodes G ≠ [] → d_max < 1 →
     ∃ A0, to_scipy_sparse_array G = Ok A0 ∧
           get_adjacency_matrices G d_max = Ok [PyInt 0; CsrBool (setdiag0 A0)]).
Proof.
  split; [|split].
  - intros Hn. rewrite get_adjacency_matrices_eq. unfold to_scipy_sparse_array.
    by rewrite Hn.
  - intros Hf. destruct (nodes G) eqn:Hn; [done|].
    destruct (get_adjacency_matrices_ok G d_max) as [mats Hm]; [by rewrite Hn|].
    by rewrite Hm in Hf.
  - intros Hne Hd. eexists. split; [by apply to_scipy_sparse_array_ok|].
    rewrite get_adjacency_matrices_eq, to_scipy_sparse_array_ok by done. simpl.
    replace (Z.to_nat (d_max - 1)) with 0%nat by lia. simpl.
    by rewrite zero_nonzero_diagonal_setdiag0.
Qed.

Example builder_rejects_empty_graph :
  get_adjacency_matrices Samples.no_nodes 5 = Raise NetworkXError.
Proof. reflexivity. Qed.

(** ** Entries and walks *)

Lemma bool_dot_fold_true (l : list (bool * bool)) (b : bool) :
  foldl (λ acc ab, acc || (ab.1 && ab.2)) b l = true →
  b = true ∨ ∃ k, l !! k = Some (true, true).
Proof.
  revert b. induction l as [|[x y] l IH]; intros b Hb; simpl in Hb; [by left|].
  apply IH in Hb as [Hb|[k Hk]].
  - apply orb_true_iff in Hb as [Hb|Hb]; [by left|].
    apply andb_true_iff in Hb as [-> ->]. right. by exists 0%nat.
  - right. by exists (S k).
Qed.

Lemma bool_dot_true (u v : list bool) :
  bool_dot u v = true → ∃ k, u !! k = Some true ∧ v !! k = Some true.
Proof.
  intros Hd. apply bool_dot_fold_true in Hd as [Hd|[k Hk]]; [done|].
  exists k. rewrite lookup_zip_with in Hk.
  destruct (u !! k) as [x|]; [|done]. destruct (v !! k) as [y|]; [|done].
  simpl in Hk. by injection Hk as -> ->.
Qed.

Lemma column_lookup_true (A : matrix) (j k : nat) :
  column A j !! k = Some true → entry A k j = true.
Proof.
  unfold column, entry. rewrite list_lookup_fmap.
  destruct (A !! k) as [row|]; simpl; [|done]. by intros [= ->].
Qed.

Lemma entry_row_true (M : matrix) (i k : nat) (row : list bool) :
  M !! i = Some row → row !! k = Some true → entry M i k = true.
Proof. intros Hi Hk. unfold entry. rewrite Hi. simpl. by rewrite Hk. Qed.

Lemma entry_true_lt (M : matrix) (m n i j : nat) :
  shape M m n → entry M i j = true → (i < m)%nat ∧ (j < n)%nat.
Proof.
  intros [Hlen Hrows]. unfold entry.
  destruct (M !! i) as [row|] eqn:Hi; simpl; [|done].
  destruct (row !! j) as [b|] eqn:Hj; simpl; [|done]. intros _.
  apply lookup_lt_Some in Hj. split; [apply lookup_lt_Some in Hi; lia|].
  by rewrite <- (proj1 (Forall_forall _ _) Hrows row (list_elem_of_lookup_2 _ _ _ Hi)).
Qed.


Lemma bool_dot_fold_keep (l : list (bool * bool)) :
  foldl (λ acc ab, acc || (ab.1 && ab.2)) true l = true.
Proof. induction l as [|ab l IH]; [done|]. exact IH. Qed.

Lemma bool_dot_fold_found (l : list (bool * bool)) (b : bool) (k : nat) :
  l !! k = Some (true, true) →
  foldl (λ acc ab, acc || (ab.1 && ab.2)) b l = true.
Proof.
  revert b k. induction l as [|ab l IH]; intros b k Hk; [done|].
  destruct k as [|k]; simpl in *.
  - injection Hk as ->. simpl. rewrite orb_true_r. apply bool_dot_fold_keep.
  - by eapply IH.
Qed.

Lemma bool_dot_found (u v : list bool) (k : nat) :
  u !! k = Some true → v !! k = Some true → bool_dot u v = true.
Proof.
  intros Hu Hv. apply (bool_dot_fold_found _ _ k).
  by rewrite lookup_zip_with, Hu, Hv.
Qed.

Lemma entry_true_inv (M : matrix) (i k : nat) :
  entry M i k = true → ∃ row, M !! i = Some row ∧ row !! k = Some true.
Proof.
  unfold entry. destruct (M !! i) as [row|]; simpl; [|done].
  destruct (row !! k) as [[]|] eqn:Hk; simpl; [|done|done]. intros _. by exists row.
Qed.

Lemma column_true (A : matrix) (j k : nat) :
  (k < length A)%nat → entry A k j = true → column A j !! k = Some true.
Proof.
  intros Hk He. unfold column. rewrite list_lookup_fmap.
  unfold entry in He. destruct (A !! k) as [row|]; simpl in *; [|done].
  by rewrite He.
Qed.

(** The entry (i, j) of the matrix at distance [d] is the indicator of the
    walks of [d] edges from node [i] to node [j] that never come back to
    node [i]. *)
Lemma adj_power_open_walk (G : Graph) (d i j : nat) (u v : string) :
  NoDup (nodes G) →
  nodes G !! i = Some u → nodes G !! j = Some v → (1 ≤ d)%nat →
  entry (adj_power
           (zero_nonzero_diagonal ((λ u, has_edge G u <$> nodes G) <$> nodes G)) d)
        i j = true
  ↔ open_walk G u d v.
Proof.
  set (A0 := (λ u, has_edge G u <$> nodes G) <$> nodes G).
  intros Hnd Hi Hj Hd.
  assert (Hn : (0 < length (nodes G))%nat) by (apply lookup_lt_Some in Hi; lia).
  assert (HA : shape (zero_nonzero_diagonal A0) (length (nodes G)) (length (nodes G))).
  { rewrite zero_nonzero_diagonal_setdiag0. apply shape_setdiag0, shape_adjacency. }
  assert (Hbase : ∀ k j w v, nodes G !! k = Some w → nodes G !! j = Some v →
            entry (zero_nonzero_diagonal A0) k j = true
            ↔ w ≠ v ∧ has_edge G w v = true).
  { intros k j' w v' Hk Hj'. rewrite zero_nonzero_diagonal_setdiag0, entry_setdiag0.
    unfold A0. rewrite (entry_adjacency G k j' w v') by done.
    case_decide as Hkj.
    - subst j'. rewrite Hk in Hj'. injection Hj' as ->. split; [done|by intros [? _]].
    - split; [|by intros [_ ?]]. intros He. split; [|done]. intros ->.
      by apply Hkj, (NoDup_lookup _ _ _ _ Hnd Hk Hj'). }
  assert (Hstep : ∀ d j v, nodes G !! j = Some v →
            entry (adj_power (zero_nonzero_diagonal A0) (S (S d))) i j = true
            ↔ v ≠ u ∧ ∃ k w, nodes G !! k = Some w ∧
                entry (adj_power (zero_nonzero_diagonal A0) (S d)) i k = true ∧
                entry (zero_nonzero_diagonal A0) k j = true).
  { intros d' j' v' Hj'.
    change (adj_power (zero_nonzero_diagonal A0) (S (S d')))
      with (zero_nonzero_diagonal
              (matmul (adj_power (zero_nonzero_diagonal A0) (S d'))
                      (zero_nonzero_diagonal A0))).
    rewrite zero_nonzero_diagonal_setdiag0, entry_setdiag0.
    pose proof (shape_adj_power _ _ (S d') Hn HA) as HP.
    destruct (lookup_lt_is_Some_2 (adj_power (zero_nonzero_diagonal A0) (S d')) i)
      as [row Hrow]; [apply lookup_lt_Some in Hi; destruct HP; lia|].
    assert (Hjn : (j' < ncols (zero_nonzero_diagonal A0))%nat)
      by (rewrite (ncols_shape _ _ _ HA Hn); by eapply lookup_lt_Some).
    case_decide as Hij.
    - subst j'. rewrite Hi in Hj'. injection Hj' as ->. split; [done|by intros [? _]].
    - rewrite (entry_matmul _ _ i j' row Hrow Hjn). split.
      + intros He. split.
        { intros ->. by apply Hij, (NoDup_lookup _ _ _ _ Hnd Hi Hj'). }
        apply bool_dot_true in He as (k & Hk1 & Hk2).
        apply column_lookup_true in Hk2.
        destruct (entry_true_lt _ _ _ _ _ HA Hk2) as [Hk _].
        destruct (lookup_lt_is_Some_2 (nodes G) k Hk) as [w Hw].
        exists k, w. split; [done|]. split; [|done].
        by apply (entry_row_true _ _ _ _ Hrow Hk1).
      + intros (_ & k & w & Hw & He1 & He2).
        apply entry_true_inv in He1 as (row' & Hrow' & Hk1).
        rewrite Hrow in Hrow'. injection Hrow' as <-.
        apply (bool_dot_found _ _ k); [done|].
        apply column_true; [|done]. destruct HA as [-> _]. by eapply lookup_lt_Some. }
  split.
  - revert j v Hj. induction d as [|[|d] IH]; intros j v Hj He; [lia| |].
    + apply (Hbase i j u v Hi Hj) in He as [Hne He].
      apply open_walk_edge; [by eapply list_elem_of_lookup_2..| |done].
      by intros ->.
    + apply (Hstep d j v Hj) in He as (Hvu & k & w & Hw & He1 & He2).
      apply (Hbase k j w v Hw Hj) in He2 as [Hwv He2].
      apply (open_walk_step G u (S d) w v); [|by eapply list_elem_of_lookup_2| | |done].
      * apply (IH ltac:(lia) k w Hw He1).
      * done.
      * by intros ->.
  - intros Hwalk. clear Hd. revert j Hj.
    induction Hwalk as [v Hu Hv Hvu He|d w v Hwalk IH Hv Hvu Hvw He]; intros j Hj.
    + apply (Hbase i j u v Hi Hj). split; [by intros ->|done].
    + assert (Hw : w ∈ nodes G) by (by destruct Hwalk).
      apply list_elem_of_lookup_1 in Hw as [k Hw].
      destruct d as [|d]; [by inversion Hwalk|].
      apply (Hstep d j v Hj). split; [done|].
      exists k, w. split; [done|]. split; [by apply IH|].
      apply (Hbase k j w v Hw Hj). split; [by intros ->|done].
Qed.




(** In the cycle A - B - C - D - A two walks of length 2 join A and C; the
    entry of the distance-2 matrix is the indicator [true], not 2. *)
Example two_walks_one_entry :
  ∃ M1 M2,
    get_adjacency_matrices Samples.cycle4 2 = Ok [PyInt 0; CsrBool M1; CsrBool M2] ∧
    count_matmul M1 M1 0 2 = 2 ∧ entry M2 0 2 = true.
Proof. do 2 eexists. split; [reflexivity|]. split; reflexivity. Qed.

(** ** The scorer *)

Section scorer_facts.
Context {F : Type} `{PyFloat F}.

(** *** The indicator vector *)

Lemma indicator_fold (causal_genes : gmap string Z) (l : list string) (pre : list Z) :
  (foldl (indicator_step causal_genes)
         (pre ++ replicate (length l) 0, length pre) l).1
  = pre ++ ((λ n, if bool_decide (is_Some (causal_genes !! n)) then 1 else 0) <$> l).
Proof.
  revert pre. induction l as [|n l IH]; intros pre; [done|].
  cbn [foldl length replicate fmap list_fmap]. unfold indicator_step at 2.
  set (x := if bool_decide (is_Some (causal_genes !! n)) then 1 else 0).
  assert (Hvec : (if bool_decide (is_Some (causal_genes !! n))
                  then <[length pre := 1]> (pre ++ 0 :: replicate (length l) 0)
                  else pre ++ 0 :: replicate (length l) 0)
                 = (pre ++ [x]) ++ replicate (length l) 0).
  { unfold x. rewrite <- app_assoc. simpl. case_bool_decide; [|done].
    rewrite insert_app_r_alt by lia. by rewrite Nat.sub_diag. }
  rewrite Hvec. replace (S (length pre)) with (length (pre ++ [x]))
    by (rewrite length_app; simpl; lia).
  rewrite IH. by rewrite <- app_assoc.
Qed.

Lemma causal_indicator_eq (G : Graph) (causal_genes : gmap string Z) :
  causal_indicator G causal_genes = indicator G causal_genes.
Proof. unfold causal_indicator. apply (indicator_fold causal_genes (nodes G) []). Qed.

Lemma length_indicator (G : Graph) (causal_genes : gmap string Z) :
  length (indicator G causal_genes) = length (nodes G).
Proof. unfold indicator. by rewrite length_fmap. Qed.

(** *** One turn of the loop *)

Lemma dot_ok {T} (row_dot : list bool → list T → T) (M : matrix) (v : list T) (m : nat) :
  shape M m (length v) →
  dot row_dot (CsrBool M) v = Ok ((λ row, row_dot row v) <$> M).
Proof.
  intros [_ Hrows]. unfold dot.
  replace (forallb (λ row, bool_decide (length row = length v)) M) with true; [done|].
  symmetry. apply forallb_forall. intros row Hrow. apply bool_decide_eq_true.
  apply (proj1 (Forall_forall _ _) Hrows). by apply list_elem_of_In.
Qed.

Lemma np_iadd_same (acc x : list F) :
  length x = length acc → np_iadd acc x = Ok (zip_with f_add acc x).
Proof. intros Hl. unfold np_iadd. by rewrite bool_decide_true. Qed.

Lemma np_iadd_length (acc x acc' : list F) :
  np_iadd acc x = Ok acc' → length acc' = length acc.
Proof.
  unfold np_iadd. repeat case_bool_decide; intros [= <-].
  - rewrite length_zip_with. lia.
  - by rewrite length_fmap.
Qed.

Lemma scores_step_raise mats c ones alpha alpha_norm e d :
  scores_step mats c ones alpha alpha_norm (Raise e) d = Raise e.
Proof. done. Qed.

Lemma scores_step_inv mats c ones alpha alpha_norm s nv d s' nv' :
  scores_step mats c ones alpha alpha_norm (Ok (s, nv)) d = Ok (s', nv') →
  ∃ A t u, getitem mats d = Ok A ∧
           score_term alpha d A c = Ok t ∧ np_iadd s t = Ok s' ∧
           norm_term alpha alpha_norm d A ones = Ok u ∧ np_iadd nv u = Ok nv'.
Proof.
  unfold scores_step. simpl. intros Hs.
  apply res_bind_ok in Hs as (A & HA & Hs).
  apply res_bind_ok in Hs as (t & Ht & Hs).
  apply res_bind_ok in Hs as (s1 & Hs1 & Hs).
  apply res_bind_ok in Hs as (u & Hu & Hs).
  apply res_bind_ok in Hs as (nv1 & Hnv1 & Hs).
  injection Hs as <- <-. by exists A, t, u.
Qed.

Lemma matrix_at_lookup mats d M :
  mats !! d = Some (CsrBool M) → matrix_at mats d = M.
Proof. unfold matrix_at. by intros ->. Qed.

(** With a well-shaped matrix at index [d], a turn of the loop raises
    only through the scalar operations. *)
Lemma scores_step_shaped mats c n alpha alpha_norm s nv d :
  powers_ok n mats → (1 ≤ d < length mats)%nat →
  length c = n → length s = n → length nv = n →
  scores_step mats c (replicate n f_one) alpha alpha_norm (Ok (s, nv)) d
  = bind (weights alpha alpha_norm d) (λ _,
      Ok (zip_with f_add s (score_vec mats c alpha d),
          zip_with f_add nv (norm_vec mats n alpha alpha_norm d))).
Proof.
  intros Hok Hd Hc Hs Hnv. destruct (Hok d Hd) as (M & HM & Hshape).
  unfold scores_step, weights, score_vec, norm_vec, score_term, norm_term,
    getitem, pow_of, ratio_of.
  rewrite (matrix_at_lookup _ _ _ HM), HM. cbn [from_option bind].
  destruct (py_pow alpha d) as [a|e]; cbn [bind]; [|done].
  rewrite (dot_ok row_dot_u8 M c n) by (by rewrite Hc). cbn [bind].
  rewrite np_iadd_same by (rewrite !length_fmap, Hs; apply Hshape). cbn [bind].
  destruct (py_truediv alpha alpha_norm) as [r|e]; cbn [bind]; [|done].
  destruct (py_pow r d) as [b|e]; cbn [bind]; [|done].
  rewrite (dot_ok row_dot_f64 M (replicate n f_one) n)
    by (by rewrite length_replicate). cbn [bind].
  rewrite np_iadd_same by (rewrite !length_fmap, Hnv; apply Hshape). cbn [bind].
  by rewrite <- !list_fmap_compose.
Qed.

Lemma length_score_vec mats c n alpha d :
  powers_ok n mats → (1 ≤ d < length mats)%nat →
  length (score_vec mats c alpha d) = n.
Proof.
  intros Hok Hd. destruct (Hok d Hd) as (M & HM & Hshape).
  unfold score_vec. rewrite (matrix_at_lookup _ _ _ HM), length_fmap. apply Hshape.
Qed.

Lemma length_norm_vec mats n alpha alpha_norm d :
  powers_ok n mats → (1 ≤ d < length mats)%nat →
  length (norm_vec mats n alpha alpha_norm d) = n.
Proof.
  intros Hok Hd. destruct (Hok d Hd) as (M & HM & Hshape).
  unfold norm_vec. rewrite (matrix_at_lookup _ _ _ HM), length_fmap. apply Hshape.
Qed.

(** *** The whole loop *)

Lemma scores_loop_shaped mats c n alpha alpha_norm (ds : list nat) s nv :
  powers_ok n mats → Forall (λ d, (1 ≤ d < length mats)%nat) ds →
  length c = n → length s = n → length nv = n →
  weights_ok alpha alpha_norm ds = true →
  foldl (scores_step mats c (replicate n f_one) alpha alpha_norm) (Ok (s, nv)) ds
  = Ok (foldl (λ s d, zip_with f_add s (score_vec mats c alpha d)) s ds,
        foldl (λ v d, zip_with f_add v (norm_vec mats n alpha alpha_norm d)) nv ds).
Proof.
  intros Hok Hds Hc. revert s nv.
  induction Hds as [|d ds Hd Hds IH]; intros s nv Hs Hnv Hw; [done|].
  cbn [foldl]. simpl in Hw. apply andb_true_iff in Hw as [Hwd Hw].
  rewrite scores_step_shaped by done.
  destruct (weights alpha alpha_norm d) as [w|e]; [|done]. simpl.
  apply IH; [| |done].
  - rewrite length_zip_with, (length_score_vec _ _ n), Hs by done. lia.
  - rewrite length_zip_with, (length_norm_vec _ n), Hnv by done. lia.
Qed.

Lemma scores_loop_weights mats c n alpha alpha_norm (ds : list nat) s nv r :
  powers_ok n mats → Forall (λ d, (1 ≤ d < length mats)%nat) ds →
  length c = n → length s = n → length nv = n →
  foldl (scores_step mats c (replicate n f_one) alpha alpha_norm) (Ok (s, nv)) ds
  = Ok r →
  weights_ok alpha alpha_norm ds = true.
Proof.
  intros Hok Hds Hc. revert s nv.
  induction Hds as [|d ds Hd Hds IH]; intros s nv Hs Hnv Hr; [done|].
  cbn [foldl] in Hr. rewrite scores_step_shaped in Hr by done.
  simpl. destruct (weights alpha alpha_norm d) as [w|e]; simpl in *.
  - eapply IH; [| |exact Hr].
    + rewrite length_zip_with, (length_score_vec _ _ n), Hs by done. lia.
    + rewrite length_zip_with, (length_norm_vec _ n), Hnv by done. lia.
  - rewrite foldl_raise in Hr; done.
Qed.

Lemma scores_loop_length mats c ones alpha alpha_norm (ds : list nat) s nv s' nv' :
  foldl (scores_step mats c ones alpha alpha_norm) (Ok (s, nv)) ds = Ok (s', nv') →
  length s' = length s ∧ length nv' = length nv.
Proof.
  revert s nv. induction ds as [|d ds IH]; intros s nv Hr.
  - by injection Hr as <- <-.
  - cbn [foldl] in Hr.
    destruct (scores_step mats c ones alpha alpha_norm (Ok (s, nv)) d)
      as [[s1 nv1]|e] eqn:Hstep.
    + apply scores_step_inv in Hstep as (A & t & u & _ & _ & Hs1 & _ & Hnv1).
      apply np_iadd_length in Hs1, Hnv1. apply IH in Hr as [-> ->]. done.
    + rewrite foldl_raise in Hr; done.
Qed.

(** The score accumulator never depends on [alpha_norm]. *)
Lemma scores_loop_numerator mats c ones alpha an1 an2 (ds : list nat)
    s nv1 nv2 s1 s2 nv1' nv2' :
  foldl (scores_step mats c ones alpha an1) (Ok (s, nv1)) ds = Ok (s1, nv1') →
  foldl (scores_step mats c ones alpha an2) (Ok (s, nv2)) ds = Ok (s2, nv2') →
  s1 = s2.
Proof.
  revert s nv1 nv2. induction ds as [|d ds IH]; intros s nv1 nv2 H1 H2.
  - injection H1 as <- <-. by injection H2 as <- <-.
  - cbn [foldl] in H1, H2.
    destruct (scores_step mats c ones alpha an1 (Ok (s, nv1)) d)
      as [[sa nva]|e] eqn:Ha; [|rewrite foldl_raise in H1; done].
    destruct (scores_step mats c ones alpha an2 (Ok (s, nv2)) d)
      as [[sb nvb]|e] eqn:Hb; [|rewrite foldl_raise in H2; done].
    apply scores_step_inv in Ha as (A & t & u & HA & Ht & Hsa & _).
    apply scores_step_inv in Hb as (A' & t' & u' & HA' & Ht' & Hsb & _).
    rewrite HA in HA'. injection HA' as <-.
    rewrite Ht in Ht'. injection Ht' as <-.
    rewrite Hsa in Hsb. injection Hsb as <-.
    by eapply IH.
Qed.

End scorer_facts.

Section scorer_closed_form.
Context {F : Type} `{PyFloat F}.

Lemma fold_zip_add_lookup (vec : nat → list F) (term : nat → F) (ds : list nat)
    (s : list F) (i : nat) (x : F) :
  Forall (λ d, vec d !! i = Some (term d)) ds → s !! i = Some x →
  foldl (λ s d, zip_with f_add s (vec d)) s ds !! i
  = Some (foldl (λ acc d, f_add acc (term d)) x ds).
Proof.
  intros Hds. revert s x. induction Hds as [|d ds Hd Hds IH]; intros s x Hs; [done|].
  cbn [foldl]. apply IH. by rewrite lookup_zip_with, Hs, Hd.
Qed.

Lemma matrix_at_row mats n d i :
  powers_ok n mats → (1 ≤ d < length mats)%nat → (i < n)%nat →
  matrix_at mats d !! i = Some (row_at mats d i).
Proof.
  intros Hok Hd Hi. destruct (Hok d Hd) as (M & HM & [Hlen _]).
  unfold row_at. rewrite (matrix_at_lookup _ _ _ HM).
  destruct (lookup_lt_is_Some_2 M i) as [row Hrow]; [lia|]. by rewrite Hrow.
Qed.

Lemma score_vec_lookup mats c n alpha d i :
  powers_ok n mats → (1 ≤ d < length mats)%nat → (i < n)%nat →
  score_vec mats c alpha d !! i = Some (score_at mats c alpha d i).
Proof.
  intros Hok Hd Hi. unfold score_vec, score_at.
  by rewrite list_lookup_fmap, (matrix_at_row mats n).
Qed.

Lemma norm_vec_lookup mats n alpha alpha_norm d i :
  powers_ok n mats → (1 ≤ d < length mats)%nat → (i < n)%nat →
  norm_vec mats n alpha alpha_norm d !! i = Some (norm_at mats n alpha alpha_norm d i).
Proof.
  intros Hok Hd Hi. unfold norm_vec, norm_at.
  by rewrite list_lookup_fmap, (matrix_at_row mats n).
Qed.

Lemma distances_in_range (mats : list pyobj) :
  Forall (λ d, (1 ≤ d < length mats)%nat) (seq 1 (length mats - 1)).
Proof. apply Forall_forall. intros d Hd. apply elem_of_seq in Hd. lia. Qed.

(** The accumulators in closed form, node by node. *)
Lemma accumulate_closed G mats causal_genes alpha alpha_norm :
  powers_ok (length (nodes G)) mats →
  weights_ok alpha alpha_norm (seq 1 (length mats - 1)) = true →
  accumulate G mats causal_genes alpha alpha_norm
  = Ok (node_score G mats causal_genes alpha <$> seq 0 (length (nodes G)),
        node_norm G mats alpha alpha_norm <$> seq 0 (length (nodes G))).
Proof.
  intros Hok Hw. unfold accumulate.
  rewrite causal_indicator_eq, length_indicator.
  set (n := length (nodes G)) in *. set (c := indicator G causal_genes).
  pose proof (distances_in_range mats) as Hds.
  pose proof (scores_loop_shaped mats c n alpha alpha_norm _
                (replicate n f_zero) (replicate n f_zero) Hok Hds
                (length_indicator G causal_genes)
                (length_replicate _ _) (length_replicate _ _) Hw) as Hloop.
  rewrite Hloop.
  apply scores_loop_length in Hloop as [Hls Hln].
  rewrite length_replicate in Hls, Hln.
  f_equal. f_equal; apply list_eq; intros i; destruct (decide (i < n)%nat) as [Hi|Hi].
  - rewrite (fold_zip_add_lookup _ (λ d, score_at mats c alpha d i) _ _ _ f_zero).
    + by rewrite list_lookup_fmap, lookup_seq_lt.
    + eapply Forall_impl; [exact Hds|]. intros d Hd. by apply (score_vec_lookup _ _ n).
    + by apply lookup_replicate_2.
  - rewrite !lookup_ge_None_2; [done| |lia].
    rewrite length_fmap, length_seq. lia.
  - rewrite (fold_zip_add_lookup _ (λ d, norm_at mats n alpha alpha_norm d i) _ _ _ f_zero).
    + by rewrite list_lookup_fmap, lookup_seq_lt.
    + eapply Forall_impl; [exact Hds|]. intros d Hd. by apply norm_vec_lookup.
    + by apply lookup_replicate_2.
  - rewrite !lookup_ge_None_2; [done| |lia].
    rewrite length_fmap, length_seq. lia.
Qed.

Lemma accumulate_weights G mats causal_genes alpha alpha_norm r :
  powers_ok (length (nodes G)) mats →
  accumulate G mats causal_genes alpha alpha_norm = Ok r →
  weights_ok alpha alpha_norm (seq 1 (length mats - 1)) = true.
Proof.
  intros Hok. unfold accumulate.
  rewrite causal_indicator_eq, length_indicator.
  apply scores_loop_weights; try done.
  - apply distances_in_range.
  - apply length_indicator.
  - apply length_replicate.
  - apply length_replicate.
Qed.

Lemma accumulate_length G mats causal_genes alpha alpha_norm s nv :
  accumulate G mats causal_genes alpha alpha_norm = Ok (s, nv) →
  length s = length (nodes G) ∧ length nv = length (nodes G).
Proof.
  unfold accumulate. rewrite causal_indicator_eq, length_indicator.
  intros Hloop. apply scores_loop_length in Hloop.
  by rewrite !length_replicate in Hloop.
Qed.

(** *** The result dictionary *)

Lemma dict_set_fresh (d : list (string * F)) (k : string) (v : F) :
  k ∉ d.*1 → dict_set d k v = d ++ [(k, v)].
Proof.
  induction d as [|[k' v'] d IH]; intros Hk; simpl; [done|].
  simpl in Hk. apply not_elem_of_cons in Hk as [Hne Hk].
  rewrite decide_False by done. by rewrite IH.
Qed.

Lemma dict_fold_nodup (acc pairs : list (string * F)) :
  NoDup ((acc ++ pairs).*1) →
  foldl (λ d kv, dict_set d kv.1 kv.2) acc pairs = acc ++ pairs.
Proof.
  revert acc. induction pairs as [|[k v] pairs IH]; intros acc Hnd; simpl.
  - by rewrite app_nil_r.
  - rewrite fmap_app in Hnd. simpl in Hnd.
    rewrite dict_set_fresh.
    + rewrite IH; [by rewrite <- app_assoc|].
      rewrite <- app_assoc. simpl. by rewrite fmap_app.
    + apply NoDup_app in Hnd as (_ & Hdisj & _).
      intros Hk. apply (Hdisj k Hk). apply list_elem_of_here.
Qed.

Lemma dict_nodup (pairs : list (string * F)) : NoDup (pairs.*1) → dict pairs = pairs.
Proof. intros Hnd. unfold dict. by rewrite (dict_fold_nodup [] pairs). Qed.

Lemma calculate_scores_eq G mats causal_genes alpha alpha_norm :
  calculate_scores G mats causal_genes alpha alpha_norm
  = bind (accumulate G mats causal_genes alpha alpha_norm) (λ acc,
      Ok (dict (zip (nodes G) (zip_with f_div acc.1 acc.2)))).
Proof.
  unfold calculate_scores.
  by destruct (accumulate G mats causal_genes alpha alpha_norm) as [[s nv]|e].
Qed.

(** The division and the dictionary never raise, and a graph's nodes
    being distinct, the dictionary is the list of the pairs. *)
Lemma calculate_scores_of_accumulate G mats causal_genes alpha alpha_norm s nv :
  NoDup (nodes G) →
  accumulate G mats causal_genes alpha alpha_norm = Ok (s, nv) →
  calculate_scores G mats causal_genes alpha alpha_norm
  = Ok (zip (nodes G) (zip_with f_div s nv)).
Proof.
  intros Hnd Hacc. rewrite calculate_scores_eq, Hacc. cbn [bind fst snd].
  rewrite dict_nodup; [done|].
  destruct (accumulate_length _ _ _ _ _ _ _ Hacc) as [Hs Hnv].
  rewrite fst_zip; [done|]. rewrite length_zip_with. lia.
Qed.

Lemma calculate_scores_inv G mats causal_genes alpha alpha_norm scores :
  calculate_scores G mats causal_genes alpha alpha_norm = Ok scores →
  ∃ s nv, accumulate G mats causal_genes alpha alpha_norm = Ok (s, nv).
Proof.
  rewrite calculate_scores_eq.
  destruct (accumulate G mats causal_genes alpha alpha_norm) as [[s nv]|e]; [|done].
  intros _. by exists s, nv.
Qed.

(** The scores in closed form: every node gets [node_final]. *)
Lemma calculate_scores_closed G mats causal_genes alpha alpha_norm :
  NoDup (nodes G) → powers_ok (length (nodes G)) mats →
  weights_ok alpha alpha_norm (seq 1 (length mats - 1)) = true →
  calculate_scores G mats causal_genes alpha alpha_norm
  = Ok (zip (nodes G)
            (node_final G mats causal_genes alpha alpha_norm
               <$> seq 0 (length (nodes G)))).
Proof.
  intros Hnd Hok Hw.
  rewrite (calculate_scores_of_accumulate _ _ _ _ _ _ _ Hnd
             (accumulate_closed _ _ _ _ _ Hok Hw)).
  rewrite zip_with_fmap_l, zip_with_fmap_r, zip_with_diag. done.
Qed.

End scorer_closed_form.

(** ** A node's own indicator does not enter its score *)

Lemma row_dot_u8_fold_agree (row : list bool) (c c' : list Z) (acc : Z) :
  length c = length c' →
  (∀ k, row !! k = Some true → c !! k = c' !! k) →
  foldl (λ acc ax, if ax.1 : bool then add_u8 acc ax.2 else acc) acc (zip row c)
  = foldl (λ acc ax, if ax.1 : bool then add_u8 acc ax.2 else acc) acc (zip row c').
Proof.
  revert c c' acc. induction row as [|a row IH]; intros c c' acc Hlen Hagree; [done|].
  destruct c as [|x c], c' as [|x' c']; simpl in Hlen; [done|lia|lia|].
  simpl. destruct a.
  - specialize (Hagree 0%nat eq_refl) as Hx. injection Hx as <-.
    apply IH; [lia|]. intros k Hk. apply (Hagree (S k) Hk).
  - apply IH; [lia|]. intros k Hk. apply (Hagree (S k) Hk).
Qed.

Lemma row_dot_u8_agree (row : list bool) (c c' : list Z) :
  length c = length c' →
  (∀ k, row !! k = Some true → c !! k = c' !! k) →
  row_dot_u8 row c = row_dot_u8 row c'.
Proof. apply row_dot_u8_fold_agree. Qed.

Section own_indicator.
Context {F : Type} `{PyFloat F}.

(** On matrices with a zero diagonal, a causal gene gets the score it
    would get if it were not in the causal set. *)
Lemma node_final_without_self (G : Graph) (mats : list pyobj)
    (causal_genes : gmap string Z) (alpha alpha_norm : F) (i : nat) (g : string) :
  NoDup (nodes G) → nodes G !! i = Some g →
  (∀ d, entry (matrix_at mats d) i i = false) →
  node_final G mats causal_genes alpha alpha_norm i
  = node_final G mats (delete g causal_genes) alpha alpha_norm i.
Proof.
  intros Hnd Hg Hdiag. unfold node_final. f_equal.
  unfold node_score. apply foldl_ext_all. intros acc d. f_equal.
  unfold score_at. do 2 f_equal.
  apply row_dot_u8_agree; [by rewrite !length_indicator|].
  intros k Hk. unfold indicator. rewrite !list_lookup_fmap.
  destruct (nodes G !! k) as [h|] eqn:Hh; simpl; [|done].
  destruct (decide (h = g)) as [->|Hne].
  - assert (k = i) as -> by (by eapply NoDup_lookup).
    specialize (Hdiag d). unfold entry, row_at in *.
    destruct (matrix_at mats d !! i) as [row|]; simpl in *; [|done].
    by rewrite Hk in Hdiag.
  - by rewrite lookup_delete_ne.
Qed.

End own_indicator.

(** ** The scoring operation: claims *)

Section scoring_claims.
Context {F : Type} `{PyFloat F}.

Lemma zip_lookup_nodes (G : Graph) (f : nat → F) (i : nat) (g : string) :
  nodes G !! i = Some g →
  zip (nodes G) (f <$> seq 0 (length (nodes G))) !! i = Some (g, f i).
Proof.
  intros Hg. rewrite lookup_zip_with, Hg. simpl.
  rewrite list_lookup_fmap, lookup_seq_lt by (by eapply lookup_lt_Some). done.
Qed.

(** C4. The scoring operation gives every node, causal or not, the value
    of the one formula [node_final]: the quotient of its two sums over
    the distances.  No node is set to 1.0 because it is causal: on
    matrices with a zero diagonal a causal gene even gets the value it
    would get if it were not causal. *)
Theorem C4_same_formula_for_causal_genes (G : Graph) (mats : list pyobj)
    (causal_genes : gmap string Z) (alpha alpha_norm : F) :
  NoDup (nodes G) → powers_ok (length (nodes G)) mats →
  weights_ok alpha alpha_norm (seq 1 (length mats - 1)) = true →
  ∃ scores,
    calculate_scores G mats causal_genes alpha alpha_norm = Ok scores ∧
    ∀ i g, nodes G !! i = Some g →
      scores !! i = Some (g, node_final G mats causal_genes alpha alpha_norm i) ∧
      (is_Some (causal_genes !! g) →
         indicator G causal_genes !! i = Some 1 ∧
         scores !! i = Some (g, node_final G mats causal_genes alpha alpha_norm i)) ∧
      ((∀ d, entry (matrix_at mats d) i i = false) →
         node_final G mats causal_genes alpha alpha_norm i
         = node_final G mats (delete g causal_genes) alpha alpha_norm i).
Proof.
  intros Hnd Hok Hw. eexists. split; [by apply calculate_scores_closed|].
  intros i g Hg. split; [by apply zip_lookup_nodes|]. split.
  - intros Hc. split; [|by apply zip_lookup_nodes].
    unfold indicator. rewrite list_lookup_fmap, Hg. simpl.
    by rewrite bool_decide_true.
  - by apply node_final_without_self.
Qed.

(** C7, amended. The scoring operation reads the dictionary of causal
    genes only at the nodes of the graph: two dictionaries that agree on
    the nodes give the same result, so an identifier that is not a node
    is ignored. *)
Theorem C7_absent_causal_genes_are_ignored (G : Graph) (mats : list pyobj)
    (causal1 causal2 : gmap string Z) (alpha alpha_norm : F) :
  (∀ g, g ∈ nodes G → is_Some (causal1 !! g) ↔ is_Some (causal2 !! g)) →
  calculate_scores G mats causal1 alpha alpha_norm
  = calculate_scores G mats causal2 alpha alpha_norm.
Proof.
  intros Hagree.
  assert (Hind : causal_indicator G causal1 = causal_indicator G causal2).
  { rewrite !causal_indicator_eq. unfold indicator.
    apply list_fmap_ext. intros i g Hg.
    apply list_elem_of_lookup_2, Hagree in Hg.
    by rewrite (bool_decide_ext _ _ Hg). }
  unfold calculate_scores, accumulate. by rewrite Hind.
Qed.

(** C8. Two runs that differ only in [alpha_norm] end their loops with
    the same score accumulator. *)
Theorem C8_numerator_independent_of_alpha_norm (G : Graph) (mats : list pyobj)
    (causal_genes : gmap string Z) (alpha alpha_norm1 alpha_norm2 : F)
    (scores1 norms1 scores2 norms2 : list F) :
  accumulate G mats causal_genes alpha alpha_norm1 = Ok (scores1, norms1) →
  accumulate G mats causal_genes alpha alpha_norm2 = Ok (scores2, norms2) →
  scores1 = scores2.
Proof. unfold accumulate. apply scores_loop_numerator. Qed.

(** C10. The mapping returned has exactly one entry per node, in the
    order of the graph's nodes, whatever the values are: the division
    and the dictionary never fail and never drop a node. *)
Theorem C10_one_entry_per_node (G : Graph) (mats : list pyobj)
    (causal_genes : gmap string Z) (alpha alpha_norm : F) :
  NoDup (nodes G) →
  is_ok (calculate_scores G mats causal_genes alpha alpha_norm)
  = is_ok (accumulate G mats causal_genes alpha alpha_norm) ∧
  (powers_ok (length (nodes G)) mats →
   weights_ok alpha alpha_norm (seq 1 (length mats - 1)) = true →
   is_ok (calculate_scores G mats causal_genes alpha alpha_norm) = true) ∧
  ∀ scores,
    calculate_scores G mats causal_genes alpha alpha_norm = Ok scores →
    scores.*1 = nodes G ∧
    length scores = length (nodes G) ∧
    ∀ i g, nodes G !! i = Some g → ∃ x, scores !! i = Some (g, x).
Proof.
  intros Hnd. split; [|split].
  - destruct (accumulate G mats causal_genes alpha alpha_norm) as [[s nv]|e] eqn:Hacc.
    + by rewrite (calculate_scores_of_accumulate _ _ _ _ _ _ _ Hnd Hacc).
    + by rewrite calculate_scores_eq, Hacc.
  - intros Hok Hw. by rewrite calculate_scores_closed.
  - intros scores Hs.
    destruct (calculate_scores_inv _ _ _ _ _ _ Hs) as (s & nv & Hacc).
    rewrite (calculate_scores_of_accumulate _ _ _ _ _ _ _ Hnd Hacc) in Hs.
    injection Hs as <-.
    destruct (accumulate_length _ _ _ _ _ _ _ Hacc) as [Hls Hlnv].
    assert (Hkeys : (zip (nodes G) (zip_with f_div s nv)).*1 = nodes G).
    { apply fst_zip. rewrite length_zip_with. lia. }
    split; [done|]. split.
    + by rewrite <- Hkeys at 2; rewrite length_fmap.
    + intros i g Hg.
      assert (Hi : (i < length (nodes G))%nat) by (by eapply lookup_lt_Some).
      destruct (lookup_lt_is_Some_2 (zip_with f_div s nv) i) as [x Hx].
      { rewrite length_zip_with. lia. }
      exists x. rewrite lookup_zip_with, Hg. simpl. by rewrite Hx.
Qed.

End scoring_claims.

(** ** The diagnostic mode *)

Section diagnostic_facts.
Context {F : Type} `{PyFloat F}.

Lemma contributions_turn_shaped mats c n alpha alpha_norm s nv d :
  powers_ok n mats → (1 ≤ d < length mats)%nat →
  length c = n → length s = n → length nv = n →
  contributions_turn mats c (replicate n f_one) alpha alpha_norm s nv d
  = bind (weights alpha alpha_norm d) (λ _,
      bind (py_int alpha_norm) (λ z,
        Ok (score_vec mats c alpha d, norm_vec mats n alpha alpha_norm d, z,
            (zip_with f_add s (score_vec mats c alpha d),
             zip_with f_add nv (norm_vec mats n alpha alpha_norm d))))).
Proof.
  intros Hok Hd Hc Hs Hnv. destruct (Hok d Hd) as (M & HM & Hshape).
  unfold contributions_turn, weights, score_vec, norm_vec, score_term, norm_term,
    getitem, pow_of, ratio_of.
  rewrite (matrix_at_lookup _ _ _ HM), HM. cbn [from_option bind].
  destruct (py_pow alpha d) as [a|e]; cbn [bind]; [|done].
  rewrite (dot_ok row_dot_u8 M c n) by (by rewrite Hc). cbn [bind].
  rewrite np_iadd_same by (rewrite !length_fmap, Hs; apply Hshape). cbn [bind].
  destruct (py_truediv alpha alpha_norm) as [r|e]; cbn [bind]; [|done].
  destruct (py_pow r d) as [b|e]; cbn [bind]; [|done].
  rewrite (dot_ok row_dot_f64 M (replicate n f_one) n)
    by (by rewrite length_replicate). cbn [bind].
  rewrite np_iadd_same by (rewrite !length_fmap, Hnv; apply Hshape). cbn [bind].
  by rewrite <- !list_fmap_compose.
Qed.

Lemma contributions_loop_raise mats c ones alpha d_max alpha_norm patho files e
    (ds : list nat) :
  foldl (contributions_step mats c ones alpha d_max alpha_norm patho)
        (files, Raise e) ds
  = (files, Raise e).
Proof. induction ds as [|d ds IH]; [done|]. cbn [foldl]. exact IH. Qed.

(** When nothing raises, the loop writes [contribution_files] and ends
    with the accumulators of the scoring loop. *)
Lemma contributions_loop_shaped mats c n alpha d_max alpha_norm patho z
    (ds : list nat) files s nv :
  powers_ok n mats → Forall (λ d, (1 ≤ d < length mats)%nat) ds →
  length c = n → length s = n → length nv = n →
  weights_ok alpha alpha_norm ds = true → py_int alpha_norm = Ok z →
  foldl (contributions_step mats c (replicate n f_one) alpha d_max alpha_norm patho)
        (files, Ok (s, nv)) ds
  = (files ++ contribution_files mats c n alpha d_max alpha_norm patho z ds,
     Ok (foldl (λ s d, zip_with f_add s (score_vec mats c alpha d)) s ds,
         foldl (λ v d, zip_with f_add v (norm_vec mats n alpha alpha_norm d)) nv ds)).
Proof.
  intros Hok Hds Hc. revert files s nv.
  induction Hds as [|d ds Hd Hds IH]; intros files s nv Hs Hnv Hw Hz.
  - unfold contribution_files. simpl. by rewrite app_nil_r.
  - cbn [foldl]. simpl in Hw. apply andb_true_iff in Hw as [Hwd Hw].
    unfold contributions_step at 2. cbn [snd fst].
    rewrite contributions_turn_shaped by done.
    destruct (weights alpha alpha_norm d) as [w|e]; [|done].
    rewrite Hz. cbn [bind].
    rewrite IH; try done.
    + unfold contribution_files. cbn [fmap list_fmap concat].
      by rewrite <- app_assoc.
    + rewrite length_zip_with, (length_score_vec _ _ n), Hs by done. lia.
    + rewrite length_zip_with, (length_norm_vec _ n), Hnv by done. lia.
Qed.

(** A loop that ends without exception has met no failing scalar
    operation, and [int(alpha_norm)] was defined if it was evaluated. *)
Lemma contributions_loop_inv mats c n alpha d_max alpha_norm patho
    (ds : list nat) files s nv files' acc :
  powers_ok n mats → Forall (λ d, (1 ≤ d < length mats)%nat) ds →
  length c = n → length s = n → length nv = n →
  foldl (contributions_step mats c (replicate n f_one) alpha d_max alpha_norm patho)
        (files, Ok (s, nv)) ds
  = (files', Ok acc) →
  weights_ok alpha alpha_norm ds = true ∧
  (ds = [] ∨ ∃ z, py_int alpha_norm = Ok z).
Proof.
  intros Hok Hds Hc. revert files s nv.
  induction Hds as [|d ds Hd Hds IH]; intros files s nv Hs Hnv Hr.
  - split; [done|by left].
  - cbn [foldl] in Hr. unfold contributions_step at 2 in Hr. cbn [snd fst] in Hr.
    rewrite contributions_turn_shaped in Hr by done.
    simpl. destruct (weights alpha alpha_norm d) as [w|e]; cbn [bind] in Hr;
      [|by rewrite contributions_loop_raise in Hr].
    destruct (py_int alpha_norm) as [z|e]; cbn [bind] in Hr;
      [|by rewrite contributions_loop_raise in Hr].
    apply IH in Hr as [Hw _].
    + split; [done|]. right. by exists z.
    + rewrite length_zip_with, (length_score_vec _ _ n), Hs by done. lia.
    + rewrite length_zip_with, (length_norm_vec _ n), Hnv by done. lia.
Qed.

Lemma saved_arrays_scores mats c n alpha d_max alpha_norm patho z (ds : list nat) :
  saved_arrays ScoresFile
    (contribution_files mats c n alpha d_max alpha_norm patho z ds)
  = score_vec mats c alpha <$> ds.
Proof.
  unfold saved_arrays, contribution_files.
  induction ds as [|d ds IH]; [done|].
  cbn [fmap list_fmap concat]. rewrite filter_app, fmap_app.
  rewrite IH. done.
Qed.

Lemma saved_arrays_norms mats c n alpha d_max alpha_norm patho z (ds : list nat) :
  saved_arrays NormFactorsFile
    (contribution_files mats c n alpha d_max alpha_norm patho z ds)
  = norm_vec mats n alpha alpha_norm <$> ds.
Proof.
  unfold saved_arrays, contribution_files.
  induction ds as [|d ds IH]; [done|].
  cbn [fmap list_fmap concat]. rewrite filter_app, fmap_app.
  rewrite IH. done.
Qed.

Lemma saved_distances_files kind mats c n alpha d_max alpha_norm patho z
    (ds : list nat) :
  saved_distances kind
    (contribution_files mats c n alpha d_max alpha_norm patho z ds)
  = ds.
Proof.
  unfold saved_distances, contribution_files.
  induction ds as [|d ds IH]; [done|].
  cbn [fmap list_fmap concat]. rewrite filter_app, fmap_app.
  rewrite IH. by destruct kind.
Qed.

Lemma foldl_fmap_vec (f : nat → list F) (ds : list nat) (s : list F) :
  foldl (zip_with f_add) s (f <$> ds) = foldl (λ s d, zip_with f_add s (f d)) s ds.
Proof. revert s. induction ds as [|d ds IH]; intros s; [done|]. simpl. apply IH. Qed.

End diagnostic_facts.

Section diagnostic_claims.
Context {F : Type} `{PyFloat F}.

(** C3. On a well-shaped power sequence, a diagnostic run that ends
    without exception has written, for each distance 1 .. len - 1 in
    order, one score contribution and one normalization contribution;
    summed over the distances from the zero vector they are the score
    accumulator and the normalization accumulator with which the scoring
    mode ends its loop on the same inputs.  The diagnostic run ends
    without exception whenever the scoring loop does and
    [int(alpha_norm)] is defined. *)
Theorem C3_contributions_sum_to_accumulators (G : Graph) (mats : list pyobj)
    (causal_genes : gmap string Z) (alpha : F) (d_max : Z) (alpha_norm : F)
    (patho : string) :
  powers_ok (length (nodes G)) mats →
  (∀ files acc,
     calculate_contributions G mats causal_genes alpha d_max alpha_norm patho
     = (files, Ok acc) →
     accumulate G mats causal_genes alpha alpha_norm = Ok acc ∧
     saved_distances ScoresFile files = seq 1 (length mats - 1) ∧
     saved_distances NormFactorsFile files = seq 1 (length mats - 1) ∧
     vsum (length (nodes G)) (saved_arrays ScoresFile files) = acc.1 ∧
     vsum (length (nodes G)) (saved_arrays NormFactorsFile files) = acc.2) ∧
  (∀ acc z,
     accumulate G mats causal_genes alpha alpha_norm = Ok acc →
     py_int alpha_norm = Ok z →
     ∃ files,
       calculate_contributions G mats causal_genes alpha d_max alpha_norm patho
       = (files, Ok acc)).
Proof.
  intros Hok. pose proof (distances_in_range mats) as Hds.
  pose proof (length_indicator G causal_genes) as Hc.
  split.
  - intros files acc. unfold calculate_contributions, accumulate.
    rewrite causal_indicator_eq, Hc.
    set (n := length (nodes G)) in *. set (c := indicator G causal_genes) in *.
    intros Hrun.
    destruct (contributions_loop_inv _ _ _ _ _ _ _ _ _ _ _ _ _ Hok Hds Hc
                (length_replicate _ _) (length_replicate _ _) Hrun)
      as [Hw [Hnil|[z Hz]]].
    + rewrite Hnil in Hrun |- *. simpl in Hrun. injection Hrun as <- <-. done.
    + rewrite (contributions_loop_shaped _ _ _ _ _ _ _ z _ _ _ _ Hok Hds Hc
                 (length_replicate _ _) (length_replicate _ _) Hw Hz) in Hrun.
      injection Hrun as <- <-. simpl app.
      rewrite (scores_loop_shaped _ _ _ _ _ _ _ _ Hok Hds Hc
                 (length_replicate _ _) (length_replicate _ _) Hw).
      rewrite !saved_distances_files, saved_arrays_scores, saved_arrays_norms.
      unfold vsum. by rewrite !foldl_fmap_vec.
  - intros acc z. unfold calculate_contributions, accumulate.
    rewrite causal_indicator_eq, Hc.
    set (n := length (nodes G)) in *. set (c := indicator G causal_genes) in *.
    intros Hacc Hz.
    pose proof (scores_loop_weights _ _ _ _ _ _ _ _ _ Hok Hds Hc
                  (length_replicate _ _) (length_replicate _ _) Hacc) as Hw.
    rewrite (scores_loop_shaped _ _ _ _ _ _ _ _ Hok Hds Hc
               (length_replicate _ _) (length_replicate _ _) Hw) in Hacc.
    injection Hacc as <-.
    rewrite (contributions_loop_shaped _ _ _ _ _ _ _ z _ _ _ _ Hok Hds Hc
               (length_replicate _ _) (length_replicate _ _) Hw Hz).
    eauto.
Qed.

End diagnostic_claims.

(** ** The count of causal neighbours is a [uint8] *)

Lemma row_dot_u8_fold_exact (row : list bool) (v : list Z) (acc : Z) :
  0 ≤ acc → Forall (λ x, 0 ≤ x) v → acc + foldr Z.add 0 v ≤ 255 →
  foldl (λ acc ax, if ax.1 : bool then add_u8 acc ax.2 else acc) acc (zip row v)
  = foldl (λ acc ax, if ax.1 : bool then acc + ax.2 else acc) acc (zip row v).
Proof.
  revert v acc. induction row as [|a row IH]; intros v acc Hacc Hv Hsum; [done|].
  destruct v as [|x v]; [done|]. simpl in *.
  inversion Hv as [|? ? Hx Hv']; subst.
  assert (0 ≤ foldr Z.add 0 v).
  { clear -Hv'. induction Hv'; simpl; lia. }
  destruct a; simpl.
  - unfold add_u8. rewrite Z.mod_small by lia. apply IH; [lia|done|lia].
  - apply IH; [lia|done|lia].
Qed.

(** Below 256 causal genes no sum wraps. *)
Lemma row_dot_u8_exact (row : list bool) (v : list Z) :
  Forall (λ x, 0 ≤ x) v → foldr Z.add 0 v ≤ 255 →
  row_dot_u8 row v = exact_dot row v.
Proof. intros Hv Hsum. apply row_dot_u8_fold_exact; [lia|done|lia]. Qed.

Lemma indicator_nonneg (G : Graph) (causal_genes : gmap string Z) :
  Forall (λ x, 0 ≤ x) (indicator G causal_genes).
Proof.
  unfold indicator. apply Forall_fmap, Forall_forall. intros g _. simpl.
  case_bool_decide; lia.
Qed.

Section below_256.
Context {F : Type} `{PyFloat F}.

Lemma node_score_spec_score G mats causal_genes (alpha : F) i :
  causal_count G causal_genes ≤ 255 →
  node_score G mats causal_genes alpha i = spec_score G mats causal_genes alpha i.
Proof.
  intros Hcount. unfold node_score, spec_score, score_at.
  apply foldl_ext_all. intros acc d.
  by rewrite row_dot_u8_exact by (apply indicator_nonneg || done).
Qed.

(** With fewer than 256 causal genes in the graph, the scoring operation
    returns what the specification's formula gives. *)
Lemma calculate_scores_spec_below_256 G mats causal_genes (alpha alpha_norm : F) :
  NoDup (nodes G) → powers_ok (length (nodes G)) mats →
  weights_ok alpha alpha_norm (seq 1 (length mats - 1)) = true →
  causal_count G causal_genes ≤ 255 →
  calculate_scores G mats causal_genes alpha alpha_norm
  = Ok (spec_scores G mats causal_genes alpha alpha_norm).
Proof.
  intros Hnd Hok Hw Hcount. rewrite calculate_scores_closed by done.
  unfold spec_scores. f_equal. f_equal. apply list_fmap_ext. intros _ i _.
  unfold node_final, spec_final. by rewrite node_score_spec_score.
Qed.

End below_256.

(** ** Binary64 *)


Lemma path3_nodup : NoDup (nodes Samples.path3).
Proof. by apply (bool_decide_unpack _). Qed.

Lemma edge_and_isolated_nodup : NoDup (nodes Samples.edge_and_isolated).
Proof. by apply (bool_decide_unpack _). Qed.

Lemma star256_nodup : NoDup (nodes Samples.star256).
Proof. apply (bool_decide_unpack _). by vm_compute. Qed.

Lemma powers_of_ok (G : Graph) (d_max : Z) :
  nodes G ≠ [] → powers_ok (length (nodes G)) (Samples.powers_of G d_max).
Proof.
  intros Hne. unfold Samples.powers_of.
  destruct (get_adjacency_matrices_ok G d_max Hne) as [mats Hm]. rewrite Hm.
  by eapply get_adjacency_matrices_powers_ok.
Qed.

Lemma star256_powers_ok : powers_ok 257 Samples.star256_powers.
Proof.
  intros d Hd. simpl in Hd. assert (d = 1%nat) as -> by lia.
  eexists. split; [done|]. split; [done|].
  apply Forall_forall. intros row Hrow. apply (bool_decide_unpack _).
  revert row Hrow. apply Forall_forall, (bool_decide_unpack _). by vm_compute.
Qed.

(** ** The star and its power sequence *)

Lemma fmap_replicate_const {A B} (f : A → B) (l : list A) (c : B) :
  (∀ x, x ∈ l → f x = c) → f <$> l = replicate (length l) c.
Proof.
  induction l as [|x l IH]; intros Hf; [done|].
  rewrite fmap_cons. cbn [length replicate]. f_equal.
  - apply Hf, list_elem_of_here.
  - apply IH. intros y Hy. by apply Hf, list_elem_of_further.
Qed.

Lemma hub_not_leaf : "hub" ∉ Samples.leaves.
Proof. apply (bool_decide_unpack _). by vm_compute. Qed.

Lemma length_leaves : length Samples.leaves = 256%nat.
Proof. unfold Samples.leaves. by rewrite length_fmap, length_seq. Qed.

Lemma star256_edge (u v : string) :
  has_edge Samples.star256 u v
  = bool_decide ((u = "hub" ∧ v ∈ Samples.leaves) ∨ (v = "hub" ∧ u ∈ Samples.leaves)).
Proof.
  unfold has_edge. apply bool_decide_ext.
  change (edges Samples.star256) with ((λ l, ("hub", l)) <$> Samples.leaves).
  rewrite !list_elem_of_fmap. split.
  - intros [(l & [= -> ->] & Hl)|(l & [= -> ->] & Hl)]; [left|right]; done.
  - intros [[-> Hl]|[-> Hl]]; [left|right]; by eexists.
Qed.

Lemma star256_nodes : nodes Samples.star256 = "hub" :: Samples.leaves.
Proof. reflexivity. Qed.

Lemma star256_hub_row :
  has_edge Samples.star256 "hub" <$> "hub" :: Samples.leaves
  = false :: replicate 256 true.
Proof.
  rewrite fmap_cons, <- length_leaves.
  rewrite (fmap_replicate_const _ Samples.leaves true).
  - rewrite star256_edge, bool_decide_eq_false_2; [done|].
    intros [[_ Hl]|[_ Hl]]; by apply hub_not_leaf.
  - intros l Hl. rewrite star256_edge. apply bool_decide_eq_true. by left.
Qed.

Lemma star256_leaf_row (u : string) :
  u ∈ Samples.leaves →
  has_edge Samples.star256 u <$> "hub" :: Samples.leaves
  = true :: replicate 256 false.
Proof.
  intros Hu. rewrite fmap_cons, <- length_leaves.
  rewrite (fmap_replicate_const _ Samples.leaves false).
  - rewrite star256_edge, bool_decide_eq_true_2; [done|]. by right.
  - intros l Hl. rewrite star256_edge. apply bool_decide_eq_false.
    intros [[-> _]|[-> _]]; by apply hub_not_leaf.
Qed.

(** The adjacency matrix of the star, and the list the builder returns
    for it. *)
Lemma star256_adjacency :
  to_scipy_sparse_array Samples.star256 = Ok Samples.star256_matrix.
Proof.
  unfold to_scipy_sparse_array. rewrite star256_nodes, fmap_cons.
  rewrite star256_hub_row.
  rewrite (fmap_replicate_const _ Samples.leaves (true :: replicate 256 false)
             star256_leaf_row).
  by rewrite length_leaves.
Qed.

Lemma star256_matrix_diagonal : setdiag0 Samples.star256_matrix = Samples.star256_matrix.
Proof. by vm_compute. Qed.

Lemma star256_powers_built :
  get_adjacency_matrices Samples.star256 1 = Ok Samples.star256_powers.
Proof.
  rewrite get_adjacency_matrices_eq, star256_adjacency. cbn [bind].
  by rewrite zero_nonzero_diagonal_setdiag0, star256_matrix_diagonal.
Qed.

(** ** Claims on binary64 inputs *)

(** C1, at an input where the code departs from the formula.  The hub of
    the star has 256 causal neighbours; [A.dot(causal_genes_vec)] is a
    [uint8] and holds 256 mod 256 = 0, so the hub's score is 0.0, where
    the formula [alpha * 256 / (alpha * 256)] gives 1.0. *)
Theorem C1_causal_count_wraps_at_256 :
  get_adjacency_matrices Samples.star256 1 = Ok Samples.star256_powers ∧
  causal_count Samples.star256 (Samples.causal_of Samples.leaves) = 256 ∧
  exact_dot (row_at Samples.star256_powers 1 0)
            (indicator Samples.star256 (Samples.causal_of Samples.leaves)) = 256 ∧
  row_dot_u8 (row_at Samples.star256_powers 1 0)
             (indicator Samples.star256 (Samples.causal_of Samples.leaves)) = 0 ∧
  (∃ scores,
     calculate_scores Samples.star256 Samples.star256_powers
       (Samples.causal_of Samples.leaves) B64.half B64.one = Ok scores ∧
     scores !! 0%nat = Some ("hub", B64.zero)) ∧
  spec_scores Samples.star256 Samples.star256_powers
    (Samples.causal_of Samples.leaves) B64.half B64.one !! 0%nat
  = Some ("hub", B64.one).
Proof.
  split; [apply star256_powers_built|].
  split; [by vm_compute|]. split; [by vm_compute|]. split; [by vm_compute|].
  split; [|by vm_compute].
  eexists. split; [by vm_compute|]. reflexivity.
Qed.

(** Below 256 causal genes the code and the formula agree, here on the
    path A - B - C with the causal gene A. *)
Example path3_scores_match_specification :
  calculate_scores Samples.path3 (Samples.powers_of Samples.path3 2)
    (Samples.causal_of ["A"]) B64.half B64.one
  = Ok (spec_scores Samples.path3 (Samples.powers_of Samples.path3 2)
          (Samples.causal_of ["A"]) B64.half B64.one).
Proof.
  apply calculate_scores_spec_below_256.
  - apply path3_nodup.
  - by apply (powers_of_ok Samples.path3 2).
  - reflexivity.
  - by vm_compute.
Qed.

(** The causal gene A of the path A - B - C gets 0.0, not 1.0. *)
Example causal_gene_not_set_to_one :
  calculate_scores Samples.path3 (Samples.powers_of Samples.path3 2)
    (Samples.causal_of ["A"]) B64.half B64.one
  = Ok [("A", B64.zero); ("B", B64.half);
        ("C", S754_finite false 6004799503160661 (-54))].
Proof. reflexivity. Qed.

Lemma C4_witness :
  NoDup (nodes Samples.path3) ∧
  powers_ok (length (nodes Samples.path3)) (Samples.powers_of Samples.path3 2) ∧
  weights_ok B64.half B64.one
    (seq 1 (length (Samples.powers_of Samples.path3 2) - 1)) = true ∧
  ∃ scores,
    calculate_scores Samples.path3 (Samples.powers_of Samples.path3 2)
      (Samples.causal_of ["A"]) B64.half B64.one = Ok scores ∧
    ∀ i g, nodes Samples.path3 !! i = Some g →
      scores !! i
      = Some (g, node_final Samples.path3 (Samples.powers_of Samples.path3 2)
                   (Samples.causal_of ["A"]) B64.half B64.one i) ∧
      (is_Some (Samples.causal_of ["A"] !! g) →
         indicator Samples.path3 (Samples.causal_of ["A"]) !! i = Some 1 ∧
         scores !! i
         = Some (g, node_final Samples.path3 (Samples.powers_of Samples.path3 2)
                      (Samples.causal_of ["A"]) B64.half B64.one i)) ∧
      ((∀ d, entry (matrix_at (Samples.powers_of Samples.path3 2) d) i i = false) →
         node_final Samples.path3 (Samples.powers_of Samples.path3 2)
           (Samples.causal_of ["A"]) B64.half B64.one i
         = node_final Samples.path3 (Samples.powers_of Samples.path3 2)
             (delete g (Samples.causal_of ["A"])) B64.half B64.one i).
Proof.
  split; [apply path3_nodup|]. split; [by apply (powers_of_ok Samples.path3 2)|].
  split; [reflexivity|].
  apply (C4_same_formula_for_causal_genes (F := spec_float)).
  - apply path3_nodup.
  - by apply (powers_of_ok Samples.path3 2).
  - reflexivity.
Defined.


(** The same with both factors in (0, 1]: [1.0 / 2^-1074] is infinite,
    and the isolated node C gets the denominator [inf * 0.0], a NaN. *)
Example nan_denominator_with_factors_in_range :
  accumulate Samples.edge_and_isolated (Samples.powers_of Samples.edge_and_isolated 1)
    (Samples.causal_of ["A"]) B64.one B64.tiny
  = Ok ([B64.zero; B64.one; B64.zero],
        [S754_infinity false; S754_infinity false; S754_nan]) ∧
  calculate_scores Samples.edge_and_isolated
    (Samples.powers_of Samples.edge_and_isolated 1)
    (Samples.causal_of ["A"]) B64.one B64.tiny
  = Ok [("A", B64.zero); ("B", B64.zero); ("C", S754_nan)].
Proof. split; reflexivity. Qed.



(** The isolated node C has a zero denominator and gets a NaN; A and B
    keep their scores, and C keeps its entry. *)
Example isolated_node_scores_nan :
  calculate_scores Samples.edge_and_isolated
    (Samples.powers_of Samples.edge_and_isolated 2)
    (Samples.causal_of ["A"]) B64.half B64.one
  = Ok [("A", B64.zero); ("B", B64.one); ("C", S754_nan)].
Proof. reflexivity. Qed.

(** A zero [alpha_norm] stops the loop at its first turn. *)
Example zero_alpha_norm_raises :
  calculate_scores Samples.path3 (Samples.powers_of Samples.path3 2)
    (Samples.causal_of ["A"]) B64.half B64.zero
  = Raise ZeroDivisionError.
Proof. reflexivity. Qed.

(** C7, as stated, fails: a causal identifier that is no node of the graph
    raises nothing, and the scores are those of the run without it. *)
Lemma C7_counterexample :
  ("ENSG_absent" ∉ nodes Samples.path3) ∧
  (Samples.causal_of ["A"; "ENSG_absent"]) !! "ENSG_absent" = Some 1 ∧
  calculate_scores Samples.path3 (Samples.powers_of Samples.path3 2)
    (Samples.causal_of ["A"; "ENSG_absent"]) B64.half B64.one
  = Ok [("A", B64.zero); ("B", B64.half);
        ("C", S754_finite false 6004799503160661 (-54))].
Proof.
  split; [|split; reflexivity].
  apply (bool_decide_unpack _). by vm_compute.
Qed.

Lemma C7_witness :
  (∀ g, g ∈ nodes Samples.path3 →
     is_Some (Samples.causal_of ["A"; "ENSG_absent"] !! g)
     ↔ is_Some (Samples.causal_of ["A"] !! g)) ∧
  calculate_scores Samples.path3 (Samples.powers_of Samples.path3 2)
    (Samples.causal_of ["A"; "ENSG_absent"]) B64.half B64.one
  = calculate_scores Samples.path3 (Samples.powers_of Samples.path3 2)
      (Samples.causal_of ["A"]) B64.half B64.one.
Proof.
  assert (Hagree : ∀ g, g ∈ nodes Samples.path3 →
            is_Some (Samples.causal_of ["A"; "ENSG_absent"] !! g)
            ↔ is_Some (Samples.causal_of ["A"] !! g)).
  { intros g Hg. simpl in Hg.
    repeat (apply elem_of_cons in Hg as [->|Hg]); [| | |by apply elem_of_nil in Hg];
      match goal with
      | |- is_Some (?a !! ?k) ↔ is_Some (?b !! ?k) =>
          let Hl := fresh in
          assert (Hl : a !! k = b !! k) by (vm_compute; reflexivity);
          rewrite Hl; reflexivity
      end. }
  split; [exact Hagree|].
  exact (C7_absent_causal_genes_are_ignored Samples.path3
           (Samples.powers_of Samples.path3 2) _ _ B64.half B64.one Hagree).
Defined.

Lemma C8_witness :
  ∃ scores1 norms1 scores2 norms2,
    accumulate Samples.path3 (Samples.powers_of Samples.path3 2)
      (Samples.causal_of ["A"]) B64.half B64.one = Ok (scores1, norms1) ∧
    accumulate Samples.path3 (Samples.powers_of Samples.path3 2)
      (Samples.causal_of ["A"]) B64.half B64.half = Ok (scores2, norms2) ∧
    norms1 ≠ norms2 ∧ scores1 = scores2.
Proof.
  exists [B64.zero; B64.half; S754_finite false 4503599627370496 (-54)],
         [S754_finite false 6755399441055744 (-53); B64.one;
          S754_finite false 6755399441055744 (-53)],
         [B64.zero; B64.half; S754_finite false 4503599627370496 (-54)],
         [S754_finite false 4503599627370496 (-51);
          S754_finite false 4503599627370496 (-51);
          S754_finite false 4503599627370496 (-51)].
  split; [vm_compute; reflexivity|]. split; [vm_compute; reflexivity|].
  split; [discriminate|].
  apply (C8_numerator_independent_of_alpha_norm (F := spec_float) Samples.path3
           (Samples.powers_of Samples.path3 2) (Samples.causal_of ["A"])
           B64.half B64.one B64.half _
           [S754_finite false 6755399441055744 (-53); B64.one;
            S754_finite false 6755399441055744 (-53)]
           _
           [S754_finite false 4503599627370496 (-51);
            S754_finite false 4503599627370496 (-51);
            S754_finite false 4503599627370496 (-51)]);
    vm_compute; reflexivity.
Defined.

Lemma C10_witness :
  NoDup (nodes Samples.edge_and_isolated) ∧
  is_ok (calculate_scores Samples.edge_and_isolated
           (Samples.powers_of Samples.edge_and_isolated 2)
           (Samples.causal_of ["A"]) B64.half B64.one)
  = is_ok (accumulate Samples.edge_and_isolated
             (Samples.powers_of Samples.edge_and_isolated 2)
             (Samples.causal_of ["A"]) B64.half B64.one) ∧
  (powers_ok (length (nodes Samples.edge_and_isolated))
     (Samples.powers_of Samples.edge_and_isolated 2) →
   weights_ok B64.half B64.one
     (seq 1 (length (Samples.powers_of Samples.edge_and_isolated 2) - 1)) = true →
   is_ok (calculate_scores Samples.edge_and_isolated
            (Samples.powers_of Samples.edge_and_isolated 2)
            (Samples.causal_of ["A"]) B64.half B64.one) = true) ∧
  ∀ scores,
    calculate_scores Samples.edge_and_isolated
      (Samples.powers_of Samples.edge_and_isolated 2)
      (Samples.causal_of ["A"]) B64.half B64.one = Ok scores →
    scores.*1 = nodes Samples.edge_and_isolated ∧
    length scores = length (nodes Samples.edge_and_isolated) ∧
    ∀ i g, nodes Samples.edge_and_isolated !! i = Some g →
      ∃ x, scores !! i = Some (g, x).
Proof.
  split; [apply edge_and_isolated_nodup|].
  apply (C10_one_entry_per_node (F := spec_float)), edge_and_isolated_nodup.
Defined.

Lemma C3_witness :
  powers_ok (length (nodes Samples.path3)) (Samples.powers_of Samples.path3 2) ∧
  (∀ files acc,
     calculate_contributions Samples.path3 (Samples.powers_of Samples.path3 2)
       (Samples.causal_of ["A"]) B64.half 2 B64.one "MMAF"
     = (files, Ok acc) →
     accumulate Samples.path3 (Samples.powers_of Samples.path3 2)
       (Samples.causal_of ["A"]) B64.half B64.one = Ok acc ∧
     saved_distances ScoresFile files
     = seq 1 (length (Samples.powers_of Samples.path3 2) - 1) ∧
     saved_distances NormFactorsFile files
     = seq 1 (length (Samples.powers_of Samples.path3 2) - 1) ∧
     vsum (length (nodes Samples.path3)) (saved_arrays ScoresFile files) = acc.1 ∧
     vsum (length (nodes Samples.path3)) (saved_arrays NormFactorsFile files) = acc.2) ∧
  (∀ acc z,
     accumulate Samples.path3 (Samples.powers_of Samples.path3 2)
       (Samples.causal_of ["A"]) B64.half B64.one = Ok acc →
     py_int B64.one = Ok z →
     ∃ files,
       calculate_contributions Samples.path3 (Samples.powers_of Samples.path3 2)
         (Samples.causal_of ["A"]) B64.half 2 B64.one "MMAF"
       = (files, Ok acc)).
Proof.
  split; [by apply (powers_of_ok Samples.path3 2)|].
  apply (C3_contributions_sum_to_accumulators (F := spec_float)).
  by apply (powers_of_ok Samples.path3 2).
Defined.

(** The diagnostic run on the path A - B - C: two files per distance, and
    the first score contributions sum to the score accumulator. *)
Example path3_contributions :
  ∃ files acc,
    calculate_contributions Samples.path3 (Samples.powers_of Samples.path3 2)
      (Samples.causal_of ["A"]) B64.half 2 B64.one "MMAF" = (files, Ok acc) ∧
    saved_arrays ScoresFile files
    = [[B64.zero; B64.half; B64.zero];
       [B64.zero; B64.zero; S754_finite false 4503599627370496 (-54)]] ∧
    acc.1 = [B64.zero; B64.half; S754_finite false 4503599627370496 (-54)] ∧
    npz_alphanorm <$> files = [1; 1; 1; 1].
Proof. do 2 eexists. split; [reflexivity|]. split; [|split]; reflexivity. Qed.

(** * Further properties *)

(** * Further properties of the builder *)

Lemma powers_from_snoc (A res : matrix) (k : nat) :
  powers_from A res (S k)
  = powers_from A res k
    ++ [zero_nonzero_diagonal (matmul (default res (last (powers_from A res k))) A)].
Proof.
  revert res. induction k as [|k IH]; intros res; [done|].
  change (powers_from A res (S (S k)))
    with (zero_nonzero_diagonal (matmul res A)
            :: powers_from A (zero_nonzero_diagonal (matmul res A)) (S k)).
  rewrite IH. cbn [powers_from app]. f_equal. f_equal. f_equal. f_equal.
  rewrite last_cons.
  by destruct (last (powers_from A (zero_nonzero_diagonal (matmul res A)) k)).
Qed.

(** X1. Asking for one more distance appends one matrix, the cleared
    product of the last matrix with the base matrix, and leaves the list
    built for [d_max] as it is. *)
Theorem X1_one_more_distance_appends (G : Graph) (d_max : Z) (mats : list pyobj) :
  1 ≤ d_max → get_adjacency_matrices G d_max = Ok mats →
  ∃ A M,
    mats !! 1%nat = Some (CsrBool A) ∧ last mats = Some (CsrBool M) ∧
    get_adjacency_matrices G (d_max + 1)
    = Ok (mats ++ [CsrBool (setdiag0 (matmul M A))]).
Proof.
  intros Hd. rewrite !get_adjacency_matrices_eq.
  destruct (to_scipy_sparse_array G) as [A0|e]; cbn [bind]; [|done].
  intros [= <-]. set (A := zero_nonzero_diagonal A0).
  replace (Z.to_nat (d_max + 1 - 1)) with (S (Z.to_nat (d_max - 1))) by lia.
  set (k := Z.to_nat (d_max - 1)).
  exists A, (default A (last (powers_from A A k))). split; [done|]. split.
  - rewrite !last_cons. rewrite fmap_last.
    by destruct (last (powers_from A A k)).
  - rewrite powers_from_snoc, fmap_app, zero_nonzero_diagonal_setdiag0. done.
Qed.

Lemma X1_witness :
  1 ≤ 2 ∧
  get_adjacency_matrices Samples.path3 2
  = Ok (Samples.powers_of Samples.path3 2) ∧
  ∃ A M,
    Samples.powers_of Samples.path3 2 !! 1%nat = Some (CsrBool A) ∧
    last (Samples.powers_of Samples.path3 2) = Some (CsrBool M) ∧
    get_adjacency_matrices Samples.path3 (2 + 1)
    = Ok (Samples.powers_of Samples.path3 2 ++ [CsrBool (setdiag0 (matmul M A))]).
Proof.
  split; [lia|]. split; [reflexivity|].
  apply (X1_one_more_distance_appends Samples.path3 2); [lia|reflexivity].
Defined.

Lemma has_edge_remove_self_loops (G : Graph) (u v : string) :
  u ≠ v → has_edge (remove_self_loops G) u v = has_edge G u v.
Proof.
  intros Hne. unfold has_edge. apply bool_decide_ext. simpl.
  rewrite !list_elem_of_filter. simpl. split.
  - intros [[_ ?]|[_ ?]]; [by left|by right].
  - intros [?|?]; [left|right]; (split; [|done]); congruence.
Qed.

Lemma setdiag0_remove_self_loops (G : Graph) :
  NoDup (nodes G) →
  setdiag0 ((λ u, has_edge (remove_self_loops G) u <$> nodes G) <$> nodes G)
  = setdiag0 ((λ u, has_edge G u <$> nodes G) <$> nodes G).
Proof.
  intros Hnd. unfold setdiag0. apply list_eq. intros i.
  rewrite !list_lookup_imap, !list_lookup_fmap.
  destruct (nodes G !! i) as [u|] eqn:Hi; simpl; [|done]. f_equal.
  apply list_eq. intros j. destruct (decide (i = j)) as [<-|Hij].
  - destruct (decide (i < length (nodes G))%nat).
    + by rewrite !list_lookup_insert_eq by (by rewrite length_fmap).
    + by rewrite !lookup_ge_None_2 by (rewrite length_insert, length_fmap; lia).
  - rewrite !list_lookup_insert_ne, !list_lookup_fmap by done.
    destruct (nodes G !! j) as [v|] eqn:Hj; simpl; [|done]. f_equal.
    apply has_edge_remove_self_loops. intros ->.
    by apply Hij, (NoDup_lookup _ _ _ _ Hnd Hi Hj).
Qed.

(** X2. Self-loops of the interactome never show in the power sequence:
    the builder returns the same list for the graph and for the graph
    without its self-loops. *)
Theorem X2_self_loops_never_count (G : Graph) (d_max : Z) :
  NoDup (nodes G) →
  get_adjacency_matrices (remove_self_loops G) d_max = get_adjacency_matrices G d_max.
Proof.
  intros Hnd. rewrite !get_adjacency_matrices_eq. unfold to_scipy_sparse_array.
  change (nodes (remove_self_loops G)) with (nodes G).
  destruct (nodes G) as [|u l] eqn:Hn; [done|]. rewrite <- Hn. cbn [bind].
  rewrite !zero_nonzero_diagonal_setdiag0.
  by rewrite setdiag0_remove_self_loops by (by rewrite Hn).
Qed.

Lemma loop_and_edge_nodup : NoDup (nodes Samples.loop_and_edge).
Proof. by apply (bool_decide_unpack _). Qed.

Lemma X2_witness :
  NoDup (nodes Samples.loop_and_edge) ∧
  edges (remove_self_loops Samples.loop_and_edge) = [("A", "B")] ∧
  get_adjacency_matrices (remove_self_loops Samples.loop_and_edge) 3
  = get_adjacency_matrices Samples.loop_and_edge 3.
Proof.
  split; [apply loop_and_edge_nodup|]. split; [reflexivity|].
  apply (X2_self_loops_never_count Samples.loop_and_edge 3), loop_and_edge_nodup.
Defined.

(** ** Symmetry of the first two matrices *)

Lemma has_edge_sym (G : Graph) (u v : string) : has_edge G u v = has_edge G v u.
Proof. unfold has_edge. apply bool_decide_ext. tauto. Qed.

Lemma entry_adjacency_sym (G : Graph) (i j : nat) :
  entry ((λ u, has_edge G u <$> nodes G) <$> nodes G) i j
  = entry ((λ u, has_edge G u <$> nodes G) <$> nodes G) j i.
Proof.
  destruct (nodes G !! i) as [u|] eqn:Hi; destruct (nodes G !! j) as [v|] eqn:Hj.
  - rewrite (entry_adjacency G i j u v), (entry_adjacency G j i v u) by done.
    apply has_edge_sym.
  - unfold entry. rewrite !list_lookup_fmap, Hi, Hj. simpl.
    by rewrite list_lookup_fmap, Hj.
  - unfold entry. rewrite !list_lookup_fmap, Hi, Hj. simpl.
    by rewrite list_lookup_fmap, Hi.
  - unfold entry. by rewrite !list_lookup_fmap, Hi, Hj.
Qed.

Lemma entry_matmul_true (X A : matrix) (n i j : nat) :
  shape A n n → (0 < n)%nat →
  entry (matmul X A) i j = true ↔ ∃ k, entry X i k = true ∧ entry A k j = true.
Proof.
  intros HA Hn. split.
  - intros He. apply entry_true_inv in He as (r & Hr & Hj).
    unfold matmul in Hr. rewrite list_lookup_fmap in Hr.
    destruct (X !! i) as [row|] eqn:Hrow; simpl in Hr; [|done].
    injection Hr as <-. rewrite list_lookup_fmap in Hj.
    destruct (seq 0 (ncols A) !! j) as [j'|] eqn:Hs; simpl in Hj; [|done].
    apply lookup_seq in Hs as [-> _]. injection Hj as Hj.
    apply bool_dot_true in Hj as (k & Hk1 & Hk2). exists k. split.
    + by apply (entry_row_true _ _ _ _ Hrow Hk1).
    + by apply column_lookup_true.
  - intros (k & He1 & He2).
    apply entry_true_inv in He1 as (row & Hrow & Hk1).
    destruct (entry_true_lt _ _ _ _ _ HA He2) as [Hk Hj].
    rewrite (entry_matmul _ _ i j row Hrow)
      by (by rewrite (ncols_shape _ _ _ HA Hn)).
    apply (bool_dot_found _ _ k); [done|].
    apply column_true; [|done]. by destruct HA as [-> _].
Qed.

(** X3. The matrices at distances 1 and 2 are symmetric, for every
    interactome. *)
Theorem X3_symmetric_up_to_distance_two (G : Graph) (d_max : Z)
    (mats : list pyobj) (d : nat) (M : matrix) (i j : nat) :
  get_adjacency_matrices G d_max = Ok mats → (1 ≤ d ≤ 2)%nat →
  mats !! d = Some (CsrBool M) →
  entry M i j = entry M j i.
Proof.
  intros Hm Hd HM.
  apply get_adjacency_matrices_inv in Hm as (A0 & HA0 & Hlen & Hat).
  apply to_scipy_sparse_array_inv in HA0 as [Hne ->].
  rewrite Hat in HM by (split; [lia|by eapply lookup_lt_Some]).
  injection HM as <-.
  set (A := zero_nonzero_diagonal ((λ u, has_edge G u <$> nodes G) <$> nodes G)).
  assert (Hn : (0 < length (nodes G))%nat) by (destruct (nodes G); [congruence|simpl; lia]).
  assert (HA : shape A (length (nodes G)) (length (nodes G))).
  { unfold A. rewrite zero_nonzero_diagonal_setdiag0.
    apply shape_setdiag0, shape_adjacency. }
  assert (Hsym : ∀ a b, entry A a b = entry A b a).
  { intros a b. unfold A. rewrite zero_nonzero_diagonal_setdiag0, !entry_setdiag0.
    do 2 case_decide; subst; try done. apply entry_adjacency_sym. }
  destruct d as [|[|[|d]]]; [lia|apply Hsym| |lia].
  change (adj_power A 2) with (zero_nonzero_diagonal (matmul A A)).
  rewrite zero_nonzero_diagonal_setdiag0, !entry_setdiag0.
  do 2 case_decide; subst; try done.
  apply eq_true_iff_eq. rewrite !(entry_matmul_true A A _ _ _ HA Hn).
  split; intros (k & H1 & H2); exists k; (split; by rewrite Hsym).
Qed.

Lemma X3_witness :
  get_adjacency_matrices Samples.path3 3 = Ok (Samples.powers_of Samples.path3 3) ∧
  (1 ≤ 2 ≤ 2)%nat ∧
  Samples.powers_of Samples.path3 3 !! 2%nat
  = Some (CsrBool [[false; false; true]; [false; false; false]; [true; false; false]]) ∧
  entry [[false; false; true]; [false; false; false]; [true; false; false]] 0 2
  = entry [[false; false; true]; [false; false; false]; [true; false; false]] 2 0.
Proof.
  split; [reflexivity|]. split; [lia|]. split; [reflexivity|].
  apply (X3_symmetric_up_to_distance_two Samples.path3 3
           (Samples.powers_of Samples.path3 3) 2); [reflexivity|lia|reflexivity].
Defined.

(** From distance 3 on symmetry is lost: on the path A - B - C the walk
    A - B - C - B is kept, and no walk of three edges from B ends in A
    without coming back to B. *)
Example distance_three_not_symmetric :
  ∃ M, Samples.powers_of Samples.path3 3 !! 3%nat = Some (CsrBool M) ∧
       entry M 0 1 = true ∧ entry M 1 0 = false.
Proof. eexists. split; [reflexivity|]. split; reflexivity. Qed.

(** ** Further properties of the scorer *)

Lemma foldl_ext_in {A B} (f g : A → B → A) (a : A) (l : list B) :
  (∀ a b, b ∈ l → f a b = g a b) → foldl f a l = foldl g a l.
Proof.
  revert a. induction l as [|b l IH]; intros a Hfg; simpl; [done|].
  rewrite Hfg by apply list_elem_of_here.
  apply IH. intros a' b' Hb'. by apply Hfg, list_elem_of_further.
Qed.

(** X4. The loop that fills [causal_genes_vec] leaves a vector with one
    entry per node, in the order of the nodes: 1 where the node is a key
    of [causal_genes], whatever the value stored there, and 0 elsewhere. *)
Theorem X4_indicator_vector (G : Graph) (causal_genes : gmap string Z) :
  length (causal_indicator G causal_genes) = length (nodes G) ∧
  ∀ i n, nodes G !! i = Some n →
    causal_indicator G causal_genes !! i
    = Some (if bool_decide (is_Some (causal_genes !! n)) then 1 else 0).
Proof.
  rewrite causal_indicator_eq. split; [apply length_indicator|].
  intros i n Hi. unfold indicator. by rewrite list_lookup_fmap, Hi.
Qed.

Lemma row_dot_u8_fold_mod (l : list (bool * Z)) (acc acc' : Z) :
  acc = acc' mod 256 →
  foldl (λ acc ax, if ax.1 : bool then add_u8 acc ax.2 else acc) acc l
  = foldl (λ acc ax, if ax.1 : bool then acc + ax.2 else acc) acc' l mod 256.
Proof.
  revert acc acc'. induction l as [|[b x] l IH]; intros acc acc' Hacc; simpl; [done|].
  apply IH. destruct b; simpl; [|done].
  unfold add_u8. subst acc. by rewrite Z.add_mod_idemp_l.
Qed.

Lemma row_dot_u8_mod (row : list bool) (c : list Z) :
  row_dot_u8 row c = exact_dot row c mod 256.
Proof. by apply row_dot_u8_fold_mod. Qed.

(** X5. The count of causal neighbours that enters a score is the exact
    count modulo 256: it lies in 0 .. 255, and it is the exact count if
    and only if that one lies in 0 .. 255. *)
Theorem X5_causal_count_is_modulo_256 (row : list bool) (c : list Z) :
  row_dot_u8 row c = exact_dot row c mod 256 ∧
  0 ≤ row_dot_u8 row c ≤ 255 ∧
  (row_dot_u8 row c = exact_dot row c ↔ 0 ≤ exact_dot row c ≤ 255).
Proof.
  rewrite row_dot_u8_mod.
  pose proof (Z.mod_pos_bound (exact_dot row c) 256 ltac:(lia)).
  split; [done|]. split; [lia|]. split.
  - intros <-. lia.
  - intros Hr. apply Z.mod_small. lia.
Qed.

Lemma exact_dot_fold_nonneg (l : list (bool * Z)) (acc : Z) :
  0 ≤ acc → Forall (λ ax : bool * Z, 0 ≤ ax.2) l →
  0 ≤ foldl (λ acc ax, if ax.1 : bool then acc + ax.2 else acc) acc l.
Proof.
  revert acc. induction l as [|[b x] l IH]; intros acc Hacc Hl; simpl; [done|].
  inversion Hl as [|? ? Hx Hl']; subst. simpl in Hx.
  apply IH; [destruct b; simpl; lia|done].
Qed.

Lemma exact_dot_nonneg (row : list bool) (c : list Z) :
  Forall (λ x, 0 ≤ x) c → 0 ≤ exact_dot row c.
Proof.
  intros Hc. apply exact_dot_fold_nonneg; [done|].
  apply Forall_forall. intros [b x] Hbx. simpl.
  apply elem_of_zip_r in Hbx. simpl in Hbx.
  by apply (proj1 (Forall_forall _ _) Hc).
Qed.

Section scorer_extras.
Context {F : Type} `{PyFloat F}.

Lemma node_score_spec_score_fit G mats causal_genes (alpha : F) i :
  counts_fit G mats causal_genes = true →
  node_score G mats causal_genes alpha i = spec_score G mats causal_genes alpha i.
Proof.
  intros Hfit. unfold node_score, spec_score, score_at.
  apply foldl_ext_in. intros acc d Hd. do 3 f_equal.
  rewrite row_dot_u8_mod. apply Z.mod_small.
  split; [apply exact_dot_nonneg, indicator_nonneg|].
  unfold counts_fit in Hfit. rewrite forallb_forall in Hfit.
  specialize (Hfit d ltac:(by apply list_elem_of_In)).
  rewrite forallb_forall in Hfit. unfold row_at.
  destruct (matrix_at mats d !! i) as [row|] eqn:Hrow; simpl; [|done].
  apply list_elem_of_lookup_2, list_elem_of_In, Hfit in Hrow.
  apply bool_decide_eq_true in Hrow. lia.
Qed.

(** X6. As long as no row of a matrix counts 256 causal genes or more,
    the scoring operation returns what the formula gives with exact
    counts. *)
Theorem X6_scores_match_formula_while_counts_fit (G : Graph) (mats : list pyobj)
    (causal_genes : gmap string Z) (alpha alpha_norm : F) :
  NoDup (nodes G) → powers_ok (length (nodes G)) mats →
  weights_ok alpha alpha_norm (seq 1 (length mats - 1)) = true →
  counts_fit G mats causal_genes = true →
  calculate_scores G mats causal_genes alpha alpha_norm
  = Ok (spec_scores G mats causal_genes alpha alpha_norm).
Proof.
  intros Hnd Hok Hw Hfit. rewrite calculate_scores_closed by done.
  unfold spec_scores. f_equal. f_equal. apply list_fmap_ext. intros _ i _.
  unfold node_final, spec_final. by rewrite node_score_spec_score_fit.
Qed.

Lemma getitem_tail (o o' : pyobj) (rest : list pyobj) (d : nat) :
  (1 ≤ d)%nat → getitem (o :: rest) d = getitem (o' :: rest) d.
Proof. intros Hd. destruct d as [|d]; [lia|done]. Qed.

(** X7. The element at index 0 of [adjacency_matrices] is never read:
    neither the scores nor the files of the diagnostic mode depend on
    it. *)
Theorem X7_index_zero_is_never_read (G : Graph) (o o' : pyobj) (rest : list pyobj)
    (causal_genes : gmap string Z) (alpha alpha_norm : F) (d_max : Z)
    (patho : string) :
  calculate_scores G (o :: rest) causal_genes alpha alpha_norm
  = calculate_scores G (o' :: rest) causal_genes alpha alpha_norm ∧
  calculate_contributions G (o :: rest) causal_genes alpha d_max alpha_norm patho
  = calculate_contributions G (o' :: rest) causal_genes alpha d_max alpha_norm patho.
Proof.
  split.
  - unfold calculate_scores, accumulate. cbn [length]. f_equal.
    apply foldl_ext_in. intros st d Hd. apply elem_of_seq in Hd.
    unfold scores_step. destruct st as [[s nv]|e]; cbn [bind]; [|done].
    by rewrite (getitem_tail o o') by lia.
  - unfold calculate_contributions. cbn [length].
    apply foldl_ext_in. intros st d Hd. apply elem_of_seq in Hd.
    unfold contributions_step, contributions_turn.
    destruct st.2 as [[s nv]|e]; [|done].
    by rewrite (getitem_tail o o') by lia.
Qed.

Lemma np_iadd_same_but_scores (s1 s2 t1 t2 : list F) :
  length s1 = length s2 → length t1 = length t2 →
  match np_iadd s1 t1, np_iadd s2 t2 with
  | Ok s1', Ok s2' => length s1' = length s2'
  | Raise e1, Raise e2 => e1 = e2
  | _, _ => False
  end.
Proof.
  intros Hs Ht. unfold np_iadd. rewrite Hs, Ht.
  case_bool_decide as H1.
  - rewrite !length_zip_with. lia.
  - case_bool_decide; [|done]. by rewrite !length_fmap.
Qed.

Lemma scores_step_same_but_scores mats (c1 c2 : list Z) ones (alpha alpha_norm : F)
    st1 st2 d :
  length c1 = length c2 → same_but_scores st1 st2 →
  same_but_scores (scores_step mats c1 ones alpha alpha_norm st1 d)
                  (scores_step mats c2 ones alpha alpha_norm st2 d).
Proof.
  intros Hc. destruct st1 as [[s1 nv1]|e1], st2 as [[s2 nv2]|e2]; simpl; try done.
  intros [Hs <-]. unfold scores_step. cbn [bind].
  destruct (getitem mats d) as [A|e]; cbn [bind]; [|done].
  unfold score_term. destruct (py_pow alpha d) as [a|e]; cbn [bind]; [|done].
  destruct A as [z|M]; cbn [dot bind]; [done|]. rewrite Hc.
  destruct (forallb _ M); cbn [bind]; [|done].
  pose proof (np_iadd_same_but_scores s1 s2
    ((λ x, f_mul a (f_of_int x)) <$> ((λ row, row_dot_u8 row c1) <$> M))
    ((λ x, f_mul a (f_of_int x)) <$> ((λ row, row_dot_u8 row c2) <$> M))
    Hs ltac:(by rewrite !length_fmap)) as Hadd.
  destruct (np_iadd s1 _) as [s1'|e1], (np_iadd s2 _) as [s2'|e2];
    cbn [bind]; try done.
  destruct (norm_term alpha alpha_norm d (CsrBool M) ones) as [u|e]; cbn [bind]; [|done].
  by destruct (np_iadd nv1 u).
Qed.

(** X8. Which genes are causal has no part in the normalization: two
    runs of the loop that differ only in the causal genes raise the same
    exception, or both end and hold the same [norm_factors_vec]. *)
Theorem X8_normalization_independent_of_causal_genes (G : Graph)
    (mats : list pyobj) (causal1 causal2 : gmap string Z) (alpha alpha_norm : F) :
  match accumulate G mats causal1 alpha alpha_norm,
        accumulate G mats causal2 alpha alpha_norm with
  | Ok (_, norms1), Ok (_, norms2) => norms1 = norms2
  | Raise e1, Raise e2 => e1 = e2
  | _, _ => False
  end.
Proof.
  assert (Hfold : ∀ (c1 c2 : list Z) ones ds st1 st2,
            length c1 = length c2 → same_but_scores st1 st2 →
            same_but_scores
              (foldl (scores_step mats c1 ones alpha alpha_norm) st1 ds)
              (foldl (scores_step mats c2 ones alpha alpha_norm) st2 ds)).
  { intros c1 c2 ones ds. induction ds as [|d ds IH]; intros st1 st2 Hc HR; [done|].
    cbn [foldl]. apply IH; [done|]. by apply scores_step_same_but_scores. }
  unfold accumulate. rewrite !causal_indicator_eq, !length_indicator.
  pose proof (Hfold (indicator G causal1) (indicator G causal2)
                (replicate (length (nodes G)) f_one)
                (seq 1 (length mats - 1))
                (Ok (replicate (length (nodes G)) f_zero,
                     replicate (length (nodes G)) f_zero))
                (Ok (replicate (length (nodes G)) f_zero,
                     replicate (length (nodes G)) f_zero))
                ltac:(by rewrite !length_indicator) ltac:(done)) as HR.
  destruct (foldl _ _ _) as [[s1 nv1]|e1], (foldl _ _ _) as [[s2 nv2]|e2];
    simpl in HR; try done. by destruct HR.
Qed.

End scorer_extras.

Lemma X6_witness :
  NoDup (nodes Samples.path3) ∧
  powers_ok (length (nodes Samples.path3)) (Samples.powers_of Samples.path3 2) ∧
  weights_ok B64.half B64.one
    (seq 1 (length (Samples.powers_of Samples.path3 2) - 1)) = true ∧
  counts_fit Samples.path3 (Samples.powers_of Samples.path3 2)
    (Samples.causal_of ["A"; "C"]) = true ∧
  calculate_scores Samples.path3 (Samples.powers_of Samples.path3 2)
    (Samples.causal_of ["A"; "C"]) B64.half B64.one
  = Ok (spec_scores Samples.path3 (Samples.powers_of Samples.path3 2)
          (Samples.causal_of ["A"; "C"]) B64.half B64.one).
Proof.
  split; [apply path3_nodup|]. split; [by apply powers_of_ok|].
  split; [reflexivity|]. split; [reflexivity|].
  apply (X6_scores_match_formula_while_counts_fit Samples.path3
           (Samples.powers_of Samples.path3 2) (Samples.causal_of ["A"; "C"])
           B64.half B64.one);
    [apply path3_nodup|by apply powers_of_ok|reflexivity|reflexivity].
Defined.

(** ** The builder followed by the scorer *)

Section pipeline.
Context {F : Type} `{PyFloat F}.

Lemma check_weights_raise (alpha alpha_norm : F) (e : exn) (ds : list nat) :
  foldl (λ st d, _ <- st ;; _ <- weights alpha alpha_norm d ;; Ok ()) (Raise e) ds
  = Raise e.
Proof. by apply foldl_raise. Qed.

Lemma check_weights_cons (alpha alpha_norm : F) (d : nat) (ds : list nat) :
  check_weights alpha alpha_norm (d :: ds)
  = bind (weights alpha alpha_norm d) (λ _, check_weights alpha alpha_norm ds).
Proof.
  unfold check_weights. cbn [foldl bind].
  destruct (weights alpha alpha_norm d) as [w|e]; cbn [bind]; [done|].
  apply check_weights_raise.
Qed.

Lemma check_weights_ok (alpha alpha_norm : F) (ds : list nat) :
  check_weights alpha alpha_norm ds = Ok () ↔ weights_ok alpha alpha_norm ds = true.
Proof.
  induction ds as [|d ds IH]; [done|].
  rewrite check_weights_cons. unfold weights_ok in *. cbn [forallb].
  destruct (weights alpha alpha_norm d) as [w|e]; cbn [bind is_ok]; [done|].
  split; [done|]. by rewrite andb_false_l.
Qed.

(** The loop of the scorer on a well-shaped power sequence: it ends with
    the first exception of the scalar operations, or with the sums. *)
Lemma scores_loop_outcome mats c n (alpha alpha_norm : F) (ds : list nat) s nv :
  powers_ok n mats → Forall (λ d, (1 ≤ d < length mats)%nat) ds →
  length c = n → length s = n → length nv = n →
  foldl (scores_step mats c (replicate n f_one) alpha alpha_norm) (Ok (s, nv)) ds
  = bind (check_weights alpha alpha_norm ds) (λ _,
      Ok (foldl (λ s d, zip_with f_add s (score_vec mats c alpha d)) s ds,
          foldl (λ v d, zip_with f_add v (norm_vec mats n alpha alpha_norm d)) nv ds)).
Proof.
  intros Hok Hds Hc. revert s nv.
  induction Hds as [|d ds Hd Hds IH]; intros s nv Hs Hnv; [done|].
  cbn [foldl]. rewrite scores_step_shaped, check_weights_cons by done.
  destruct (weights alpha alpha_norm d) as [w|e]; cbn [bind].
  - apply IH; rewrite length_zip_with;
      [rewrite (length_score_vec mats c n) by done
      |rewrite (length_norm_vec mats n) by done]; lia.
  - by apply foldl_raise.
Qed.

Lemma accumulate_outcome G mats causal_genes (alpha alpha_norm : F) :
  powers_ok (length (nodes G)) mats →
  accumulate G mats causal_genes alpha alpha_norm
  = bind (check_weights alpha alpha_norm (seq 1 (length mats - 1)))
      (λ _, accumulate G mats causal_genes alpha alpha_norm).
Proof.
  intros Hok.
  destruct (check_weights alpha alpha_norm (seq 1 (length mats - 1)))
    as [[]|e] eqn:Hw; cbn [bind]; [done|].
  unfold accumulate. rewrite causal_indicator_eq, length_indicator.
  rewrite (scores_loop_outcome mats _ (length (nodes G)));
    [by rewrite Hw|done|apply distances_in_range|apply length_indicator
    |apply length_replicate..].
Qed.

(** X9. The scorer run on the list the builder returned for the same
    interactome: the distances are 1 .. max(1, d_max); the run raises the
    first exception of [alpha ** d], [alpha / alpha_norm] and
    [(alpha / alpha_norm) ** d] over these distances, in this order, and
    nothing else; otherwise it returns, for each node in order, the
    quotient of the node's two sums. *)
Theorem X9_scores_of_built_matrices (G : Graph) (d_max : Z) (mats : list pyobj)
    (causal_genes : gmap string Z) (alpha alpha_norm : F) :
  NoDup (nodes G) → get_adjacency_matrices G d_max = Ok mats →
  calculate_scores G mats causal_genes alpha alpha_norm
  = bind (check_weights alpha alpha_norm (seq 1 (Z.to_nat (Z.max 1 d_max))))
      (λ _, Ok (zip (nodes G)
                  (node_final G mats causal_genes alpha alpha_norm
                     <$> seq 0 (length (nodes G))))).
Proof.
  intros Hnd Hm.
  pose proof (get_adjacency_matrices_powers_ok G d_max mats Hm) as Hok.
  apply get_adjacency_matrices_inv in Hm as (A0 & _ & Hlen & _).
  replace (Z.to_nat (Z.max 1 d_max)) with (length mats - 1)%nat by lia.
  destruct (check_weights alpha alpha_norm (seq 1 (length mats - 1)))
    as [[]|e] eqn:Hw; cbn [bind].
  - apply check_weights_ok in Hw. by apply calculate_scores_closed.
  - rewrite calculate_scores_eq, accumulate_outcome, Hw by done. done.
Qed.

End pipeline.

Lemma b64_weights_raise (alpha alpha_norm : spec_float) (d : nat) (e : exn) :
  weights alpha alpha_norm d = Raise e →
  (e = ZeroDivisionError ∧ B64.is_zero alpha_norm = true) ∨ e = OverflowError.
Proof.
  unfold weights. simpl. unfold B64.pow, B64.truediv.
  destruct (B64.is_finite alpha && B64.is_inf (B64.pow_iter alpha d));
    cbn [bind]; [intros [= <-]; by right|].
  destruct (B64.is_zero alpha_norm); cbn [bind]; [intros [= <-]; by left|].
  destruct (B64.is_finite _ && B64.is_inf _); cbn [bind]; [|done].
  intros [= <-]. by right.
Qed.

Lemma b64_check_weights_raise (alpha alpha_norm : spec_float) (ds : list nat) (e : exn) :
  check_weights alpha alpha_norm ds = Raise e →
  (e = ZeroDivisionError ∧ B64.is_zero alpha_norm = true) ∨ e = OverflowError.
Proof.
  induction ds as [|d ds IH]; [done|]. rewrite check_weights_cons.
  destruct (weights alpha alpha_norm d) as [w|e'] eqn:Hw; cbn [bind]; [done|].
  intros [= ->]. by eapply b64_weights_raise.
Qed.

Lemma b64_weights_zero_norm (alpha alpha_norm : spec_float) (d : nat) :
  B64.is_zero alpha_norm = true → is_ok (weights alpha alpha_norm d) = false.
Proof.
  intros Hz. unfold weights. simpl. unfold B64.truediv. rewrite Hz.
  by destruct (B64.pow alpha d).
Qed.

(** X10. On the list the builder returned, binary64 scoring can only fail
    with [ZeroDivisionError], which means that [alpha_norm] is a zero, or
    with [OverflowError] from a power; and with [alpha_norm] a zero it
    always fails. *)
Theorem X10_scoring_exceptions (G : Graph) (d_max : Z) (mats : list pyobj)
    (causal_genes : gmap string Z) (alpha alpha_norm : spec_float) :
  get_adjacency_matrices G d_max = Ok mats →
  (∀ e, calculate_scores G mats causal_genes alpha alpha_norm = Raise e →
     (e = ZeroDivisionError ∧ B64.is_zero alpha_norm = true) ∨ e = OverflowError) ∧
  (B64.is_zero alpha_norm = true →
     is_ok (calculate_scores G mats causal_genes alpha alpha_norm) = false).
Proof.
  intros Hm.
  pose proof (get_adjacency_matrices_powers_ok G d_max mats Hm) as Hok.
  apply get_adjacency_matrices_inv in Hm as (A0 & _ & Hlen & _).
  rewrite calculate_scores_eq, accumulate_outcome by done. split.
  - intros e.
    destruct (check_weights alpha alpha_norm (seq 1 (length mats - 1)))
      as [[]|e'] eqn:Hw; cbn [bind].
    + apply check_weights_ok in Hw.
      by rewrite (accumulate_closed G mats causal_genes alpha alpha_norm Hok Hw).
    + intros [= ->]. by eapply b64_check_weights_raise.
  - intros Hz. replace (length mats - 1)%nat with (S (Z.to_nat (d_max - 1))) by lia.
    cbn [seq]. rewrite check_weights_cons.
    pose proof (b64_weights_zero_norm alpha alpha_norm 1 Hz) as Hw.
    by destruct (weights alpha alpha_norm 1).
Qed.

Lemma X10_witness :
  get_adjacency_matrices Samples.path3 2 = Ok (Samples.powers_of Samples.path3 2) ∧
  calculate_scores Samples.path3 (Samples.powers_of Samples.path3 2)
    (Samples.causal_of ["A"]) B64.half B64.zero = Raise ZeroDivisionError ∧
  (∀ e, calculate_scores Samples.path3 (Samples.powers_of Samples.path3 2)
          (Samples.causal_of ["A"]) B64.half B64.zero = Raise e →
     (e = ZeroDivisionError ∧ B64.is_zero B64.zero = true) ∨ e = OverflowError) ∧
  (B64.is_zero B64.zero = true →
     is_ok (calculate_scores Samples.path3 (Samples.powers_of Samples.path3 2)
              (Samples.causal_of ["A"]) B64.half B64.zero) = false).
Proof.
  split; [reflexivity|]. split; [reflexivity|].
  apply (X10_scoring_exceptions Samples.path3 2); reflexivity.
Defined.

Lemma X9_witness :
  NoDup (nodes Samples.path3) ∧
  get_adjacency_matrices Samples.path3 0 = Ok (Samples.powers_of Samples.path3 0) ∧
  calculate_scores Samples.path3 (Samples.powers_of Samples.path3 0)
    (Samples.causal_of ["A"]) B64.half B64.one
  = bind (check_weights B64.half B64.one (seq 1 (Z.to_nat (Z.max 1 0))))
      (λ _, Ok (zip (nodes Samples.path3)
                  (node_final Samples.path3 (Samples.powers_of Samples.path3 0)
                     (Samples.causal_of ["A"]) B64.half B64.one
                     <$> seq 0 (length (nodes Samples.path3))))).
Proof.
  split; [apply path3_nodup|]. split; [reflexivity|].
  apply (X9_scores_of_built_matrices Samples.path3 0); [apply path3_nodup|reflexivity].
Defined.

(** ** Isolated nodes *)

Lemma fold_all_false {T A} (f : A → T → A) (row : list bool) (v : list T) (acc : A) :
  (∀ k, row !! k ≠ Some true) →
  foldl (λ acc ax, if ax.1 : bool then f acc ax.2 else acc) acc (zip row v) = acc.
Proof.
  revert v. induction row as [|b row IH]; intros v Hrow; [done|].
  destruct v as [|x v]; [done|]. cbn [zip_with foldl fst snd].
  destruct b; [by destruct (Hrow 0%nat)|].
  apply IH. intros k. apply (Hrow (S k)).
Qed.

Lemma open_walk_first_edge (G : Graph) (s v : string) (d : nat) :
  open_walk G s d v → ∃ w, w ∈ nodes G ∧ w ≠ s ∧ has_edge G s w = true.
Proof. induction 1 as [v Hs Hv Hne He|]; [by exists v|done]. Qed.

Lemma isolated_row (G : Graph) (d_max : Z) (mats : list pyobj) (i d : nat) (u : string) :
  NoDup (nodes G) → get_adjacency_matrices G d_max = Ok mats →
  nodes G !! i = Some u → isolated G u → (1 ≤ d < length mats)%nat →
  ∀ k, row_at mats d i !! k ≠ Some true.
Proof.
  intros Hnd Hm Hi Hiso Hd k Hk.
  apply get_adjacency_matrices_inv in Hm as (A0 & HA0 & Hlen & Hat).
  apply to_scipy_sparse_array_inv in HA0 as [Hne ->].
  unfold row_at, matrix_at in Hk. rewrite (Hat d Hd) in Hk.
  set (A := zero_nonzero_diagonal ((λ u, has_edge G u <$> nodes G) <$> nodes G)) in *.
  destruct (adj_power A d !! i) as [row|] eqn:Hrow; simpl in Hk; [|done].
  pose proof (entry_row_true _ _ _ _ Hrow Hk) as He.
  assert (Hn : (0 < length (nodes G))%nat) by (apply lookup_lt_Some in Hi; lia).
  assert (HA : shape A (length (nodes G)) (length (nodes G))).
  { unfold A. rewrite zero_nonzero_diagonal_setdiag0.
    apply shape_setdiag0, shape_adjacency. }
  destruct (entry_true_lt _ _ _ _ _ (shape_adj_power A _ d Hn HA) He) as [_ Hkn].
  destruct (lookup_lt_is_Some_2 (nodes G) k Hkn) as [v Hv].
  apply (adj_power_open_walk G d i k u v Hnd Hi Hv ltac:(lia)) in He.
  apply open_walk_first_edge in He as (w & Hw & Hws & Hedge).
  unfold isolated in Hiso. rewrite Forall_forall in Hiso.
  destruct (Hiso w Hw) as [?|Hf]; [done|congruence].
Qed.

Lemma zero_or_nan_mul_zero (x : spec_float) : zero_or_nan (B64.mul x B64.zero) = true.
Proof. by destruct x as [[]|[]| |[] ? ?]. Qed.

Lemma zero_or_nan_add (x y : spec_float) :
  zero_or_nan x = true → zero_or_nan y = true → zero_or_nan (B64.add x y) = true.
Proof. by destruct x as [[]|[]| |[] ? ?], y as [[]|[]| |[] ? ?]. Qed.

Lemma zero_or_nan_div (x y : spec_float) :
  zero_or_nan x = true → zero_or_nan y = true → B64.div x y = S754_nan.
Proof. by destruct x as [[]|[]| |[] ? ?], y as [[]|[]| |[] ? ?]. Qed.

Lemma zero_or_nan_fold (term : nat → spec_float) (ds : list nat) (acc : spec_float) :
  zero_or_nan acc = true → (∀ d, d ∈ ds → zero_or_nan (term d) = true) →
  zero_or_nan (foldl (λ acc d, B64.add acc (term d)) acc ds) = true.
Proof.
  revert acc. induction ds as [|d ds IH]; intros acc Hacc Hds; [done|].
  cbn [foldl]. apply IH.
  - apply zero_or_nan_add; [done|]. apply Hds, list_elem_of_here.
  - intros d' Hd'. by apply Hds, list_elem_of_further.
Qed.

(** X11. A node without neighbours never gets a number: whenever binary64
    scoring on the builder's list returns, such a node's score is NaN,
    whatever the causal genes and the two factors are. *)
Theorem X11_isolated_node_scores_nan (G : Graph) (d_max : Z) (mats : list pyobj)
    (causal_genes : gmap string Z) (alpha alpha_norm : spec_float)
    (scores : list (string * spec_float)) (i : nat) (u : string) :
  NoDup (nodes G) → get_adjacency_matrices G d_max = Ok mats →
  nodes G !! i = Some u → isolated G u →
  calculate_scores G mats causal_genes alpha alpha_norm = Ok scores →
  scores !! i = Some (u, S754_nan).
Proof.
  intros Hnd Hm Hi Hiso Hs.
  pose proof (get_adjacency_matrices_powers_ok G d_max mats Hm) as Hok.
  destruct (calculate_scores_inv _ _ _ _ _ _ Hs) as (s & nv & Hacc).
  pose proof (accumulate_weights _ _ _ _ _ _ Hok Hacc) as Hw.
  rewrite calculate_scores_closed in Hs by done. injection Hs as <-.
  rewrite (zip_lookup_nodes G _ i u Hi). do 2 f_equal.
  unfold node_final. apply zero_or_nan_div.
  - unfold node_score. apply (zero_or_nan_fold (λ d, score_at mats _ alpha d i)); [done|].
    intros d Hd. apply elem_of_seq in Hd. unfold score_at.
    replace (row_dot_u8 (row_at mats d i) (indicator G causal_genes)) with 0.
    + apply zero_or_nan_mul_zero.
    + symmetry. apply (fold_all_false add_u8).
      apply (isolated_row G d_max mats i d u); first [done|lia].
  - unfold node_norm.
    apply (zero_or_nan_fold (λ d, norm_at mats _ alpha alpha_norm d i)); [done|].
    intros d Hd. apply elem_of_seq in Hd. unfold norm_at.
    replace (row_dot_f64 (row_at mats d i) (replicate (length (nodes G)) f_one))
      with B64.zero.
    + apply zero_or_nan_mul_zero.
    + symmetry.
      apply (fold_all_false (λ acc x, f_add acc (f_mul f_one x))).
      apply (isolated_row G d_max mats i d u); first [done|lia].
Qed.

Lemma isolated_C : isolated Samples.edge_and_isolated "C".
Proof. by apply (bool_decide_unpack _). Qed.

Lemma X11_witness :
  NoDup (nodes Samples.edge_and_isolated) ∧
  get_adjacency_matrices Samples.edge_and_isolated 2
  = Ok (Samples.powers_of Samples.edge_and_isolated 2) ∧
  nodes Samples.edge_and_isolated !! 2%nat = Some "C" ∧
  isolated Samples.edge_and_isolated "C" ∧
  calculate_scores Samples.edge_and_isolated
    (Samples.powers_of Samples.edge_and_isolated 2)
    (Samples.causal_of ["A"]) B64.half B64.one
  = Ok [("A", B64.zero); ("B", B64.one); ("C", S754_nan)] ∧
  [("A", B64.zero); ("B", B64.one); ("C", S754_nan)] !! 2%nat
  = Some ("C", S754_nan).
Proof.
  split; [apply edge_and_isolated_nodup|]. split; [reflexivity|].
  split; [reflexivity|]. split; [apply isolated_C|]. split; [reflexivity|].
  apply (X11_isolated_node_scores_nan Samples.edge_and_isolated 2
           (Samples.powers_of Samples.edge_and_isolated 2)
           (Samples.causal_of ["A"]) B64.half B64.one _ 2 "C");
    [apply edge_and_isolated_nodup|reflexivity|reflexivity|apply isolated_C
    |reflexivity].
Defined.

(** ** Further properties of the diagnostic mode *)

Section diagnostic_extras.
Context {F : Type} `{PyFloat F}.

Lemma contributions_turn_int_raises mats c ones (alpha alpha_norm : F) s nv d e :
  py_int alpha_norm = Raise e →
  is_ok (contributions_turn mats c ones alpha alpha_norm s nv d) = false.
Proof.
  intros Hz. unfold contributions_turn. rewrite Hz.
  destruct (getitem mats d) as [A|?]; cbn [bind]; [|done].
  destruct (score_term alpha d A c) as [t|?]; cbn [bind]; [|done].
  destruct (np_iadd s t) as [s'|?]; cbn [bind]; [|done].
  destruct (norm_term alpha alpha_norm d A ones) as [u|?]; cbn [bind]; [|done].
  by destruct (np_iadd nv u).
Qed.

Lemma contributions_step_int_raises mats c ones (alpha : F) d_max alpha_norm patho
    files s nv d e :
  py_int alpha_norm = Raise e →
  ∃ e', contributions_step mats c ones alpha d_max alpha_norm patho
          (files, Ok (s, nv)) d
        = (files, Raise e').
Proof.
  intros Hz. unfold contributions_step. cbn [fst snd].
  pose proof (contributions_turn_int_raises mats c ones alpha alpha_norm s nv d e Hz)
    as Hturn.
  destruct (contributions_turn _ _ _ _ _ _ _ _) as [x|e']; [done|]. by exists e'.
Qed.

Lemma contributions_loop_int_raises mats c ones (alpha : F) d_max alpha_norm patho
    s nv (ds : list nat) e :
  py_int alpha_norm = Raise e →
  (foldl (contributions_step mats c ones alpha d_max alpha_norm patho)
         ([], Ok (s, nv)) ds).1 = [] ∧
  (ds ≠ [] →
   is_ok (foldl (contributions_step mats c ones alpha d_max alpha_norm patho)
                ([], Ok (s, nv)) ds).2 = false).
Proof.
  intros Hz. destruct ds as [|d ds]; [done|]. cbn [foldl].
  destruct (contributions_step_int_raises mats c ones alpha d_max alpha_norm patho
              [] s nv d e Hz) as [e' ->].
  by rewrite contributions_loop_raise.
Qed.

(** X12. When [int(alpha_norm)] raises, the diagnostic mode writes no file
    at all, and it fails as soon as there is one distance to process. *)
Theorem X12_no_file_without_int_alpha_norm (G : Graph) (mats : list pyobj)
    (causal_genes : gmap string Z) (alpha : F) (d_max : Z) (alpha_norm : F)
    (patho : string) (e : exn) :
  py_int alpha_norm = Raise e →
  (calculate_contributions G mats causal_genes alpha d_max alpha_norm patho).1 = [] ∧
  ((2 ≤ length mats)%nat →
   is_ok (calculate_contributions G mats causal_genes alpha d_max alpha_norm patho).2
   = false).
Proof.
  intros Hz. unfold calculate_contributions.
  destruct (contributions_loop_int_raises mats (causal_indicator G causal_genes)
              (replicate (length (causal_indicator G causal_genes)) f_one)
              alpha d_max alpha_norm patho
              (replicate (length (causal_indicator G causal_genes)) f_zero)
              (replicate (length (causal_indicator G causal_genes)) f_zero)
              (seq 1 (length mats - 1)) e Hz) as [Hfiles Hfail].
  split; [done|]. intros Hlen. apply Hfail. intros Hnil.
  apply (f_equal length) in Hnil. rewrite length_seq in Hnil. simpl in Hnil. lia.
Qed.

Lemma contribution_files_cons mats c n (alpha : F) d_max alpha_norm patho z d ds :
  contribution_files mats c n alpha d_max alpha_norm patho z (d :: ds)
  = files_at mats c n alpha d_max alpha_norm patho z d
    ++ contribution_files mats c n alpha d_max alpha_norm patho z ds.
Proof. done. Qed.

(** The loop of the diagnostic mode on a well-shaped power sequence, for
    every outcome: the files of the distances processed before the first
    failing scalar operation. *)
Lemma contributions_loop_prefix mats c n (alpha : F) d_max alpha_norm patho z
    (ds : list nat) files s nv :
  powers_ok n mats → Forall (λ d, (1 ≤ d < length mats)%nat) ds →
  length c = n → length s = n → length nv = n →
  py_int alpha_norm = Ok z →
  ∃ ds1 ds2,
    ds = ds1 ++ ds2 ∧
    weights_ok alpha alpha_norm ds1 = true ∧
    (foldl (contributions_step mats c (replicate n f_one) alpha d_max alpha_norm patho)
           (files, Ok (s, nv)) ds).1
    = files ++ contribution_files mats c n alpha d_max alpha_norm patho z ds1 ∧
    match (foldl (contributions_step mats c (replicate n f_one) alpha d_max
                    alpha_norm patho) (files, Ok (s, nv)) ds).2 with
    | Ok _ => ds2 = []
    | Raise e => ∃ d ds3, ds2 = d :: ds3 ∧ weights alpha alpha_norm d = Raise e
    end.
Proof.
  intros Hok Hds Hc. revert files s nv.
  induction Hds as [|d ds Hd Hds IH]; intros files s nv Hs Hnv Hz.
  - exists [], []. repeat split. simpl. by rewrite app_nil_r.
  - cbn [foldl]. unfold contributions_step at 2 4. cbn [snd fst].
    rewrite contributions_turn_shaped by done.
    destruct (weights alpha alpha_norm d) as [w|e] eqn:Hw; cbn [bind].
    + rewrite Hz. cbn [bind].
      destruct (IH (files ++ files_at mats c n alpha d_max alpha_norm patho z d)
                  (zip_with f_add s (score_vec mats c alpha d))
                  (zip_with f_add nv (norm_vec mats n alpha alpha_norm d)))
        as (ds1 & ds2 & -> & Hw1 & Hfiles & Hout).
      * rewrite length_zip_with, (length_score_vec _ _ n), Hs by done. lia.
      * rewrite length_zip_with, (length_norm_vec _ n), Hnv by done. lia.
      * done.
      * exists (d :: ds1), ds2. split; [done|]. split.
        { cbn [weights_ok forallb]. rewrite Hw. exact Hw1. }
        split; [|exact Hout].
        unfold files_at in Hfiles. rewrite Hfiles, contribution_files_cons.
        by rewrite <- app_assoc.
    + rewrite contributions_loop_raise. cbn [fst snd].
      exists [], (d :: ds). repeat split.
      * by rewrite app_nil_r.
      * by exists d, ds.
Qed.

Lemma seq_app_prefix (a m : nat) (l1 l2 : list nat) :
  seq a m = l1 ++ l2 → l1 = seq a (length l1) ∧ (length l1 ≤ m)%nat.
Proof.
  revert a m. induction l1 as [|x l1 IH]; intros a m Hl; [split; [done|simpl; lia]|].
  destruct m as [|m]; [done|]. simpl in Hl. injection Hl as <- Hl.
  destruct (IH _ _ Hl) as [Heq Hle]. split; [|simpl; lia].
  simpl. by rewrite <- Heq.
Qed.

(** X13. What a diagnostic run leaves behind.  On a well-shaped power
    sequence and with [int(alpha_norm)] defined, the files written are
    those of the distances 1 .. k, complete and in order, for some k: all
    the distances when the run ends, and otherwise the distances before
    the one whose scalar operations raised the exception of the run. *)
Theorem X13_files_of_a_run_are_a_prefix (G : Graph) (mats : list pyobj)
    (causal_genes : gmap string Z) (alpha : F) (d_max : Z) (alpha_norm : F)
    (patho : string) (z : Z) :
  powers_ok (length (nodes G)) mats → py_int alpha_norm = Ok z →
  ∃ k : nat,
    (k ≤ length mats - 1)%nat ∧
    weights_ok alpha alpha_norm (seq 1 k) = true ∧
    (calculate_contributions G mats causal_genes alpha d_max alpha_norm patho).1
    = contribution_files mats (indicator G causal_genes) (length (nodes G))
        alpha d_max alpha_norm patho z (seq 1 k) ∧
    match (calculate_contributions G mats causal_genes alpha d_max alpha_norm
             patho).2 with
    | Ok _ => k = (length mats - 1)%nat
    | Raise e => (k < length mats - 1)%nat ∧ weights alpha alpha_norm (S k) = Raise e
    end.
Proof.
  intros Hok Hz. unfold calculate_contributions.
  rewrite causal_indicator_eq, length_indicator.
  destruct (contributions_loop_prefix mats (indicator G causal_genes)
              (length (nodes G)) alpha d_max alpha_norm patho z
              (seq 1 (length mats - 1)) []
              (replicate (length (nodes G)) f_zero)
              (replicate (length (nodes G)) f_zero)
              Hok (distances_in_range mats) (length_indicator G causal_genes)
              (length_replicate _ _) (length_replicate _ _) Hz)
    as (ds1 & ds2 & Hsplit & Hw & Hfiles & Hout).
  destruct (seq_app_prefix _ _ _ _ Hsplit) as [Hds1 Hle].
  exists (length ds1). split; [done|]. rewrite <- Hds1.
  split; [done|]. split; [done|].
  destruct (foldl _ _ _).2 as [acc|e].
  - subst ds2. rewrite app_nil_r in Hsplit.
    apply (f_equal length) in Hsplit. by rewrite length_seq in Hsplit.
  - destruct Hout as (d & ds3 & -> & Hd).
    pose proof (f_equal length Hsplit) as Hlen.
    rewrite length_seq, length_app in Hlen. simpl in Hlen. split; [lia|].
    assert (Hat : seq 1 (length mats - 1) !! length ds1 = Some d)
      by (rewrite Hsplit; apply list_lookup_middle; done).
    apply lookup_seq in Hat as [-> _]. done.
Qed.

Lemma names_of_contribution_files mats c n (alpha : F) d_max alpha_norm patho z
    (ds : list nat) :
  npz_name <$> contribution_files mats c n alpha d_max alpha_norm patho z ds
  = ds ≫= λ d, [(ScoresFile, patho, d, alpha, d_max, z);
                 (NormFactorsFile, patho, d, alpha, d_max, z)].
Proof.
  induction ds as [|d ds IH]; [done|].
  rewrite contribution_files_cons, fmap_app, IH. done.
Qed.

(** X14. The names of the files hold [alpha_norm] through
    [int(alpha_norm)] only: two complete runs that differ in [alpha_norm]
    but not in its integer part write files of the same names. *)
Theorem X14_names_hold_the_integer_part (G : Graph) (mats : list pyobj)
    (causal_genes : gmap string Z) (alpha : F) (d_max : Z)
    (alpha_norm1 alpha_norm2 : F) (patho : string)
    (files1 files2 : list npz) (acc1 acc2 : list F * list F) :
  powers_ok (length (nodes G)) mats →
  py_int alpha_norm1 = py_int alpha_norm2 →
  calculate_contributions G mats causal_genes alpha d_max alpha_norm1 patho
  = (files1, Ok acc1) →
  calculate_contributions G mats causal_genes alpha d_max alpha_norm2 patho
  = (files2, Ok acc2) →
  npz_name <$> files1 = npz_name <$> files2.
Proof.
  intros Hok Hint. unfold calculate_contributions.
  rewrite causal_indicator_eq, length_indicator. intros H1 H2.
  pose proof (distances_in_range mats) as Hds.
  pose proof (length_indicator G causal_genes) as Hc.
  destruct (contributions_loop_inv _ _ _ _ _ _ _ _ _ _ _ _ _ Hok Hds Hc
              (length_replicate _ _) (length_replicate _ _) H1) as [Hw1 Hz1].
  destruct (contributions_loop_inv _ _ _ _ _ _ _ _ _ _ _ _ _ Hok Hds Hc
              (length_replicate _ _) (length_replicate _ _) H2) as [Hw2 Hz2].
  destruct Hz1 as [Hnil|[z Hz1]].
  - rewrite Hnil in H1, H2. simpl in H1, H2. by injection H1 as <- _; injection H2 as <- _.
  - assert (Hz2' : py_int alpha_norm2 = Ok z) by (by rewrite <- Hint).
    rewrite (contributions_loop_shaped _ _ _ _ _ _ _ z _ _ _ _ Hok Hds Hc
               (length_replicate _ _) (length_replicate _ _) Hw1 Hz1) in H1.
    rewrite (contributions_loop_shaped _ _ _ _ _ _ _ z _ _ _ _ Hok Hds Hc
               (length_replicate _ _) (length_replicate _ _) Hw2 Hz2') in H2.
    injection H1 as <- _. injection H2 as <- _. simpl app.
    by rewrite !names_of_contribution_files.
Qed.

Lemma names_nodup (patho : string) (alpha : F) (d_max z : Z) (ds : list nat) :
  NoDup ds →
  NoDup (ds ≫= λ d, [(ScoresFile, patho, d, alpha, d_max, z);
                      (NormFactorsFile, patho, d, alpha, d_max, z)]).
Proof.
  induction 1 as [|d ds Hd Hnd IH]; [apply NoDup_nil_2|].
  cbn [mbind list_bind app]. 
  assert (Hfresh : ∀ kind, (kind, patho, d, alpha, d_max, z)
            ∉ ds ≫= λ d, [(ScoresFile, patho, d, alpha, d_max, z);
                           (NormFactorsFile, patho, d, alpha, d_max, z)]).
  { intros kind Hin. apply list_elem_of_bind in Hin as (d' & Hin & Hd').
    apply Hd. rewrite !elem_of_cons in Hin.
    destruct Hin as [Hin|[Hin|Hin]]; [| |by apply elem_of_nil in Hin];
      by injection Hin as _ ->. }
  apply NoDup_cons. split.
  - rewrite elem_of_cons. intros [Heq|Hin]; [done|]. by apply (Hfresh ScoresFile).
  - apply NoDup_cons. split; [apply Hfresh|exact IH].
Qed.

(** X15. Within one run no file is written twice: on a well-shaped power
    sequence the names of the files written are pairwise distinct, however
    the run ends. *)
Theorem X15_no_file_written_twice (G : Graph) (mats : list pyobj)
    (causal_genes : gmap string Z) (alpha : F) (d_max : Z) (alpha_norm : F)
    (patho : string) :
  powers_ok (length (nodes G)) mats →
  NoDup (npz_name
           <$> (calculate_contributions G mats causal_genes alpha d_max alpha_norm
                  patho).1).
Proof.
  intros Hok. destruct (py_int alpha_norm) as [z|e] eqn:Hz.
  - unfold calculate_contributions. rewrite causal_indicator_eq, length_indicator.
    destruct (contributions_loop_prefix mats (indicator G causal_genes)
                (length (nodes G)) alpha d_max alpha_norm patho z
                (seq 1 (length mats - 1)) []
                (replicate (length (nodes G)) f_zero)
                (replicate (length (nodes G)) f_zero)
                Hok (distances_in_range mats) (length_indicator G causal_genes)
                (length_replicate _ _) (length_replicate _ _) Hz)
      as (ds1 & ds2 & Hsplit & _ & -> & _).
    simpl app. rewrite names_of_contribution_files. apply names_nodup.
    pose proof (NoDup_seq 1 (length mats - 1)) as Hnd. rewrite Hsplit in Hnd.
    by apply NoDup_app in Hnd as [? _].
  - unfold calculate_contributions.
    destruct (contributions_loop_int_raises mats (causal_indicator G causal_genes)
                (replicate (length (causal_indicator G causal_genes)) f_one)
                alpha d_max alpha_norm patho
                (replicate (length (causal_indicator G causal_genes)) f_zero)
                (replicate (length (causal_indicator G causal_genes)) f_zero)
                (seq 1 (length mats - 1)) e Hz) as [-> _].
    apply NoDup_nil_2.
Qed.

End diagnostic_extras.

Section diagnostic_pipeline.
Context {F : Type} `{PyFloat F}.

Lemma length_contribution_files mats c n (alpha : F) d_max alpha_norm patho z
    (ds : list nat) :
  length (contribution_files mats c n alpha d_max alpha_norm patho z ds)
  = (2 * length ds)%nat.
Proof.
  induction ds as [|d ds IH]; [done|].
  rewrite contribution_files_cons, length_app, IH. simpl. lia.
Qed.

Lemma tags_of_contribution_files mats c n (alpha : F) d_max alpha_norm patho z
    (ds : list nat) :
  Forall (λ f, npz_patho f = patho ∧ npz_alpha f = alpha ∧
               npz_dmax f = d_max ∧ npz_alphanorm f = z)
         (contribution_files mats c n alpha d_max alpha_norm patho z ds).
Proof.
  induction ds as [|d ds IH]; [apply Forall_nil_2|].
  rewrite contribution_files_cons. apply Forall_app. split; [|exact IH].
  by repeat apply Forall_cons_2.
Qed.

(** X16. The diagnostic mode run on the list the builder returned for the
    same [d_max], as its [main] does: when no scalar operation raises
    over the distances 1 .. max(1, d_max) and [int(alpha_norm)] is
    defined, the run ends, having written two files for each of these
    distances, every one tagged with [patho], [alpha], the [d_max] asked
    for and [int(alpha_norm)]. *)
Theorem X16_files_of_built_matrices (G : Graph) (d_max : Z) (mats : list pyobj)
    (causal_genes : gmap string Z) (alpha alpha_norm : F) (patho : string) (z : Z) :
  get_adjacency_matrices G d_max = Ok mats →
  weights_ok alpha alpha_norm (seq 1 (Z.to_nat (Z.max 1 d_max))) = true →
  py_int alpha_norm = Ok z →
  ∃ files acc,
    calculate_contributions G mats causal_genes alpha d_max alpha_norm patho
    = (files, Ok acc) ∧
    length files = (2 * Z.to_nat (Z.max 1 d_max))%nat ∧
    saved_distances ScoresFile files = seq 1 (Z.to_nat (Z.max 1 d_max)) ∧
    saved_distances NormFactorsFile files = seq 1 (Z.to_nat (Z.max 1 d_max)) ∧
    Forall (λ f, npz_patho f = patho ∧ npz_alpha f = alpha ∧
                 npz_dmax f = d_max ∧ npz_alphanorm f = z) files.
Proof.
  intros Hm Hw Hz.
  pose proof (get_adjacency_matrices_powers_ok G d_max mats Hm) as Hok.
  apply get_adjacency_matrices_inv in Hm as (A0 & _ & Hlen & _).
  replace (Z.to_nat (Z.max 1 d_max)) with (length mats - 1)%nat in * by lia.
  unfold calculate_contributions. rewrite causal_indicator_eq, length_indicator.
  rewrite (contributions_loop_shaped _ _ _ _ _ _ _ z _ _ _ _ Hok
             (distances_in_range mats) (length_indicator G causal_genes)
             (length_replicate _ _) (length_replicate _ _) Hw Hz).
  do 2 eexists. split; [done|]. simpl app.
  rewrite length_contribution_files, length_seq, !saved_distances_files.
  repeat split. apply tags_of_contribution_files.
Qed.

End diagnostic_pipeline.

Lemma X12_witness :
  py_int (S754_infinity false) = Raise OverflowError ∧
  (calculate_contributions Samples.path3 (Samples.powers_of Samples.path3 2)
     (Samples.causal_of ["A"]) B64.half 2 (S754_infinity false) "MMAF").1 = [] ∧
  ((2 ≤ length (Samples.powers_of Samples.path3 2))%nat →
   is_ok (calculate_contributions Samples.path3 (Samples.powers_of Samples.path3 2)
            (Samples.causal_of ["A"]) B64.half 2 (S754_infinity false) "MMAF").2
   = false).
Proof.
  split; [reflexivity|].
  apply (X12_no_file_without_int_alpha_norm Samples.path3
           (Samples.powers_of Samples.path3 2) (Samples.causal_of ["A"])
           B64.half 2 (S754_infinity false) "MMAF" OverflowError).
  reflexivity.
Defined.

(** With [alpha_norm] infinite the scoring mode returns, although the
    diagnostic mode fails on the same inputs. *)
Example scoring_returns_where_diagnostic_fails :
  calculate_scores Samples.path3 (Samples.powers_of Samples.path3 2)
    (Samples.causal_of ["A"]) B64.half (S754_infinity false)
  = Ok [("A", S754_nan); ("B", S754_infinity false); ("C", S754_infinity false)] ∧
  calculate_contributions Samples.path3 (Samples.powers_of Samples.path3 2)
    (Samples.causal_of ["A"]) B64.half 2 (S754_infinity false) "MMAF"
  = ([], Raise OverflowError).
Proof. split; reflexivity. Qed.

(** [alpha = 2^512]: its square overflows, so the run stops at distance 2
    and leaves the two files of distance 1. *)
Lemma X13_witness :
  powers_ok (length (nodes Samples.path3)) (Samples.powers_of Samples.path3 3) ∧
  py_int B64.one = Ok 1 ∧
  (calculate_contributions Samples.path3 (Samples.powers_of Samples.path3 3)
     (Samples.causal_of ["A"]) (S754_finite false 4503599627370496 460) 3
     B64.one "MMAF").2 = Raise OverflowError ∧
  ∃ k : nat,
    (k ≤ length (Samples.powers_of Samples.path3 3) - 1)%nat ∧
    weights_ok (S754_finite false 4503599627370496 460) B64.one (seq 1 k) = true ∧
    (calculate_contributions Samples.path3 (Samples.powers_of Samples.path3 3)
       (Samples.causal_of ["A"]) (S754_finite false 4503599627370496 460) 3
       B64.one "MMAF").1
    = contribution_files (Samples.powers_of Samples.path3 3)
        (indicator Samples.path3 (Samples.causal_of ["A"]))
        (length (nodes Samples.path3))
        (S754_finite false 4503599627370496 460) 3 B64.one "MMAF" 1 (seq 1 k) ∧
    match (calculate_contributions Samples.path3 (Samples.powers_of Samples.path3 3)
             (Samples.causal_of ["A"]) (S754_finite false 4503599627370496 460) 3
             B64.one "MMAF").2 with
    | Ok _ => k = (length (Samples.powers_of Samples.path3 3) - 1)%nat
    | Raise e =>
        (k < length (Samples.powers_of Samples.path3 3) - 1)%nat ∧
        weights (S754_finite false 4503599627370496 460) B64.one (S k) = Raise e
    end.
Proof.
  split; [by apply powers_of_ok|]. split; [reflexivity|]. split; [reflexivity|].
  apply (X13_files_of_a_run_are_a_prefix Samples.path3
           (Samples.powers_of Samples.path3 3) (Samples.causal_of ["A"])
           (S754_finite false 4503599627370496 460) 3 B64.one "MMAF" 1);
    [by apply powers_of_ok|reflexivity].
Defined.

(** [alpha_norm = 1.0] and [alpha_norm = 1.5] give files of the same
    names, and different normalization arrays. *)
Lemma X14_witness :
  powers_ok (length (nodes Samples.path3)) (Samples.powers_of Samples.path3 1) ∧
  py_int B64.one = py_int (S754_finite false 6755399441055744 (-52)) ∧
  ∃ files1 files2 acc1 acc2,
    calculate_contributions Samples.path3 (Samples.powers_of Samples.path3 1)
      (Samples.causal_of ["A"]) B64.half 1 B64.one "MMAF" = (files1, Ok acc1) ∧
    calculate_contributions Samples.path3 (Samples.powers_of Samples.path3 1)
      (Samples.causal_of ["A"]) B64.half 1
      (S754_finite false 6755399441055744 (-52)) "MMAF" = (files2, Ok acc2) ∧
    npz_array <$> files1 ≠ npz_array <$> files2 ∧
    npz_name <$> files1 = npz_name <$> files2.
Proof.
  split; [by apply powers_of_ok|]. split; [reflexivity|].
  exists [ {| npz_kind_of := ScoresFile; npz_patho := "MMAF"; npz_d := 1;
              npz_alpha := B64.half; npz_dmax := 1; npz_alphanorm := 1;
              npz_array := [B64.zero; B64.half; B64.zero] |};
           {| npz_kind_of := NormFactorsFile; npz_patho := "MMAF"; npz_d := 1;
              npz_alpha := B64.half; npz_dmax := 1; npz_alphanorm := 1;
              npz_array := [B64.half; B64.one; B64.half] |} ],
         [ {| npz_kind_of := ScoresFile; npz_patho := "MMAF"; npz_d := 1;
              npz_alpha := B64.half; npz_dmax := 1; npz_alphanorm := 1;
              npz_array := [B64.zero; B64.half; B64.zero] |};
           {| npz_kind_of := NormFactorsFile; npz_patho := "MMAF"; npz_d := 1;
              npz_alpha := B64.half; npz_dmax := 1; npz_alphanorm := 1;
              npz_array := [S754_finite false 6004799503160661 (-54);
                            S754_finite false 6004799503160661 (-53);
                            S754_finite false 6004799503160661 (-54)] |} ],
         ([B64.zero; B64.half; B64.zero], [B64.half; B64.one; B64.half]),
         ([B64.zero; B64.half; B64.zero],
          [S754_finite false 6004799503160661 (-54);
           S754_finite false 6004799503160661 (-53);
           S754_finite false 6004799503160661 (-54)]).
  split; [vm_compute; reflexivity|]. split; [vm_compute; reflexivity|].
  split; [discriminate|].
  eapply (X14_names_hold_the_integer_part Samples.path3
            (Samples.powers_of Samples.path3 1) (Samples.causal_of ["A"])
            B64.half 1 B64.one (S754_finite false 6755399441055744 (-52)) "MMAF");
    [by apply powers_of_ok|reflexivity|vm_compute; reflexivity|vm_compute; reflexivity].
Defined.

Lemma X15_witness :
  powers_ok (length (nodes Samples.path3)) (Samples.powers_of Samples.path3 2) ∧
  NoDup (npz_name
           <$> (calculate_contributions Samples.path3
                  (Samples.powers_of Samples.path3 2) (Samples.causal_of ["A"])
                  B64.half 2 B64.one "MMAF").1).
Proof.
  split; [by apply powers_of_ok|].
  apply (X15_no_file_written_twice Samples.path3 (Samples.powers_of Samples.path3 2)
           (Samples.causal_of ["A"]) B64.half 2 B64.one "MMAF").
  by apply powers_of_ok.
Defined.

(** With [d_max = 0] the builder still returns the matrix of distance 1:
    the two files written are those of distance 1, tagged [dmax0]. *)
Lemma X16_witness :
  get_adjacency_matrices Samples.path3 0 = Ok (Samples.powers_of Samples.path3 0) ∧
  weights_ok B64.half B64.one (seq 1 (Z.to_nat (Z.max 1 0))) = true ∧
  py_int B64.one = Ok 1 ∧
  ∃ files acc,
    calculate_contributions Samples.path3 (Samples.powers_of Samples.path3 0)
      (Samples.causal_of ["A"]) B64.half 0 B64.one "MMAF" = (files, Ok acc) ∧
    length files = (2 * Z.to_nat (Z.max 1 0))%nat ∧
    saved_distances ScoresFile files = seq 1 (Z.to_nat (Z.max 1 0)) ∧
    saved_distances NormFactorsFile files = seq 1 (Z.to_nat (Z.max 1 0)) ∧
    Forall (λ f, npz_patho f = "MMAF" ∧ npz_alpha f = B64.half ∧
                 npz_dmax f = 0 ∧ npz_alphanorm f = 1) files.
Proof.
  split; [reflexivity|]. split; [reflexivity|]. split; [reflexivity|].
  apply (X16_files_of_built_matrices Samples.path3 0
           (Samples.powers_of Samples.path3 0) (Samples.causal_of ["A"])
           B64.half B64.one "MMAF" 1); reflexivity.
Defined.

(** ** The scorer on lists that no builder returned *)

Section scorer_edge_cases.
Context {F : Type} `{PyFloat F}.

Lemma zip_replicate_r {A B} (l : list A) (x : B) :
  zip l (replicate (length l) x) = (λ a, (a, x)) <$> l.
Proof. induction l as [|a l IH]; [done|]. simpl. by rewrite IH. Qed.

Lemma zip_with_replicate {A B C} (f : A → B → C) (n : nat) (x : A) (y : B) :
  zip_with f (replicate n x) (replicate n y) = replicate n (f x y).
Proof. induction n as [|n IH]; [done|]. simpl. by rewrite IH. Qed.

(** X17. With no matrix after index 0 the loop has no turn, and every
    node gets the quotient of two zeros. *)
Theorem X17_no_distance_no_score (G : Graph) (mats : list pyobj)
    (causal_genes : gmap string Z) (alpha alpha_norm : F) :
  NoDup (nodes G) → (length mats ≤ 1)%nat →
  calculate_scores G mats causal_genes alpha alpha_norm
  = Ok ((λ g, (g, f_div f_zero f_zero)) <$> nodes G).
Proof.
  intros Hnd Hlen.
  rewrite (calculate_scores_of_accumulate G mats causal_genes alpha alpha_norm
             (replicate (length (nodes G)) f_zero)
             (replicate (length (nodes G)) f_zero) Hnd).
  - by rewrite zip_with_replicate, zip_replicate_r.
  - unfold accumulate. rewrite causal_indicator_eq, length_indicator.
    by replace (length mats - 1)%nat with 0%nat by lia.
Qed.

Lemma accumulate_first_turn G mats causal_genes (alpha alpha_norm : F) (A : pyobj)
    (e : exn) :
  mats !! 1%nat = Some A →
  scores_step mats (causal_indicator G causal_genes)
    (replicate (length (causal_indicator G causal_genes)) f_one) alpha alpha_norm
    (Ok (replicate (length (causal_indicator G causal_genes)) f_zero,
         replicate (length (causal_indicator G causal_genes)) f_zero)) 1
  = Raise e →
  accumulate G mats causal_genes alpha alpha_norm = Raise e.
Proof.
  intros HA Hstep. unfold accumulate.
  apply lookup_lt_Some in HA.
  replace (length mats - 1)%nat with (S (length mats - 2)) by lia.
  cbn [seq foldl]. rewrite Hstep. by apply foldl_raise.
Qed.

(** X18. A list that does not fit the interactome stops the scorer in
    the first turn of its loop, once [alpha ** 1] is computed: with
    [AttributeError] if the element at index 1 is no array, with
    [ValueError] if it is an array with a row whose length is not the
    number of nodes. *)
Theorem X18_ill_formed_list_is_refused (G : Graph) (mats : list pyobj)
    (causal_genes : gmap string Z) (alpha alpha_norm a : F) :
  py_pow alpha 1 = Ok a →
  (∀ z, mats !! 1%nat = Some (PyInt z) →
     calculate_scores G mats causal_genes alpha alpha_norm = Raise AttributeError) ∧
  (∀ M row, mats !! 1%nat = Some (CsrBool M) → row ∈ M →
     length row ≠ length (nodes G) →
     calculate_scores G mats causal_genes alpha alpha_norm = Raise ValueError).
Proof.
  intros Ha. split.
  - intros z Hz. rewrite calculate_scores_eq.
    rewrite (accumulate_first_turn G mats causal_genes alpha alpha_norm
               (PyInt z) AttributeError Hz); [done|].
    unfold scores_step, getitem, score_term. rewrite Hz, Ha. done.
  - intros M row HM Hrow Hlen. rewrite calculate_scores_eq.
    rewrite (accumulate_first_turn G mats causal_genes alpha alpha_norm
               (CsrBool M) ValueError HM); [done|].
    unfold scores_step, getitem, score_term. rewrite HM, Ha.
    cbn [from_option bind dot].
    destruct (forallb _ M) eqn:Hall; [|done].
    rewrite forallb_forall in Hall.
    specialize (Hall row ltac:(by apply list_elem_of_In)).
    apply bool_decide_eq_true in Hall.
    by rewrite causal_indicator_eq, length_indicator in Hall.
Qed.

End scorer_edge_cases.

Lemma X17_witness :
  NoDup (nodes Samples.path3) ∧ (length [PyInt 0] ≤ 1)%nat ∧
  calculate_scores Samples.path3 [PyInt 0] (Samples.causal_of ["A"]) B64.half B64.one
  = Ok ((λ g, (g, f_div f_zero f_zero)) <$> nodes Samples.path3) ∧
  f_div f_zero f_zero = S754_nan.
Proof.
  split; [apply path3_nodup|]. split; [simpl; lia|]. split; [|reflexivity].
  apply (X17_no_distance_no_score Samples.path3 [PyInt 0] (Samples.causal_of ["A"])
           B64.half B64.one); [apply path3_nodup|simpl; lia].
Defined.

(** The matrices of the single edge A - B given with the path A - B - C,
    and the placeholder met at index 1. *)
Lemma X18_witness :
  py_pow B64.half 1 = Ok B64.half ∧
  calculate_scores Samples.path3 (Samples.powers_of Samples.single_edge 2)
    (Samples.causal_of ["A"]) B64.half B64.one = Raise ValueError ∧
  calculate_scores Samples.path3 [PyInt 0; PyInt 0]
    (Samples.causal_of ["A"]) B64.half B64.one = Raise AttributeError.
Proof.
  assert (Hpow : py_pow B64.half 1 = Ok B64.half) by reflexivity.
  split; [exact Hpow|].
  destruct (X18_ill_formed_list_is_refused Samples.path3
              (Samples.powers_of Samples.single_edge 2) (Samples.causal_of ["A"])
              B64.half B64.one B64.half Hpow) as [_ Hvalue].
  destruct (X18_ill_formed_list_is_refused Samples.path3
              [PyInt 0; PyInt 0] (Samples.causal_of ["A"])
              B64.half B64.one B64.half Hpow) as [Hattr _].
  split.
  - apply (Hvalue [[false; true]; [true; false]] [false; true]);
      [reflexivity|apply list_elem_of_here|simpl; lia].
  - by apply (Hattr 0).
Defined.

(** ** The list the builder returns *)

(** X19. The list the builder returns starts with the integer 0 and then
    holds max(1, d_max) arrays, each with as many rows and as many columns
    as the interactome has nodes. *)
Theorem X19_layout_of_the_built_list (G : Graph) (d_max : Z) (mats : list pyobj) :
  get_adjacency_matrices G d_max = Ok mats →
  mats !! 0%nat = Some (PyInt 0) ∧
  length mats = S (Z.to_nat (Z.max 1 d_max)) ∧
  ∀ d, (1 ≤ d ≤ Z.to_nat (Z.max 1 d_max))%nat →
    ∃ M, mats !! d = Some (CsrBool M) ∧
         shape M (length (nodes G)) (length (nodes G)).
Proof.
  intros Hm.
  pose proof (get_adjacency_matrices_powers_ok G d_max mats Hm) as Hok.
  pose proof Hm as Hm'.
  apply get_adjacency_matrices_inv in Hm' as (A0 & _ & Hlen & _).
  split; [|split; [lia|]].
  - rewrite get_adjacency_matrices_eq in Hm.
    destruct (to_scipy_sparse_array G) as [A|e]; cbn [bind] in Hm; [|done].
    by injection Hm as <-.
  - intros d Hd. apply Hok. lia.
Qed.

Lemma X19_witness :
  get_adjacency_matrices Samples.path3 (-2) = Ok (Samples.powers_of Samples.path3 (-2)) ∧
  Samples.powers_of Samples.path3 (-2) !! 0%nat = Some (PyInt 0) ∧
  length (Samples.powers_of Samples.path3 (-2)) = S (Z.to_nat (Z.max 1 (-2))) ∧
  ∀ d, (1 ≤ d ≤ Z.to_nat (Z.max 1 (-2)))%nat →
    ∃ M, Samples.powers_of Samples.path3 (-2) !! d = Some (CsrBool M) ∧
         shape M (length (nodes Samples.path3)) (length (nodes Samples.path3)).
Proof.
  split; [reflexivity|].
  apply (X19_layout_of_the_built_list Samples.path3 (-2)). reflexivity.
Defined.

Lemma adj_power_stays_empty (A : matrix) (n d k : nat) :
  shape A n n → (0 < n)%nat →
  (∀ i j, entry (adj_power A (S d)) i j = false) →
  ∀ i j, entry (adj_power A (S d + k)) i j = false.
Proof.
  intros HA Hn Hd. induction k as [|k IH]; intros i j.
  - rewrite Nat.add_0_r. apply Hd.
  - replace (S d + S k)%nat with (S (S (d + k))) by lia.
    change (adj_power A (S (S (d + k))))
      with (zero_nonzero_diagonal (matmul (adj_power A (S (d + k))) A)).
    rewrite zero_nonzero_diagonal_setdiag0, entry_setdiag0.
    case_decide; [done|].
    destruct (entry (matmul _ A) i j) eqn:He; [|done].
    apply (entry_matmul_true _ A n i j HA Hn) in He as (k' & He & _).
    specialize (IH i k'). cbn [Nat.add] in IH. congruence.
Qed.

(** X20. Once a matrix of the sequence holds no [True] entry, no later
    one does. *)
Theorem X20_empty_matrix_stays_empty (G : Graph) (d_max : Z) (mats : list pyobj)
    (d d' : nat) (M M' : matrix) :
  get_adjacency_matrices G d_max = Ok mats →
  (1 ≤ d ≤ d')%nat →
  mats !! d = Some (CsrBool M) → mats !! d' = Some (CsrBool M') →
  (∀ i j, entry M i j = false) →
  ∀ i j, entry M' i j = false.
Proof.
  intros Hm Hd HM HM' Hempty.
  apply get_adjacency_matrices_inv in Hm as (A0 & HA0 & Hlen & Hat).
  apply to_scipy_sparse_array_inv in HA0 as [Hne ->].
  rewrite Hat in HM by (split; [lia|by eapply lookup_lt_Some]).
  rewrite Hat in HM' by (split; [lia|by eapply lookup_lt_Some]).
  injection HM as <-. injection HM' as <-.
  assert (Hn : (0 < length (nodes G))%nat)
    by (destruct (nodes G); [congruence|simpl; lia]).
  destruct d as [|d]; [lia|].
  replace d' with (S d + (d' - S d))%nat by lia.
  apply (adj_power_stays_empty _ (length (nodes G))); [|done|done].
  rewrite zero_nonzero_diagonal_setdiag0. apply shape_setdiag0, shape_adjacency.
Qed.

(** On the single edge A - B the matrix of distance 2 is empty: A - B - A
    comes back to its start. *)
Lemma X20_witness :
  get_adjacency_matrices Samples.single_edge 4
  = Ok (Samples.powers_of Samples.single_edge 4) ∧
  (1 ≤ 2 ≤ 4)%nat ∧
  Samples.powers_of Samples.single_edge 4 !! 2%nat
  = Some (CsrBool [[false; false]; [false; false]]) ∧
  Samples.powers_of Samples.single_edge 4 !! 4%nat
  = Some (CsrBool [[false; false]; [false; false]]) ∧
  (∀ i j, entry [[false; false]; [false; false]] i j = false) ∧
  ∀ i j, entry [[false; false]; [false; false]] i j = false.
Proof.
  assert (Hempty : ∀ i j, entry [[false; false]; [false; false]] i j = false)
    by (by intros [|[|i]] [|[|j]]).
  split; [reflexivity|]. split; [lia|]. split; [reflexivity|].
  split; [reflexivity|]. split; [exact Hempty|].
  apply (X20_empty_matrix_stays_empty Samples.single_edge 4
           (Samples.powers_of Samples.single_edge 4) 2 4
           [[false; false]; [false; false]] [[false; false]; [false; false]]);
    [reflexivity|lia|reflexivity|reflexivity|exact Hempty].
Defined.
